(** * Glambook: the request-authorization and resource-ownership pipeline

    A shallow embedding of the backend's policy layer:
    - [protect]            (middleware/auth.middleware.ts)
    - [authorize]          (middleware/role.middleware.ts)
    - the service routes   (routes/service.routes.ts)
    - the service controller, in its two revisions
      ([Controller], the current one with image upload, and
       [LegacyController], the commented earlier one).

    and, beyond the policy layer, the two handlers open to vendors only
    ([VendorController]: [createService], [getMyServices]) with their routes,
    the browser's API client ([Api]), the validators of the registration form
    ([RegisterPage]) and the list logic of the vendor's dashboard
    ([VendorDashboard]).

    JavaScript objects are finite maps from property names to values, a
    number is the binary64 value the engine holds, the two MongoDB
    collections are finite maps from the hexadecimal form of a document's
    ObjectId to the document, and the asynchronous handlers are computations
    in a state-and-exception monad over the store. Of the Service schema
    (models/service.model.ts) the paths, their types and their [trim]
    setters are represented, and the cast of a value to a Number path. *)

From Stdlib Require Import Ascii String QArith.
From Stdlib Require SpecFloat.
From stdpp Require Import gmap strings list fin_maps sorting.

Set Warnings "-register-all".
Local Open Scope string_scope.
Local Open Scope Z_scope.

(** ** JavaScript values *)

Module JS.

(** A JavaScript number, that is a binary64 value. A finite one other than
    the negative zero is given by its exact value, a rational in lowest
    terms; [Finite 0] is the positive zero. *)
Inductive num : Type :=
  | NaN
  | Infinity (negative : bool)
  | NegZero
  | Finite (q : Q).

(** The values that [JSON.parse] and the query-string parser produce.  An
    ObjectId is represented by the string its [toString()] yields. *)
Inductive val : Type :=
  | VNull
  | VBool (b : bool)
  | VNum (n : num)
  | VStr (s : string)
  | VArr (l : list val)
  | VObj (l : list (string * val)).

Definition is_nan (n : num) : bool :=
  match n with NaN => true | _ => false end.

Definition num_is_zero (n : num) : bool :=
  match n with
  | Finite q => Qeq_bool q 0
  | NegZero => true
  | _ => false
  end.

(** ToBoolean. *)
Definition truthy (v : val) : bool :=
  match v with
  | VNull => false
  | VBool b => b
  | VNum n => negb (is_nan n || num_is_zero n)
  | VStr s => negb (String.eqb s "")
  | VArr _ | VObj _ => true
  end.

(** ToBoolean of a property read; an absent property is [undefined]. *)
Definition truthy_opt (o : option val) : bool :=
  match o with Some v => truthy v | None => false end.

(** *** StringToNumber (ECMA-262, StringNumericLiteral) *)

(** StrWhiteSpaceChar among the code units below 256, which are the ones a
    string of this development holds: TAB, LF, VT, FF, CR, SP and NBSP. *)
Definition is_space (c : ascii) : bool :=
  let n := N_of_ascii c in
  ((9 <=? n) && (n <=? 13) || (n =? 32) || (n =? 160))%N.

Definition digit_of (base : N) (c : ascii) : option N :=
  let n := N_of_ascii c in
  let d :=
    if ((48 <=? n) && (n <=? 57))%N then Some (n - 48)%N
    else if ((97 <=? n) && (n <=? 102))%N then Some (n - 87)%N
    else if ((65 <=? n) && (n <=? 70))%N then Some (n - 55)%N
    else None in
  match d with
  | Some k => if (k <? base)%N then Some k else None
  | None => None
  end.

(** The longest prefix of digits in [base]: its value on top of [acc], the
    number of digits read on top of [cnt], and what follows. *)
Fixpoint take_digits (base acc : N) (cnt : nat) (l : list ascii)
  : N * nat * list ascii :=
  match l with
  | c :: l' =>
      match digit_of base c with
      | Some d => take_digits base (acc * base + d)%N (S cnt) l'
      | None => (acc, cnt, l)
      end
  | [] => (acc, cnt, l)
  end.

Fixpoint drop_spaces (l : list ascii) : list ascii :=
  match l with
  | c :: l' => if is_space c then drop_spaces l' else l
  | [] => []
  end.

Definition trim (l : list ascii) : list ascii :=
  rev (drop_spaces (rev (drop_spaces l))).

(** [s.trim()]: it strips the same characters. *)
Definition trim_string (s : string) : string :=
  string_of_list_ascii (trim (list_ascii_of_string s)).

(** The value [m * 2^e] of a finite binary64 number. *)
Definition of_binary64 (m : positive) (e : Z) : Q :=
  if (0 <=? e)%Z then Qmake (Zpos m * 2 ^ e) 1
  else Qred (Qmake (Zpos m) (Z.to_pos (2 ^ (- e)))).

(** The Number value for the rational [n / d]: the binary64 number nearest
    to it, the one with an even significand when two are equally near, and
    an infinity when [n / d] is beyond the range of the finite ones. This is
    the rounding of the exact value that the engine of Node.js performs,
    whatever the number of digits. *)
Definition round_binary64 (n : N) (d : positive) : num :=
  match n with
  | N0 => Finite 0
  | Npos p =>
      let '(q, e, l) := SpecFloat.SFdiv_core_binary 53 1024 (Zpos p) 0 (Zpos d) 0 in
      match SpecFloat.binary_round_aux 53 1024 false q e l with
      | SpecFloat.S754_finite _ m e' => Finite (of_binary64 m e')
      | SpecFloat.S754_zero _ => Finite 0
      | SpecFloat.S754_infinity _ => Infinity false
      | SpecFloat.S754_nan => NaN
      end
  end.

(** The Number value for [m * 10^e]. *)
Definition scale10 (m : N) (e : Z) : num :=
  if (0 <=? e)%Z then round_binary64 (m * 10 ^ Z.to_N e) 1
  else round_binary64 m (Z.to_pos (10 ^ (- e))).

(** ExponentPart, optional, up to the end of the input. *)
Definition parse_exponent (l : list ascii) : option Z :=
  match l with
  | [] => Some 0
  | c :: l' =>
      if (Ascii.eqb c "e" || Ascii.eqb c "E")%char then
        let '(neg, l'') :=
          match l' with
          | "-"%char :: r => (true, r)
          | "+"%char :: r => (false, r)
          | _ => (false, l')
          end in
        match take_digits 10 0 0 l'' with
        | (_, O, _) => None
        | (v, _, []) => Some (if neg then - Z.of_N v else Z.of_N v)
        | _ => None
        end
      else None
  end.

(** StrUnsignedDecimalLiteral. *)
Definition parse_unsigned (l : list ascii) : num :=
  if bool_decide (l = list_ascii_of_string "Infinity") then Infinity false
  else
    let '(i, ni, r1) := take_digits 10 0 0 l in
    match r1 with
    | "."%char :: r2 =>
        let '(f, nf, r3) := take_digits 10 i 0 r2 in
        if bool_decide ((ni + nf)%nat = 0%nat) then NaN
        else match parse_exponent r3 with
             | Some e => scale10 f (e - Z.of_nat nf)
             | None => NaN
             end
    | _ =>
        if bool_decide (ni = 0%nat) then NaN
        else match parse_exponent r1 with
             | Some e => scale10 i e
             | None => NaN
             end
    end.

Definition negate (n : num) : num :=
  match n with
  | NaN => NaN
  | Infinity s => Infinity (negb s)
  | NegZero => Finite 0
  | Finite q => if Qeq_bool q 0 then NegZero else Finite (Qopp q)
  end.

(** NonDecimalIntegerLiteral: the digits after the two-character prefix. *)
Definition parse_radix (base : N) (l : list ascii) : num :=
  match take_digits base 0 0 l with
  | (_, O, _) => NaN
  | (v, _, []) => round_binary64 v 1
  | _ => NaN
  end.

Definition string_to_number (s : string) : num :=
  match trim (list_ascii_of_string s) with
  | [] => Finite 0
  | "0"%char :: c :: r =>
      if (Ascii.eqb c "x" || Ascii.eqb c "X")%char then parse_radix 16 r
      else if (Ascii.eqb c "o" || Ascii.eqb c "O")%char then parse_radix 8 r
      else if (Ascii.eqb c "b" || Ascii.eqb c "B")%char then parse_radix 2 r
      else parse_unsigned ("0"%char :: c :: r)
  | "-"%char :: r => negate (parse_unsigned r)
  | "+"%char :: r => parse_unsigned r
  | l => parse_unsigned l
  end.

(** [Number(v)].  An array is first turned into the comma-separated string of
    its elements, so an array of two or more elements never parses, and a
    one-element array converts as the string of its element does; the string
    of the negative zero is ["0"]. *)
Fixpoint Number (v : val) : num :=
  match v with
  | VNull => Finite 0
  | VBool b => Finite (if b then 1 else 0)
  | VNum n => n
  | VStr s => string_to_number s
  | VArr [] => Finite 0
  | VArr [x] =>
      match x with
      | VNull => Finite 0
      | VNum NegZero => Finite 0
      | VNum n => n
      | VStr s => string_to_number s
      | VArr _ => Number x
      | VBool _ | VObj _ => NaN
      end
  | VArr _ => NaN
  | VObj _ => NaN
  end.

End JS.

Abbreviation Object := (gmap string JS.val).

(** [s.split(sep)] for a one-character separator. *)
Fixpoint split (sep : ascii) (s : string) : list string :=
  match s with
  | EmptyString => [""]
  | String c s' =>
      if Ascii.eqb c sep then "" :: split sep s'
      else match split sep s' with
           | h :: t => String c h :: t
           | [] => [String c ""]
           end
  end.

(** A filter whose [price] condition carries a lower or an upper bound that
    is NaN. *)
Definition nan_bound (filter : Object) : bool :=
  match filter !! "price" with
  | Some (JS.VObj l) =>
      existsb (fun kv =>
                 (String.eqb kv.1 "$gte" || String.eqb kv.1 "$lte") &&
                 match kv.2 with JS.VNum n => JS.is_nan n | _ => false end) l
  | _ => false
  end.

(** ** Exceptions *)

Record Exn : Type := mkExn {
  exn_name : string;
  exn_message : string;
  exn_errors : list string
}.

Definition TypeError (msg : string) : Exn := mkExn "TypeError" msg [].
Definition CastError (msg : string) : Exn := mkExn "CastError" msg [].
Definition ValidationError (msgs : list string) : Exn :=
  mkExn "ValidationError" "Validation failed" msgs.
Definition JsonWebTokenError (msg : string) : Exn :=
  mkExn "JsonWebTokenError" msg [].
Definition MongooseError (msg : string) : Exn := mkExn "MongooseError" msg [].

(** ** The external collaborators

    The ObjectId format, the token verifier and the parts of the query and
    update semantics that belong to the database driver are not code of this
    repository; they are the interface the policy layer is written against. *)

Class Driver : Type := {
  (** [mongoose.Types.ObjectId.isValid]. *)
  ObjectId_isValid : string -> bool;
  (** [new mongoose.Types.ObjectId(id).toString()] for a valid [id]: the
      hexadecimal form of the ObjectId that [id] is cast to. Two spellings
      of one ObjectId, such as the upper-case and the lower-case one, have
      the same form. *)
  ObjectId_hex : string -> string;
  (** [jwt.verify(token, process.env.JWT_SECRET)]: the [id] of the decoded
      payload, or the message of the error it throws. *)
  jwt_verify : string -> string + string;
  (** Whether the driver can cast a filter to the Service schema; when it
      cannot, the query rejects with a CastError. *)
  filter_castable : Object -> bool;
  (** The message of the CastError for a filter that cannot be cast. *)
  filter_cast_message : Object -> string;
  (** How the driver decides a condition that is not a plain string (an
      operator object such as [{$gte: 10}], an array, ...) against the value
      a document has at that path. *)
  condition_holds : JS.val -> option JS.val -> bool;
  (** The messages of the schema validators that reject the fields an update
      sets ([runValidators: true]); none when the fields are valid. *)
  run_validators : Object -> list string;
  (** What the driver makes of an update that is not of the kind represented
      here, applied to the document with the given id, if there is one: an
      update that carries an operator other than [$set], such as [$inc] or
      [$unset], or that writes at [vendorId] a value that is not a string.
      The answer is the document after the update, or the error thrown. *)
  apply_update : Object -> option Object -> Exn + option Object;
  (** A number path takes no NaN: the cast of a number asserts that the
      value is not NaN, for a bound as for a plain value. *)
  filter_castable_nan filter :
    nan_bound filter = true -> filter_castable filter = false
}.

(** ** The store *)

Inductive StoreCall : Type :=
  | User_findById_call (id : string)
  | Service_find_call (filter : Object)
  | Service_findById_call (id : string)
  | Service_findByIdAndUpdate_call (id : string) (update : Object)
  | Service_findByIdAndDelete_call (id : string).

(** The two collections, each keyed by the hexadecimal form of the document's
    ObjectId ([ObjectId_hex]), and the calls issued to the driver so far, as
    they were issued, oldest first. *)
Record Store : Type := mkStore {
  services : gmap string Object;
  users : gmap string Object;
  calls : list StoreCall
}.

Definition record_call (c : StoreCall) (st : Store) : Store :=
  mkStore (services st) (users st) (calls st ++ [c]).

Definition set_services (m : gmap string Object) (st : Store) : Store :=
  mkStore m (users st) (calls st).

(** ** The handler monad *)

Definition M (A : Type) : Type := Store -> (Exn + A) * Store.

Definition ret {A} (a : A) : M A := fun st => (inr a, st).
Definition throw {A} (e : Exn) : M A := fun st => (inl e, st).
Definition bind {A B} (m : M A) (k : A -> M B) : M B :=
  fun st =>
    match m st with
    | (inl e, st') => (inl e, st')
    | (inr a, st') => k a st'
    end.

Notation "'let*' x := c 'in' k" := (bind c (fun x => k))
  (at level 10, x name, c at level 100, k at level 200, only parsing).

(** [try { body } catch (error) { handler }]. *)
Definition try_catch {A} (body : M A) (handler : Exn -> A) : Store -> A * Store :=
  fun st =>
    match body st with
    | (inr a, st') => (a, st')
    | (inl e, st') => (handler e, st')
    end.

(** *** Responses *)

Inductive Payload : Type :=
  | One (doc : option Object)
  | Many (docs : list Object).

(** [res.status(status).json({success, message, count, data, error, errors})];
    a key the handler does not write is [None]. *)
Record Response : Type := mkResponse {
  status : nat;
  success : option bool;
  message : option string;
  count : option nat;
  data : option Payload;
  error : option string;
  errors : option (list string)
}.

Definition fail_json (code : nat) (msg : string) : Response :=
  mkResponse code (Some false) (Some msg) None None None None.

Definition error_json (code : nat) (msg : string) (e : Exn) : Response :=
  mkResponse code (Some false) (Some msg) None None (Some (exn_message e)) None.

(** *** Requests *)

Record Request : Type := mkRequest {
  authorization : option string;   (* req.headers.authorization *)
  params_id : string;              (* req.params.id *)
  query : Object;                  (* req.query *)
  body : Object;                   (* req.body *)
  file : option string;            (* req.file.filename *)
  user : option Object             (* req.user *)
}.

Definition set_user (u : option Object) (req : Request) : Request :=
  mkRequest (authorization req) (params_id req) (query req) (body req)
            (file req) u.

(** What a middleware does: answer, or hand the request on with [next()]. *)
Inductive Step : Type :=
  | Respond (r : Response)
  | Next (req : Request).

(** ** models/service.model.ts

    The paths the Service schema declares, each with its type. Both revisions
    of the schema declare the first seven; [imageUrl] is the current one's. *)
Inductive SchemaType : Type :=
  | SchemaString
  | SchemaNumber
  | SchemaObjectId.

Definition ServiceSchema : list (string * SchemaType) :=
  [("title", SchemaString); ("description", SchemaString);
   ("price", SchemaNumber); ("duration", SchemaNumber);
   ("category", SchemaString); ("status", SchemaString);
   ("vendorId", SchemaObjectId); ("imageUrl", SchemaString)].

Definition path_type (k : string) : option SchemaType :=
  (list_to_map ServiceSchema : gmap string SchemaType) !! k.

(** The paths declared with [trim: true]. *)
Definition trimmed_paths : list string := ["title"; "description"; "category"].

(** What the driver stores for the value [v] given at the path [k], on
    creation and on update, in the cases this development represents. At a
    String path the setter of [trim: true] replaces a string [s] by
    [s.trim()]. At a Number path the empty string is cast to [null], any
    other string to [Number(s)] when that is a number, and a boolean to 0 or
    1. A value in none of these cases is left as it is: the cast of a number
    to a string, of a string that is no number, of an array and of an object
    are not represented, and what is written at [vendorId] is an ObjectId
    already. *)
Definition cast_value (k : string) (v : JS.val) : JS.val :=
  match path_type k, v with
  | Some SchemaString, JS.VStr s =>
      if bool_decide (k ∈ trimmed_paths) then JS.VStr (JS.trim_string s) else v
  | Some SchemaNumber, JS.VStr s =>
      if String.eqb s "" then JS.VNull
      else match JS.Number v with
           | JS.NaN => v
           | n => JS.VNum n
           end
  | Some SchemaNumber, JS.VBool b => JS.VNum (JS.Finite (if b then 1 else 0))
  | _, _ => v
  end.

Definition cast_fields (doc : Object) : Object :=
  map_imap (fun k v => Some (cast_value k v)) doc.

(** ** The driver's operations on the two collections *)

Section Collections.
Context `{Driver}.

(** [Model.findById(id)]: the id is cast to an ObjectId. A string that is
    not one cannot be cast and the query rejects; otherwise the answer is
    the document with that ObjectId, however the string spells it, or
    [null]. *)
Definition cast_id (id : string) : M string :=
  if ObjectId_isValid id then ret (ObjectId_hex id)
  else throw (CastError "Cast to ObjectId failed").

Definition User_findById (id : string) : M (option Object) :=
  fun st =>
    let st := record_call (User_findById_call id) st in
    (let* k := cast_id id in ret (users st !! k)) st.

Definition Service_findById (id : string) : M (option Object) :=
  fun st =>
    let st := record_call (Service_findById_call id) st in
    (let* k := cast_id id in ret (services st !! k)) st.

(** [.select('-password')]. *)
Definition select_without (field : string) (doc : option Object) : option Object :=
  delete field <$> doc.

(** [.populate('vendorId', fields)]: the owner's id is replaced by the owner's
    document restricted to [_id] and [fields], or by [null] when there is no
    such user. *)
Definition project (fields : list string) (doc : Object) : list (string * JS.val) :=
  omap (fun k => pair k <$> doc !! k) ("_id" :: fields).

Definition populate_vendorId (fields : list string) (us : gmap string Object)
    (doc : Object) : Object :=
  match doc !! "vendorId" with
  | Some (JS.VStr vid) =>
      match us !! vid with
      | Some u => <["vendorId" := JS.VObj (project fields u)]> doc
      | None => <["vendorId" := JS.VNull]> doc
      end
  | _ => doc
  end.

(** One condition of a filter against the value at its path. A plain string
    is an equality on a string path. *)
Definition field_matches (cond : JS.val) (actual : option JS.val) : bool :=
  match cond with
  | JS.VStr s =>
      match actual with
      | Some (JS.VStr t) => String.eqb s t
      | _ => false
      end
  | _ => condition_holds cond actual
  end.

(** A document satisfies a filter when it satisfies each of its conditions. *)
Definition matches (filter doc : Object) : bool :=
  forallb (fun kc => field_matches kc.2 (doc !! kc.1)) (map_to_list filter).

(** [.sort({ createdAt: -1 })]: newest first, stable. *)
Definition createdAt (doc : Object) : Q :=
  match doc !! "createdAt" with
  | Some (JS.VNum (JS.Finite q)) => q
  | _ => 0%Q
  end.

Fixpoint insert_newest (d : Object) (l : list Object) : list Object :=
  match l with
  | [] => [d]
  | x :: l' =>
      if Qle_bool (createdAt x) (createdAt d) then d :: l
      else x :: insert_newest d l'
  end.

Definition sort_newest (l : list Object) : list Object :=
  foldr insert_newest [] l.

(** [Service.find(filter).sort({ createdAt: -1 })]. *)
Definition Service_find (filter : Object) : M (list Object) :=
  fun st =>
    let st := record_call (Service_find_call filter) st in
    if filter_castable filter then
      (inr (sort_newest (List.filter (matches filter) (map_to_list (services st)).*2)), st)
    else (inl (CastError (filter_cast_message filter)), st).

(** The paths an update document sets, for an update whose only operator, if
    it has one, is [$set]. Top-level keys that are not update operators are
    treated as [$set] operations, and the object under a top-level [$set]
    sets its own keys; where both name a path the top-level key is the one
    written. The schema casts a string written at [vendorId] to an
    ObjectId. An update of another kind is left to [apply_update]. *)
Definition is_operator (k : string) : bool := String.prefix "$" k.

Definition plain_fields (update : Object) : Object :=
  filter (fun kv => is_operator kv.1 = false) update.

Definition operators (update : Object) : list string :=
  List.filter is_operator (map_to_list update).*1.

Definition set_fields (update : Object) : option Object :=
  match operators update with
  | [] => Some (plain_fields update)
  | ["$set"] =>
      match update !! "$set" with
      | Some (JS.VObj l) => Some (plain_fields update ∪ list_to_map l)
      | _ => None
      end
  | _ => None
  end.

Definition cast_update (update : Object) : M (option Object) :=
  match set_fields update with
  | None => ret None
  | Some sets =>
      match sets !! "vendorId" with
      | None => ret (Some sets)
      | Some (JS.VStr s) =>
          if ObjectId_isValid s
          then ret (Some (<["vendorId" := JS.VStr (ObjectId_hex s)]> sets))
          else throw (CastError "Cast to ObjectId failed")
      | Some _ => ret None
      end
  end.

(** The document [doc'] takes the place of the one with the key [k], if the
    update yields one. *)
Definition write_back (k : string) (doc' : option Object) : M (option Object) :=
  fun st =>
    match doc' with
    | Some d => (inr (Some d), set_services (<[k := d]> (services st)) st)
    | None => (inr None, st)
    end.

(** [Service.findByIdAndUpdate(id, update, { new: true, runValidators: true })]:
    the document after the update, or [null] when there is none with that id.
    The fields are written as the schema casts them ([cast_value]). What the
    driver does to a path the schema does not declare and to the [updatedAt]
    timestamp is not represented. *)
Definition Service_findByIdAndUpdate (id : string) (update : Object)
  : M (option Object) :=
  fun st =>
    let st := record_call (Service_findByIdAndUpdate_call id update) st in
    (let* k := cast_id id in
     let* fields := cast_update update in
     match fields with
     | Some sets =>
         match run_validators sets with
         | (_ :: _) as msgs => throw (ValidationError msgs)
         | [] =>
             fun st =>
               write_back k ((fun doc => cast_fields sets ∪ doc) <$> services st !! k) st
         end
     | None =>
         fun st =>
           match apply_update update (services st !! k) with
           | inl e => (inl e, st)
           | inr doc' => write_back k doc' st
           end
     end) st.

(** [Service.findByIdAndDelete(id)]. *)
Definition Service_findByIdAndDelete (id : string) : M (option Object) :=
  fun st =>
    let st := record_call (Service_findByIdAndDelete_call id) st in
    (let* k := cast_id id in
     fun st => (inr (services st !! k), set_services (delete k (services st)) st)) st.

End Collections.

(** ** middleware/auth.middleware.ts *)

Section Middleware.
Context `{Driver}.

(** The bearer token of the request, if the header carries one:
    [authorization.split(' ')[1]] when the header starts with [Bearer]. *)
Definition bearer_token (req : Request) : option string :=
  match authorization req with
  | Some h =>
      if negb (String.eqb h "") && String.prefix "Bearer" h
      then split " " h !! 1%nat
      else None
  | None => None
  end.

Definition protect (req : Request) : Store -> Step * Store :=
  try_catch
    (match bearer_token req with
     | Some (String _ _ as token) =>
         let* decoded_id :=
           match jwt_verify token with
           | inl msg => throw (JsonWebTokenError msg)
           | inr id => ret id
           end in
         let* found := User_findById decoded_id in
         let req := set_user (select_without "password" found) req in
         match user req with
         | None => ret (Respond (fail_json 401 "User not found"))
         | Some _ => ret (Next req)
         end
     | _ => ret (Respond (fail_json 401 "Not authorized, no token"))
     end)
    (fun e => Respond (error_json 401 "Not authorized, token failed" e)).

(** ** middleware/role.middleware.ts *)

(** [roles.includes(role)] for the [role] property of the user. *)
Definition includes (roles : list string) (role : option JS.val) : bool :=
  match role with
  | Some (JS.VStr r) => existsb (String.eqb r) roles
  | _ => false
  end.

(** The answer Express gives when a middleware throws outside any [try]. *)
Definition express_error (e : Exn) : Response :=
  mkResponse 500 None None None None (Some (exn_message e)) None.

Definition authorize (roles : list string) (req : Request) : Store -> Step * Store :=
  fun st =>
    match user req with
    | None =>
        (Respond (express_error
           (TypeError "Cannot read properties of undefined (reading 'role')")), st)
    | Some u =>
        if negb (includes roles (u !! "role")) then
          (Respond (mkResponse 403 None
                      (Some "Access denied: insufficient permissions")
                      None None None None), st)
        else (Next req, st)
    end.

End Middleware.

(** ** controllers/service.controller.ts *)

Definition isValidObjectId `{Driver} (id : string) : bool := ObjectId_isValid id.

(** A value the driver can cast to the type of a path, among the cases
    represented: a string at a String path; at a Number path a number other
    than NaN, a string that is empty or parses to a number, and a boolean; a
    valid id at an ObjectId path; and [null] at any. *)
Definition has_type `{Driver} (t : SchemaType) (v : JS.val) : bool :=
  match v, t with
  | JS.VNull, _ => true
  | JS.VStr _, SchemaString => true
  | JS.VNum n, SchemaNumber => negb (JS.is_nan n)
  | JS.VStr _, SchemaNumber => negb (JS.is_nan (JS.Number v))
  | JS.VBool _, SchemaNumber => true
  | JS.VStr s, SchemaObjectId => ObjectId_isValid s
  | _, _ => false
  end.

Definition typed_at `{Driver} (k : string) (v : JS.val) : bool :=
  match path_type k with
  | Some t => has_type t v
  | None => false
  end.

(** Every property of the object is at a path the schema declares and has a
    value the driver can cast to the type of that path. *)
Definition well_typed `{Driver} (doc : Object) : Prop :=
  map_Forall (fun k v => typed_at k v = true) doc.

(** [(req as any).user.p]: reading a property of [req.user], which throws when
    the request carries no user. *)
Definition user_prop (req : Request) (p : string) : M (option JS.val) :=
  match user req with
  | Some u => ret (u !! p)
  | None => throw (TypeError "Cannot read properties of undefined")
  end.

(** [x.toString()] for the value at an ObjectId path. It throws on [undefined]
    and [null]. The schema stores nothing but an ObjectId there, so the model
    gives no string to any other value either. *)
Definition toString (x : option JS.val) : M string :=
  match x with
  | Some (JS.VStr s) => ret s
  | _ => throw (TypeError "Cannot read properties of undefined (reading 'toString')")
  end.

Definition isClient (userRole : option JS.val) : bool :=
  match userRole with
  | Some (JS.VStr r) => String.eqb r "client"
  | _ => false
  end.

Definition isAdminRole (userRole : option JS.val) : bool :=
  match userRole with
  | Some (JS.VStr r) => String.eqb r "admin"
  | _ => false
  end.

(** [query[k] = v] when [cond] holds. *)
Definition assign_if (cond : bool) (k : string) (v : option JS.val)
    (q : Object) : Object :=
  match v with
  | Some x => if cond then <[k := x]> q else q
  | None => q
  end.

(** The object assigned to [query.price]. *)
Definition price_bounds (minPrice maxPrice : option JS.val) : JS.val :=
  JS.VObj
    (match minPrice with
     | Some v => if JS.truthy v then [("$gte", JS.VNum (JS.Number v))] else []
     | None => []
     end ++
     match maxPrice with
     | Some v => if JS.truthy v then [("$lte", JS.VNum (JS.Number v))] else []
     | None => []
     end).

Definition validation_json (e : Exn) : Response :=
  mkResponse 400 (Some false) (Some "Validation failed") None None None
             (Some (exn_errors e)).

Definition invalid_id : Response := fail_json 400 "Invalid service ID format".
Definition not_found : Response := fail_json 404 "Service not found".

(** The current revision of the controller. *)
Module Controller.
Section Controller.
Context `{Driver}.

(** The filter [getAllServices] builds from the caller's role and the raw
    query parameters. *)
Definition getAllServices_query (userRole : option JS.val) (params : Object) : Object :=
  let query : Object := ∅ in
  let query := if isClient userRole then <["status" := JS.VStr "active"]> query else query in
  let category := params !! "category" in
  let status := params !! "status" in
  let minPrice := params !! "minPrice" in
  let maxPrice := params !! "maxPrice" in
  let query := assign_if (JS.truthy_opt category) "category" category query in
  let query :=
    assign_if (JS.truthy_opt status && negb (isClient userRole)) "status" status query in
  if JS.truthy_opt minPrice || JS.truthy_opt maxPrice
  then <["price" := price_bounds minPrice maxPrice]> query
  else query.

Definition getAllServices (req : Request) : Store -> Response * Store :=
  try_catch
    (let* userRole := user_prop req "role" in
     let query := getAllServices_query userRole (query req) in
     let* found := Service_find query in
     fun st =>
       let services := populate_vendorId ["name"; "email"] (users st) <$> found in
       (inr (mkResponse 200 (Some true) None (Some (length services))
                        (Some (Many services)) None None), st))
    (error_json 500 "Failed to fetch services").

Definition getServiceById (req : Request) : Store -> Response * Store :=
  try_catch
    (let id := params_id req in
     if negb (isValidObjectId id) then ret invalid_id
     else
       let* found := Service_findById id in
       fun st =>
         match populate_vendorId ["name"; "email"; "phone"] (users st) <$> found with
         | None => (inr not_found, st)
         | Some service =>
             (inr (mkResponse 200 (Some true) None None (Some (One (Some service)))
                              None None), st)
         end)
    (error_json 500 "Failed to fetch service").

Definition updateService (req : Request) : Store -> Response * Store :=
  try_catch
    (let id := params_id req in
     let* vendorId := user_prop req "_id" in
     let updateData := body req in
     if negb (isValidObjectId id) then ret invalid_id
     else
       let* found := Service_findById id in
       match found with
       | None => ret not_found
       | Some service =>
           let* owner := toString (service !! "vendorId") in
           let* caller := toString vendorId in
           if negb (String.eqb owner caller) then
             ret (fail_json 403 "You are not authorized to update this service")
           else
             let updateData := delete "vendorId" updateData in
             let updateData :=
               match file req with
               | Some filename =>
                   <["imageUrl" := JS.VStr ("/uploads/services/" +:+ filename)]> updateData
               | None => updateData
               end in
             let* updatedService := Service_findByIdAndUpdate id updateData in
             ret (mkResponse 200 (Some true) (Some "Service updated successfully") None
                             (Some (One updatedService)) None None)
       end)
    (fun e =>
       if String.eqb (exn_name e) "ValidationError" then validation_json e
       else error_json 500 "Failed to update service" e).

Definition deleteService (req : Request) : Store -> Response * Store :=
  try_catch
    (let id := params_id req in
     let* userId := user_prop req "_id" in
     let* userRole := user_prop req "role" in
     if negb (isValidObjectId id) then ret invalid_id
     else
       let* found := Service_findById id in
       match found with
       | None => ret not_found
       | Some service =>
           let* owner := toString (service !! "vendorId") in
           let* caller := toString userId in
           let isOwner := String.eqb owner caller in
           let isAdmin := isAdminRole userRole in
           if negb isOwner && negb isAdmin then
             ret (fail_json 403 "You are not authorized to delete this service")
           else
             let* _ := Service_findByIdAndDelete id in
             ret (mkResponse 200 (Some true) (Some "Service deleted successfully") None
                             None None None)
       end)
    (error_json 500 "Failed to delete service").

End Controller.
End Controller.

(** The earlier revision of the controller, kept in the repository next to
    the current one. Its listing and its update are embedded here; it has no
    image upload. *)
Module LegacyController.
Section LegacyController.
Context `{Driver}.

Definition getAllServices_query (userRole : option JS.val) (params : Object) : Object :=
  let query : Object := ∅ in
  (* If user is CLIENT, show only ACTIVE services *)
  let query := if isClient userRole then <["status" := JS.VStr "active"]> query else query in
  (* If user is ADMIN, show ALL services (no filter) *)
  (* If user is VENDOR, show all (they might want to see inactive too) *)
  let category := params !! "category" in
  let status := params !! "status" in
  let minPrice := params !! "minPrice" in
  let maxPrice := params !! "maxPrice" in
  let query := assign_if (JS.truthy_opt category) "category" category query in
  (* Clients can't filter by status *)
  let query :=
    assign_if (JS.truthy_opt status && negb (isClient userRole)) "status" status query in
  (* Price range filter *)
  if JS.truthy_opt minPrice || JS.truthy_opt maxPrice
  then <["price" := price_bounds minPrice maxPrice]> query
  else query.

Definition getAllServices (req : Request) : Store -> Response * Store :=
  try_catch
    (let* userRole := user_prop req "role" in
     let query := getAllServices_query userRole (query req) in
     let* found := Service_find query in
     fun st =>
       let services := populate_vendorId ["name"; "email"] (users st) <$> found in
       (inr (mkResponse 200 (Some true) None (Some (length services))
                        (Some (Many services)) None None), st))
    (error_json 500 "Failed to fetch services").

Definition updateService (req : Request) : Store -> Response * Store :=
  try_catch
    (let id := params_id req in
     let* vendorId := user_prop req "_id" in
     let updateData := body req in
     (* STEP 1: Validate ID *)
     if negb (isValidObjectId id) then ret invalid_id
     else
       (* STEP 2: Find the service *)
       let* found := Service_findById id in
       match found with
       | None => ret not_found
       | Some service =>
           (* STEP 3: Check ownership *)
           let* owner := toString (service !! "vendorId") in
           let* caller := toString vendorId in
           if negb (String.eqb owner caller) then
             ret (fail_json 403 "You are not authorized to update this service")
           else
             (* STEP 4: Prevent vendorId from being changed *)
             let updateData := delete "vendorId" updateData in
             (* STEP 5: Update the service *)
             let* updatedService := Service_findByIdAndUpdate id updateData in
             ret (mkResponse 200 (Some true) (Some "Service updated successfully") None
                             (Some (One updatedService)) None None)
       end)
    (fun e =>
       if String.eqb (exn_name e) "ValidationError" then validation_json e
       else error_json 500 "Failed to update service" e).

End LegacyController.
End LegacyController.

(** ** routes/service.routes.ts *)

Module Routes.
Section Routes.
Context `{Driver}.

(** A route: its middleware in order, then the controller. *)
Fixpoint route (middleware : list (Request -> Store -> Step * Store))
    (controller : Request -> Store -> Response * Store)
    (req : Request) (st : Store) : Response * Store :=
  match middleware with
  | [] => controller req st
  | m :: rest =>
      match m req st with
      | (Respond r, st') => (r, st')
      | (Next req', st') => route rest controller req' st'
      end
  end.

(** GET /api/services *)
Definition get_all : Request -> Store -> Response * Store :=
  route [protect; authorize ["client"; "admin"; "vendor"]] Controller.getAllServices.

(** GET /api/services/:id *)
Definition get_by_id : Request -> Store -> Response * Store :=
  route [protect; authorize ["client"; "vendor"; "admin"]] Controller.getServiceById.

(** PUT /api/services/:id *)
Definition put : Request -> Store -> Response * Store :=
  route [protect; authorize ["vendor"]] Controller.updateService.

(** DELETE /api/services/:id *)
Definition delete : Request -> Store -> Response * Store :=
  route [protect; authorize ["vendor"; "admin"]] Controller.deleteService.

End Routes.
End Routes.

(** ** The answers of the controller and of the role gate *)

Definition update_forbidden : Response :=
  fail_json 403 "You are not authorized to update this service".
Definition delete_forbidden : Response :=
  fail_json 403 "You are not authorized to delete this service".
Definition deleted : Response :=
  mkResponse 200 (Some true) (Some "Service deleted successfully") None None None None.
Definition updated (doc : option Object) : Response :=
  mkResponse 200 (Some true) (Some "Service updated successfully") None
             (Some (One doc)) None None.
Definition found (doc : Object) : Response :=
  mkResponse 200 (Some true) None None (Some (One (Some doc))) None None.
Definition listing (docs : list Object) : Response :=
  mkResponse 200 (Some true) None (Some (length docs)) (Some (Many docs)) None None.
Definition access_denied : Response :=
  mkResponse 403 None (Some "Access denied: insufficient permissions")
             None None None None.

(** The update document [updateService] hands to the driver: the body
    without its [vendorId], and with the uploaded image's path if there is
    one. *)
Definition issued_update (req : Request) : Object :=
  let updateData := delete "vendorId" (body req) in
  match file req with
  | Some filename =>
      <["imageUrl" := JS.VStr ("/uploads/services/" +:+ filename)]> updateData
  | None => updateData
  end.

(** ** The outcomes the transport layer sees *)

Definition Unauthenticated (r : Response) : Prop := status r = 401%nat.
Definition Forbidden (r : Response) : Prop := status r = 403%nat.
Definition InvalidIdentifier (r : Response) : Prop := r = invalid_id.
Definition NotFound (r : Response) : Prop := r = not_found.
Definition Succeeded (r : Response) : Prop :=
  status r = 200%nat /\ success r = Some true.

(** A document's [status] is [active]. *)
Definition is_active (doc : Object) : Prop := doc !! "status" = Some (JS.VStr "active").

(** ** A reference driver

    Used to run the handlers on concrete requests: an ObjectId is a string of
    24 hexadecimal digits, in either case, and its hexadecimal form is the
    lower-case one; a token [signed.<id>] verifies to [<id>]; a filter can be
    cast unless it carries a NaN bound; an object of [$gte] and [$lte]
    bounds holds of the numbers within them, and no other condition that is
    not a plain string holds of anything; the validators accept every
    update; and an update that carries an operator other than [$set] is
    refused. *)
Module Reference.

Definition is_hex24 (s : string) : bool :=
  let l := list_ascii_of_string s in
  bool_decide (length l = 24%nat) &&
  forallb (fun c => bool_decide (is_Some (JS.digit_of 16 c))) l.

(** The letters A to F in lower case. *)
Definition lower_hex_digit (c : ascii) : ascii :=
  let n := N_of_ascii c in
  if ((65 <=? n) && (n <=? 70))%N then ascii_of_N (n + 32) else c.

Fixpoint lower_hex (s : string) : string :=
  match s with
  | EmptyString => EmptyString
  | String c s' => String (lower_hex_digit c) (lower_hex s')
  end.

(** [a <= b] on numbers; it holds of no NaN. *)
Definition num_le (a b : JS.num) : bool :=
  match a, b with
  | JS.NaN, _ | _, JS.NaN => false
  | JS.Infinity true, _ | _, JS.Infinity false => true
  | JS.Infinity false, _ | _, JS.Infinity true => false
  | JS.NegZero, JS.NegZero => true
  | JS.NegZero, JS.Finite y => Qle_bool 0 y
  | JS.Finite x, JS.NegZero => Qle_bool x 0
  | JS.Finite x, JS.Finite y => Qle_bool x y
  end.

Definition bound_holds (actual : option JS.val) (bound : string * JS.val) : bool :=
  match actual, bound.2 with
  | Some (JS.VNum x), JS.VNum b =>
      if String.eqb bound.1 "$gte" then num_le b x
      else if String.eqb bound.1 "$lte" then num_le x b
      else false
  | _, _ => false
  end.

Definition holds (cond : JS.val) (actual : option JS.val) : bool :=
  match cond with
  | JS.VObj ((_ :: _) as bounds) => forallb (bound_holds actual) bounds
  | _ => false
  end.

Definition quoted (s : string) : string :=
  String (ascii_of_N 34) (s +:+ String (ascii_of_N 34) "").

Definition cast_message : string :=
  "Cast to Number failed for value " +:+ quoted "NaN" +:+
  " (type number) at path " +:+ quoted "price" +:+
  " for model " +:+ quoted "Service".

Definition verify (token : string) : string + string :=
  if String.prefix "signed." token
  then inr (String.substring 7 (String.length token - 7) token)
  else inl "invalid signature".

Definition driver : Driver := {|
  ObjectId_isValid := is_hex24;
  ObjectId_hex := lower_hex;
  jwt_verify := verify;
  filter_castable := fun filter => negb (nan_bound filter);
  filter_cast_message := fun _ => cast_message;
  condition_holds := holds;
  run_validators := fun _ => [];
  apply_update := fun _ _ => inl (MongooseError "update outside the reference driver");
  filter_castable_nan := fun filter (E : nan_bound filter = true) => f_equal negb E
|}.

End Reference.

(** ** A small deployment

    Two vendors, a client and an administrator; vendor one owns an active and
    an inactive service. *)
Module Fixture.

Definition vendor1_id := "64b7f1a2c3d4e5f601234501".
Definition vendor2_id := "64b7f1a2c3d4e5f601234502".
Definition client_id  := "64b7f1a2c3d4e5f601234503".
Definition admin_id   := "64b7f1a2c3d4e5f601234504".
Definition ghost_id   := "64b7f1a2c3d4e5f6012345ff".
Definition haircut_id := "64b7f1a2c3d4e5f601234a01".
Definition facial_id  := "64b7f1a2c3d4e5f601234a02".
Definition absent_id  := "64b7f1a2c3d4e5f601234a99".

Definition account (id name role : string) : Object :=
  list_to_map [("_id", JS.VStr id); ("name", JS.VStr name);
               ("email", JS.VStr (name +:+ "@glambook.test"));
               ("password", JS.VStr "$2a$10$hash"); ("role", JS.VStr role)].

Definition service (id title category status owner : string) (price created : Z) : Object :=
  list_to_map [("_id", JS.VStr id); ("title", JS.VStr title);
               ("category", JS.VStr category); ("status", JS.VStr status);
               ("price", JS.VNum (JS.Finite (price # 1)));
               ("vendorId", JS.VStr owner);
               ("createdAt", JS.VNum (JS.Finite (created # 1)))].

Definition store : Store :=
  mkStore
    (list_to_map
       [(haircut_id, service haircut_id "Haircut" "Hair" "active" vendor1_id 50 1);
        (facial_id, service facial_id "Facial" "Skincare" "inactive" vendor1_id 80 2)])
    (list_to_map
       [(vendor1_id, account vendor1_id "vera" "vendor");
        (vendor2_id, account vendor2_id "victor" "vendor");
        (client_id, account client_id "clara" "client");
        (admin_id, account admin_id "adam" "admin")])
    [].

(** A request as the transport delivers it, before authentication. *)
Definition request (auth : option string) (id : string) (q b : Object) : Request :=
  mkRequest auth id q b None None.

Definition bearer (id : string) : option string := Some ("Bearer signed." +:+ id).

(** The identity [protect] attaches for an account. *)
Definition identity (id name role : string) : option Object :=
  Some (delete "password" (account id name role)).

Definition as_admin (req : Request) : Request :=
  set_user (identity admin_id "adam" "admin") req.
Definition as_client (req : Request) : Request :=
  set_user (identity client_id "clara" "client") req.
Definition as_vendor1 (req : Request) : Request :=
  set_user (identity vendor1_id "vera" "vendor") req.

(** The requests used below, as they arrive. *)
Definition no_token : Request := request None haircut_id ∅ ∅.
Definition forged : Request := request (Some "Bearer forged") haircut_id ∅ ∅.
Definition ghost : Request := request (bearer ghost_id) haircut_id ∅ ∅.
Definition admin_on_haircut : Request := request (bearer admin_id) haircut_id ∅ ∅.
Definition vendor1_on_haircut : Request := request (bearer vendor1_id) haircut_id ∅ ∅.
Definition client_on_facial : Request := request (bearer client_id) facial_id ∅ ∅.
Definition client_on_garbage : Request := request (bearer client_id) "abc123" ∅ ∅.
Definition client_on_absent : Request := request (bearer client_id) absent_id ∅ ∅.
Definition client_lists_inactive : Request :=
  request (bearer client_id) "" {["status" := JS.VStr "inactive"]} ∅.

(** The id of the haircut in upper case, and requests that spell it so. *)
Definition haircut_ID := "64B7F1A2C3D4E5F601234A01".
Definition client_on_HAIRCUT : Request := request (bearer client_id) haircut_ID ∅ ∅.
Definition admin_on_HAIRCUT : Request := request (bearer admin_id) haircut_ID ∅ ∅.

(** GET /api/services?minPrice=abc and ?minPrice=60 by the administrator. *)
Definition admin_min_abc : Request :=
  request (bearer admin_id) "" {["minPrice" := JS.VStr "abc"]} ∅.
Definition admin_min_60 : Request :=
  request (bearer admin_id) "" {["minPrice" := JS.VStr "60"]} ∅.

(** PUT by the owner with the body [{"$set": {"vendorId": "<vendor two>"}}]. *)
Definition takeover : Request :=
  request (bearer vendor1_id) haircut_id ∅
          {["$set" := JS.VObj [("vendorId", JS.VStr vendor2_id)]]}.

(** The store once [protect] has looked an account up. *)
Definition looked_up (id : string) : Store := record_call (User_findById_call id) store.

Definition haircut : Object :=
  service haircut_id "Haircut" "Hair" "active" vendor1_id 50 1.
Definition facial : Object :=
  service facial_id "Facial" "Skincare" "inactive" vendor1_id 80 2.

Definition owner_of (id : string) (st : Store) : option JS.val :=
  services st !! id ≫= (.!! "vendorId").

End Fixture.

(** ** Creating a service and listing one's own

    [createService] and [getMyServices], the two handlers of the controller
    that are open to vendors only, their routes, and what they need of the
    driver. *)

(** What the driver supplies when a document is created. *)
Class Creation : Type := {
  (** The ObjectId generated for the new document. *)
  new_ObjectId : Store -> string;
  (** The time written to [createdAt]. *)
  now : Store -> Q;
  (** The messages of the validation error of a new document; none when it
      is valid. A value that cannot be cast to the type of its path is
      reported among them, as the schema validators' rejections are. *)
  validate_document : Object -> list string
}.

Definition MongoServerError (msg : string) : Exn := mkExn "MongoServerError" msg [].

(** [Service.create(doc)]: the document is validated, given its [_id] and its
    [createdAt], and inserted as the schema casts it ([cast_value]); an
    [_id] already in the collection is a duplicate-key error. The
    [updatedAt] timestamp is not represented. *)
Definition Service_create `{Creation} (doc : Object) : M Object :=
  fun st =>
    match validate_document doc with
    | (_ :: _) as msgs => (inl (ValidationError msgs), st)
    | [] =>
        let id := new_ObjectId st in
        match services st !! id with
        | Some _ => (inl (MongoServerError "E11000 duplicate key error"), st)
        | None =>
            let doc' :=
              <["createdAt" := JS.VNum (JS.Finite (now st))]>
                (<["_id" := JS.VStr id]> (cast_fields doc)) in
            (inr doc', set_services (<[id := doc']> (services st)) st)
        end
    end.

(** [a || b]. *)
Definition or_else (a b : option JS.val) : option JS.val :=
  if JS.truthy_opt a then a else b.

(** [{ k: v }] for a [v] that may be [undefined]: the driver serialises an
    [undefined] value as [null]. *)
Definition or_null (v : option JS.val) : JS.val :=
  match v with Some x => x | None => JS.VNull end.

Definition required_fields : list string :=
  ["title"; "description"; "price"; "duration"; "category"].

Definition created (doc : Object) : Response :=
  mkResponse 201 (Some true) (Some "Service created successfully") None
             (Some (One (Some doc))) None None.
Definition no_vendor_id : Response :=
  fail_json 400 "Vendor ID could not be extracted from token".
Definition missing_fields : Response :=
  fail_json 400
    "Please provide all required fields: title, description, price, duration, category".

(** The document [createService] hands to [Service.create], without the
    image. *)
Definition new_service (b : Object) (vendorId : JS.val) : Object :=
  <["vendorId" := vendorId]>
    (<["status" := or_null (or_else (b !! "status") (Some (JS.VStr "active")))]>
       (<["category" := or_null (b !! "category")]>
          (<["duration" := or_null (b !! "duration")]>
             (<["price" := or_null (b !! "price")]>
                (<["description" := or_null (b !! "description")]>
                   (<["title" := or_null (b !! "title")]> ∅)))))).

(** The current revision. *)
Module VendorController.
Section VendorController.
Context `{Driver} `{Creation}.

Definition createService (req : Request) : Store -> Response * Store :=
  try_catch
    (let b := body req in
     let vendorId :=
       or_else (user req ≫= (.!! "_id")) (user req ≫= (.!! "id")) in
     match vendorId with
     | Some v =>
         if negb (JS.truthy v) then ret no_vendor_id
         else if negb (forallb (fun k => JS.truthy_opt (b !! k)) required_fields)
         then ret missing_fields
         else
           (* GET IMAGE URL IF FILE WAS UPLOADED *)
           let imageUrl :=
             match file req with
             | Some filename => JS.VStr ("/uploads/services/" +:+ filename)
             | None => JS.VNull
             end in
           let* newService :=
             Service_create (<["imageUrl" := imageUrl]> (new_service b v)) in
           ret (created newService)
     | None => ret no_vendor_id
     end)
    (fun e =>
       if String.eqb (exn_name e) "ValidationError" then validation_json e
       else error_json 500 "Failed to create service" e).

Definition getMyServices (req : Request) : Store -> Response * Store :=
  try_catch
    (let* vendorId := user_prop req "_id" in
     let* services := Service_find {["vendorId" := or_null vendorId]} in
     ret (listing services))
    (error_json 500 "Failed to fetch services").

End VendorController.
End VendorController.

(** The earlier revision: no image. *)
Module LegacyVendorController.
Section LegacyVendorController.
Context `{Driver} `{Creation}.

Definition createService (req : Request) : Store -> Response * Store :=
  try_catch
    ((* STEP 1: Extract data from request body *)
     let b := body req in
     (* STEP 2: Get vendor ID from authenticated user *)
     let vendorId :=
       or_else (user req ≫= (.!! "_id")) (user req ≫= (.!! "id")) in
     match vendorId with
     | Some v =>
         if negb (JS.truthy v) then ret no_vendor_id
         (* STEP 3: Validate required fields *)
         else if negb (forallb (fun k => JS.truthy_opt (b !! k)) required_fields)
         then ret missing_fields
         else
           (* STEP 4: Create new service in database *)
           let* newService := Service_create (new_service b v) in
           (* STEP 5: Send success response *)
           ret (created newService)
     | None => ret no_vendor_id
     end)
    (fun e =>
       if String.eqb (exn_name e) "ValidationError" then validation_json e
       else error_json 500 "Failed to create service" e).

End LegacyVendorController.
End LegacyVendorController.

(** The two routes of routes/service.routes.ts that are open to vendors only
    and that [Routes] does not list. *)
Module VendorRoutes.
Section VendorRoutes.
Context `{Driver} `{Creation}.

(** GET /api/services/my-services *)
Definition get_my_services : Request -> Store -> Response * Store :=
  Routes.route [protect; authorize ["vendor"]] VendorController.getMyServices.

(** POST /api/services *)
Definition post : Request -> Store -> Response * Store :=
  Routes.route [protect; authorize ["vendor"]] VendorController.createService.

End VendorRoutes.
End VendorRoutes.

(** A reference for creation: ids are drawn from a fixed series by the size
    of the collection, the clock is the number of calls so far, and every
    document is valid. *)
Module ReferenceCreation.

Definition two_digits (n : nat) : string :=
  String (ascii_of_nat (48 + (n / 10) mod 10))
    (String (ascii_of_nat (48 + n mod 10)) "").

Definition creation : Creation := {|
  new_ObjectId := fun st => "64b7f1a2c3d4e5f601234b" +:+ two_digits (size (services st));
  now := fun st => inject_Z (Z.of_nat (length (calls st)) + 10);
  validate_document := fun _ => []
|}.

End ReferenceCreation.

(** The document [createService] hands to [Service.create], and the document
    the collection then holds. *)
Definition new_document (req : Request) (vendorId : JS.val) : Object :=
  <["imageUrl" := match file req with
                  | Some filename => JS.VStr ("/uploads/services/" +:+ filename)
                  | None => JS.VNull
                  end]> (new_service (body req) vendorId).

Definition stored_as `{Creation} (doc : Object) (st : Store) : Object :=
  <["createdAt" := JS.VNum (JS.Finite (now st))]>
    (<["_id" := JS.VStr (new_ObjectId st)]> (cast_fields doc)).

(** The identity's id as [createService] reads it: [user?._id || user?.id]. *)
Definition caller_id (req : Request) : option JS.val :=
  or_else (user req ≫= (.!! "_id")) (user req ≫= (.!! "id")).

(** [a] is at least as new as [b]. *)
Definition not_older (a b : Object) : Prop := (createdAt b <= createdAt a)%Q.

Definition no_token_answer : Response := fail_json 401 "Not authorized, no token".

(** The two stores hold the same documents; they may differ in the calls
    recorded. *)
Definition same_documents (st st' : Store) : Prop :=
  services st' = services st /\ users st' = users st.

(** ** The browser side: the API client

    The axios instance of the frontend's API configuration file, as far as it
    decides which credential a request carries: the two interceptors and the
    helpers that write and read the browser's local storage. *)
Module Api.

(** The part of the browser the client touches. *)
Record Browser : Type := mkBrowser {
  localStorage : gmap string string;
  location_href : string
}.

(** [localStorage.getItem(key)] is truthy. *)
Definition has_item (key : string) (b : Browser) : bool :=
  match localStorage b !! key with
  | Some v => negb (String.eqb v "")
  | None => false
  end.

(** The request interceptor: the Authorization header the outgoing request
    carries, given the one its configuration had. *)
Definition request_interceptor (b : Browser) (Authorization : option string)
  : option string :=
  match localStorage b !! "token" with
  | Some token =>
      if negb (String.eqb token "") then Some ("Bearer " +:+ token)
      else Authorization
  | None => Authorization
  end.

Definition clear_session (b : Browser) : Browser :=
  mkBrowser (delete "user" (delete "token" (localStorage b))) "/login".

(** The response interceptor on a failed request: [status] is the status of
    [error.response], absent when there was no response. *)
Definition response_interceptor_error (status : option nat) (b : Browser) : Browser :=
  match status with
  | Some code => if Nat.eqb code 401 then clear_session b else b
  | None => b
  end.

(** What [login] does to the browser once the server has answered with
    [token] and a user whose JSON text is [user_json]. *)
Definition login_answered (token : option string) (user_json : string)
    (b : Browser) : Browser :=
  match token with
  | Some t =>
      if negb (String.eqb t "")
      then mkBrowser (<["user" := user_json]> (<["token" := t]> (localStorage b)))
                     (location_href b)
      else b
  | None => b
  end.

Definition logout (b : Browser) : Browser := clear_session b.

Definition isAuthenticated (b : Browser) : bool := has_item "token" b.

End Api.

(** A string has no space in it. *)
Definition spaceless (s : string) : Prop :=
  Forall (fun c => c ≠ " "%char) (list_ascii_of_string s).

(** The request as the server sees it when the browser sends it through the
    API client. *)
Definition sent_by (b : Api.Browser) (req : Request) : Request :=
  mkRequest (Api.request_interceptor b (authorization req)) (params_id req)
            (query req) (body req) (file req) (user req).

(** ** Regular expressions

    The regular expressions of the registration form, as terms, with the
    language each denotes and a matcher by derivatives. A string is a
    sequence of code units, each below 256. *)
Module Regex.

Inductive re : Type :=
  | Never
  | Eps
  | Class (p : ascii -> bool)
  | Cat (a b : re)
  | Alt (a b : re)
  | Star (a : re).

(** [a+], [a?] and [.] with the [s] flag. *)
Definition Plus (a : re) : re := Cat a (Star a).
Definition Opt (a : re) : re := Alt a Eps.
Definition Any : re := Class (fun _ => true).
Definition Chr (c : ascii) : re := Class (Ascii.eqb c).

(** The strings a regular expression matches from end to end. *)
Inductive lang : re -> list ascii -> Prop :=
  | lang_eps : lang Eps []
  | lang_class p c : p c = true -> lang (Class p) [c]
  | lang_cat a b s t : lang a s -> lang b t -> lang (Cat a b) (s ++ t)
  | lang_alt_l a b s : lang a s -> lang (Alt a b) s
  | lang_alt_r a b s : lang b s -> lang (Alt a b) s
  | lang_star_nil a : lang (Star a) []
  | lang_star_cons a s t : lang a s -> lang (Star a) t -> lang (Star a) (s ++ t).

Fixpoint nullable (r : re) : bool :=
  match r with
  | Never => false
  | Eps => true
  | Class _ => false
  | Cat a b => nullable a && nullable b
  | Alt a b => nullable a || nullable b
  | Star _ => true
  end.

Fixpoint deriv (c : ascii) (r : re) : re :=
  match r with
  | Never => Never
  | Eps => Never
  | Class p => if p c then Eps else Never
  | Cat a b =>
      if nullable a then Alt (Cat (deriv c a) b) (deriv c b)
      else Cat (deriv c a) b
  | Alt a b => Alt (deriv c a) (deriv c b)
  | Star a => Cat (deriv c a) (Star a)
  end.

Fixpoint accepts (r : re) (s : list ascii) : bool :=
  match s with
  | [] => nullable r
  | c :: s' => accepts (deriv c r) s'
  end.

(** [/^r$/.test(s)]. *)
Definition test_whole (r : re) (s : string) : bool :=
  accepts r (list_ascii_of_string s).

(** [/r/.test(s)]: some substring matches. *)
Definition test (r : re) (s : string) : bool :=
  accepts (Cat (Star Any) (Cat r (Star Any))) (list_ascii_of_string s).

(** The character classes the forms use. *)
Definition in_range (lo hi : N) (c : ascii) : bool :=
  let n := N_of_ascii c in ((lo <=? n) && (n <=? hi))%N.

Definition upper : ascii -> bool := in_range 65 90.      (* [A-Z] *)
Definition lower : ascii -> bool := in_range 97 122.     (* [a-z] *)
Definition digit : ascii -> bool := in_range 48 57.      (* [0-9], \d *)
Definition non_digit (c : ascii) : bool := negb (digit c).               (* \D *)
Definition special (c : ascii) : bool :=                                 (* [^A-Za-z0-9] *)
  negb (upper c || lower c || digit c).
(** [\s], among the code units below 256. *)
Definition space (c : ascii) : bool :=
  in_range 9 13 c || (N_of_ascii c =? 32)%N || (N_of_ascii c =? 160)%N.
Definition not_space_or_at (c : ascii) : bool :=                         (* [^\s@] *)
  negb (space c || Ascii.eqb c "@").

End Regex.

(** ** The registration form: pages/auth/RegisterPage.tsx *)
Module RegisterPage.
Import Regex.

Definition validatePassword (password : string) : string :=
  if (String.length password <? 8)%nat then
    "Password must be at least 8 characters long"
  else if negb (test (Class upper) password) then
    "Password must contain at least one uppercase letter"
  else if negb (test (Class lower) password) then
    "Password must contain at least one lowercase letter"
  else if negb (test (Class digit) password) then
    "Password must contain at least one number"
  else "".

(** [s.replace(/\D/g, '')]. *)
Definition digitsOnly (s : string) : string :=
  string_of_list_ascii (List.filter digit (list_ascii_of_string s)).

Definition validatePhone (phone : string) : string :=
  if negb (String.length (digitsOnly phone) =? 10)%nat then
    "Phone number must be exactly 10 digits"
  else "".

(** /^[^\s@]+@[^\s@]+\.[^\s@]+$/ *)
Definition emailRegex : re :=
  Cat (Plus (Class not_space_or_at))
    (Cat (Chr "@")
       (Cat (Plus (Class not_space_or_at))
          (Cat (Chr ".") (Plus (Class not_space_or_at))))).

Definition validateEmail (email : string) : string :=
  if negb (test_whole emailRegex email) then "Please enter a valid email address"
  else "".

(** What [handleChange] keeps of what is typed into the phone field:
    [value.replace(/\D/g, '').slice(0, 10)]. *)
Definition phone_typed (value : string) : string :=
  String.substring 0 10 (digitsOnly value).

Definition score_if (b : bool) : nat := if b then 1%nat else 0%nat.

Definition password_score (password : string) : nat :=
  (score_if (8 <=? String.length password) +
   score_if (12 <=? String.length password) +
   score_if (test (Class upper) password) +
   score_if (test (Class lower) password) +
   score_if (test (Class digit) password) +
   score_if (test (Class special) password))%nat.

(** The strength and the colour shown next to the password. *)
Definition getPasswordStrength (password : string) : string * string :=
  if String.eqb password "" then ("", "")
  else
    let score := password_score password in
    if (score <=? 2)%nat then ("Weak", "text-red-600")
    else if (score <=? 4)%nat then ("Medium", "text-yellow-600")
    else ("Strong", "text-green-600").

End RegisterPage.

(** ** More of the small deployment *)
Module Scenario.
Import Fixture.

(** A body for a new service; it names vendor two as its owner. *)
Definition manicure : Object :=
  list_to_map [("title", JS.VStr "Manicure");
               ("description", JS.VStr "Classic manicure with polish");
               ("price", JS.VNum (JS.Finite (25 # 1)));
               ("duration", JS.VNum (JS.Finite (45 # 1)));
               ("category", JS.VStr "Nails");
               ("vendorId", JS.VStr vendor2_id)].

Definition free_manicure : Object := <["price" := JS.VNum (JS.Finite 0)]> manicure.

Definition create_manicure : Request := request (bearer vendor1_id) "" ∅ manicure.
Definition create_free : Request := request (bearer vendor1_id) "" ∅ free_manicure.
Definition anonymous_create : Request := request None "" ∅ manicure.
Definition client_creates : Request := request (bearer client_id) "" ∅ manicure.
Definition list_own : Request := request (bearer vendor1_id) "" ∅ ∅.
Definition admin_lists_all : Request := request (bearer admin_id) "" ∅ ∅.
Definition vendor2_on_haircut : Request := request (bearer vendor2_id) haircut_id ∅ ∅.
Definition reprice : Request :=
  request (bearer vendor1_id) haircut_id ∅ {["price" := JS.VNum (JS.Finite (60 # 1))]}.

(** A body for a new service as a form sends it, with blanks around the
    title and the price as a string, and an update of the haircut of the
    same kind. *)
Definition padded_manicure : Object :=
  <["price" := JS.VStr "25.50"]> (<["title" := JS.VStr "  Manicure  "]> manicure).
Definition create_padded : Request := request (bearer vendor1_id) "" ∅ padded_manicure.
Definition restyle : Request :=
  request (bearer vendor1_id) haircut_id ∅
    (list_to_map [("title", JS.VStr "  Bob cut  ");
                  ("price", JS.VNum (JS.Finite (60 # 1)));
                  ("duration", JS.VStr "30")]).

Definition as_vendor2 (req : Request) : Request :=
  set_user (identity vendor2_id "victor" "vendor") req.

Definition vendor1 : Object := delete "password" (account vendor1_id "vera" "vendor").
Definition vendor2 : Object := delete "password" (account vendor2_id "victor" "vendor").
Definition client : Object := delete "password" (account client_id "clara" "client").
Definition admin : Object := delete "password" (account admin_id "adam" "admin").





(** A browser holding the token of vendor one. *)
Definition signed_in : Api.Browser :=
  Api.mkBrowser {["token" := "signed." +:+ vendor1_id]} "/vendor/dashboard".

Definition plain_request : Request := request None haircut_id ∅ ∅.

End Scenario.

(** ** The vendor's dashboard: pages/Vendor/VendorDashboard.tsx *)
Module VendorDashboard.

(** A service as the dashboard holds it. *)
Record Service : Type := mkService {
  _id : string;
  title : string;
  description : string;
  category : string;
  status : string
}.

(** [c.toLowerCase()] for a code unit below 256: the letters A-Z and the
    capital letters of Latin-1 move down by 32. *)
Definition lower_unit (c : ascii) : ascii :=
  let n := N_of_ascii c in
  if ((65 <=? n) && (n <=? 90) || (192 <=? n) && (n <=? 222) && negb (n =? 215))%N
  then ascii_of_N (n + 32)
  else c.

Fixpoint toLowerCase (s : string) : string :=
  match s with
  | EmptyString => EmptyString
  | String c s' => String (lower_unit c) (toLowerCase s')
  end.

(** [s.includes(t)]. *)
Fixpoint includes (s t : string) : bool :=
  String.prefix t s ||
  match s with
  | EmptyString => false
  | String _ s' => includes s' t
  end.

Definition shown (searchTerm filterCategory filterStatus : string) (service : Service) : bool :=
  let matchesSearch :=
    includes (toLowerCase (title service)) (toLowerCase searchTerm) ||
    includes (toLowerCase (description service)) (toLowerCase searchTerm) in
  let matchesCategory :=
    String.eqb filterCategory "all" || String.eqb (category service) filterCategory in
  let matchesStatus :=
    String.eqb filterStatus "all" || String.eqb (status service) filterStatus in
  matchesSearch && matchesCategory && matchesStatus.

Definition filteredServices (services : list Service)
    (searchTerm filterCategory filterStatus : string) : list Service :=
  List.filter (shown searchTerm filterCategory filterStatus) services.

(** [stats]: total, active, inactive. *)
Definition stats (services : list Service) : nat * nat * nat :=
  (length services,
   length (List.filter (fun s => String.eqb (status s) "active") services),
   length (List.filter (fun s => String.eqb (status s) "inactive") services)).

(** The list the dashboard keeps once the server has confirmed a deletion. *)
Definition after_delete (services : list Service) (serviceId : string) : list Service :=
  List.filter (fun s => negb (String.eqb (_id s) serviceId)) services.

End VendorDashboard.

(** * Properties *)

Example number_examples :
  JS.Number (JS.VStr "abc") = JS.NaN /\
  JS.Number (JS.VStr "50") = JS.Finite (50 # 1) /\
  JS.Number (JS.VStr " 12.50 ") = JS.Finite (25 # 2) /\
  JS.Number (JS.VStr "1e3") = JS.Finite (1000 # 1) /\
  JS.Number (JS.VStr "0x1F") = JS.Finite (31 # 1) /\
  JS.Number (JS.VStr "-Infinity") = JS.Infinity true /\
  JS.Number (JS.VStr "12px") = JS.NaN /\
  JS.Number (JS.VStr ".") = JS.NaN /\
  JS.Number (JS.VArr [JS.VStr "7"]) = JS.Finite (7 # 1) /\
  JS.Number (JS.VArr [JS.VStr "1"; JS.VStr "2"]) = JS.NaN /\
  JS.Number (JS.VObj [("$gt", JS.VStr "1")]) = JS.NaN.
Proof. repeat split; vm_compute; reflexivity. Qed.

(** Rounding, overflow, underflow, the negative zero and the no-break space
    (code unit 160). *)
Example number_rounding_examples :
  JS.Number (JS.VStr "0.1") = JS.Finite (3602879701896397 # 36028797018963968) /\
  JS.Number (JS.VStr "9007199254740993") = JS.Finite (9007199254740992 # 1) /\
  JS.Number (JS.VStr "1e23") = JS.Finite (99999999999999991611392 # 1) /\
  JS.Number (JS.VStr "1.7976931348623158e308")
    = JS.Number (JS.VStr "1.7976931348623157e308") /\
  JS.Number (JS.VStr "1.7976931348623159e308") = JS.Infinity false /\
  JS.Number (JS.VStr "1e400") = JS.Infinity false /\
  JS.Number (JS.VStr "-1e400") = JS.Infinity true /\
  JS.Number (JS.VStr "5e-324") = JS.Finite (JS.of_binary64 1 (-1074)) /\
  JS.Number (JS.VStr "2e-324") = JS.Finite 0 /\
  JS.Number (JS.VStr "-0") = JS.NegZero /\
  JS.Number (JS.VStr "0x20000000000001") = JS.Finite (9007199254740992 # 1) /\
  JS.Number (JS.VStr (String (ascii_of_N 160) "5")) = JS.Finite (5 # 1) /\
  JS.trim_string (String (ascii_of_N 160) " Haircut  ") = "Haircut".
Proof. repeat split; vm_compute; reflexivity. Qed.

Example protect_fixture :
  (@protect Reference.driver
     (Fixture.request (Fixture.bearer Fixture.admin_id) Fixture.haircut_id ∅ ∅)
     Fixture.store).1
  = Next (Fixture.as_admin
            (Fixture.request (Fixture.bearer Fixture.admin_id) Fixture.haircut_id ∅ ∅)).
Proof. vm_compute. reflexivity. Qed.

(** ** The schema's casts *)

Lemma cast_value_numeric k (s : string) :
  path_type k = Some SchemaNumber ->
  s ≠ "" ->
  JS.Number (JS.VStr s) ≠ JS.NaN ->
  cast_value k (JS.VStr s) = JS.VNum (JS.Number (JS.VStr s)).
Proof.
  intros Hp Hs Hn. unfold cast_value. rewrite Hp.
  destruct (String.eqb_spec s ""); [done |].
  by destruct (JS.Number (JS.VStr s)).
Qed.

Lemma cast_fields_lookup (doc : Object) k :
  cast_fields doc !! k = cast_value k <$> doc !! k.
Proof. unfold cast_fields. rewrite map_lookup_imap. by destruct (doc !! k). Qed.

(** In what follows the resource of a request is the document stored under
    the ObjectId that [req.params.id] is cast to, [ObjectId_hex (params_id
    req)], whichever way the request spells it. *)

Section Properties.
Context `{Driver}.

Implicit Types (req : Request) (st : Store) (u service : Object) (id : string).

(** ** The store operations, evaluated *)

Lemma Service_findById_valid id st :
  ObjectId_isValid id = true ->
  Service_findById id st
  = (inr (services st !! ObjectId_hex id),
     record_call (Service_findById_call id) st).
Proof. intros Hv. unfold Service_findById, cast_id, bind, ret. by rewrite Hv. Qed.

Lemma Service_findByIdAndDelete_valid id st :
  ObjectId_isValid id = true ->
  Service_findByIdAndDelete id st
  = (inr (services st !! ObjectId_hex id),
     set_services (delete (ObjectId_hex id) (services st))
       (record_call (Service_findByIdAndDelete_call id) st)).
Proof. intros Hv. unfold Service_findByIdAndDelete, cast_id, bind, ret. by rewrite Hv. Qed.

Lemma User_findById_valid id st :
  ObjectId_isValid id = true ->
  User_findById id st
  = (inr (users st !! ObjectId_hex id), record_call (User_findById_call id) st).
Proof. intros Hv. unfold User_findById, cast_id, bind, ret. by rewrite Hv. Qed.

Lemma User_findById_invalid id st :
  ObjectId_isValid id = false ->
  User_findById id st
  = (inl (CastError "Cast to ObjectId failed"),
     record_call (User_findById_call id) st).
Proof. intros Hv. unfold User_findById, cast_id, bind, throw. by rewrite Hv. Qed.

(** ** The controller on a malformed or unknown identifier *)

Lemma getServiceById_invalid req st :
  isValidObjectId (params_id req) = false ->
  Controller.getServiceById req st = (invalid_id, st).
Proof.
  intros Hv. unfold Controller.getServiceById, try_catch. by rewrite Hv.
Qed.

Lemma updateService_invalid req st u :
  user req = Some u ->
  isValidObjectId (params_id req) = false ->
  Controller.updateService req st = (invalid_id, st).
Proof.
  intros Hu Hv.
  unfold Controller.updateService, try_catch, bind, user_prop.
  by rewrite Hu, Hv.
Qed.

Lemma deleteService_invalid req st u :
  user req = Some u ->
  isValidObjectId (params_id req) = false ->
  Controller.deleteService req st = (invalid_id, st).
Proof.
  intros Hu Hv.
  unfold Controller.deleteService, try_catch, bind, user_prop.
  by rewrite Hu, Hv.
Qed.

Lemma getServiceById_missing req st :
  isValidObjectId (params_id req) = true ->
  services st !! ObjectId_hex (params_id req) = None ->
  Controller.getServiceById req st
  = (not_found, record_call (Service_findById_call (params_id req)) st).
Proof.
  intros Hv Hm. unfold Controller.getServiceById, try_catch, bind.
  rewrite Hv. simpl. rewrite Service_findById_valid by done.
  simpl. by rewrite Hm.
Qed.

Lemma updateService_missing req st u :
  user req = Some u ->
  isValidObjectId (params_id req) = true ->
  services st !! ObjectId_hex (params_id req) = None ->
  Controller.updateService req st
  = (not_found, record_call (Service_findById_call (params_id req)) st).
Proof.
  intros Hu Hv Hm. unfold Controller.updateService, try_catch, bind, user_prop.
  rewrite Hu, Hv. simpl. rewrite Service_findById_valid by done.
  by rewrite Hm.
Qed.

Lemma deleteService_missing req st u :
  user req = Some u ->
  isValidObjectId (params_id req) = true ->
  services st !! ObjectId_hex (params_id req) = None ->
  Controller.deleteService req st
  = (not_found, record_call (Service_findById_call (params_id req)) st).
Proof.
  intros Hu Hv Hm. unfold Controller.deleteService, try_catch, bind, user_prop.
  rewrite Hu, Hv. simpl. rewrite Service_findById_valid by done.
  by rewrite Hm.
Qed.

(** ** Ownership *)

Lemma updateService_not_owner req st u service uid owner :
  user req = Some u ->
  u !! "_id" = Some (JS.VStr uid) ->
  isValidObjectId (params_id req) = true ->
  services st !! ObjectId_hex (params_id req) = Some service ->
  service !! "vendorId" = Some (JS.VStr owner) ->
  uid ≠ owner ->
  Controller.updateService req st
  = (update_forbidden, record_call (Service_findById_call (params_id req)) st).
Proof.
  intros Hu Hid Hv Hs Ho Hne.
  unfold Controller.updateService, try_catch, bind, user_prop.
  rewrite Hu, Hv. simpl. rewrite Service_findById_valid by done.
  rewrite Hs, Ho, Hid. simpl.
  assert (String.eqb owner uid = false) as -> by (apply String.eqb_neq; congruence).
  reflexivity.
Qed.

Lemma deleteService_allowed req st u service uid owner :
  user req = Some u ->
  u !! "_id" = Some (JS.VStr uid) ->
  isValidObjectId (params_id req) = true ->
  services st !! ObjectId_hex (params_id req) = Some service ->
  service !! "vendorId" = Some (JS.VStr owner) ->
  uid = owner \/ u !! "role" = Some (JS.VStr "admin") ->
  Controller.deleteService req st
  = (deleted,
     set_services (delete (ObjectId_hex (params_id req)) (services st))
       (record_call (Service_findByIdAndDelete_call (params_id req))
          (record_call (Service_findById_call (params_id req)) st))).
Proof.
  intros Hu Hid Hv Hs Ho Hor.
  unfold Controller.deleteService, try_catch, bind, user_prop.
  rewrite Hu, Hv. simpl. rewrite Service_findById_valid by done.
  rewrite Hs, Ho, Hid. simpl.
  assert (negb (String.eqb owner uid) && negb (isAdminRole (u !! "role")) = false) as ->.
  { destruct Hor as [-> | ->].
    - by rewrite String.eqb_refl.
    - simpl. apply andb_false_r. }
  rewrite Service_findByIdAndDelete_valid by done. reflexivity.
Qed.

Lemma deleteService_not_allowed req st u service uid owner :
  user req = Some u ->
  u !! "_id" = Some (JS.VStr uid) ->
  isValidObjectId (params_id req) = true ->
  services st !! ObjectId_hex (params_id req) = Some service ->
  service !! "vendorId" = Some (JS.VStr owner) ->
  uid ≠ owner ->
  isAdminRole (u !! "role") = false ->
  Controller.deleteService req st
  = (delete_forbidden, record_call (Service_findById_call (params_id req)) st).
Proof.
  intros Hu Hid Hv Hs Ho Hne Hr.
  unfold Controller.deleteService, try_catch, bind, user_prop.
  rewrite Hu, Hv. simpl. rewrite Service_findById_valid by done.
  rewrite Hs, Ho, Hid. simpl. rewrite Hr.
  assert (String.eqb owner uid = false) as -> by (apply String.eqb_neq; congruence).
  reflexivity.
Qed.

(** ** The middleware, evaluated *)

Lemma authorize_user roles req st u :
  user req = Some u ->
  authorize roles req st
  = (if includes roles (u !! "role") then Next req else Respond access_denied, st).
Proof.
  intros Hu. unfold authorize. rewrite Hu.
  by destruct (includes roles (u !! "role")).
Qed.

(** What [protect] has done when it hands the request on: the token verified
    to the id of an account, and the request carries that account without its
    password. *)
Lemma protect_next req0 st0 req st :
  protect req0 st0 = (Next req, st) ->
  exists token id account,
    bearer_token req0 = Some token /\
    jwt_verify token = inr id /\
    ObjectId_isValid id = true /\
    users st0 !! ObjectId_hex id = Some account /\
    req = set_user (Some (delete "password" account)) req0 /\
    st = record_call (User_findById_call id) st0.
Proof.
  unfold protect, try_catch, bind.
  destruct (bearer_token req0) as [[|c token]|] eqn:Ht; simpl; try discriminate.
  destruct (jwt_verify (String c token)) as [msg|id] eqn:Hj; simpl; try discriminate.
  destruct (ObjectId_isValid id) eqn:Hv.
  - rewrite User_findById_valid by done.
    destruct (users st0 !! ObjectId_hex id) as [account|] eqn:Hacc;
      simpl; try discriminate.
    intros [= <- <-]. by exists (String c token), id, account.
  - rewrite User_findById_invalid by done. discriminate.
Qed.

Lemma protect_again req0 st0 req st :
  protect req0 st0 = (Next req, st) ->
  exists id,
    st = record_call (User_findById_call id) st0 /\
    forall st1, users st1 = users st0 ->
      protect req0 st1 = (Next req, record_call (User_findById_call id) st1).
Proof.
  unfold protect, try_catch, bind.
  destruct (bearer_token req0) as [[|c token]|] eqn:Ht; simpl; try discriminate.
  destruct (jwt_verify (String c token)) as [msg|id] eqn:Hj; simpl; try discriminate.
  destruct (ObjectId_isValid id) eqn:Hv.
  - rewrite User_findById_valid by done.
    destruct (users st0 !! ObjectId_hex id) as [account|] eqn:Hacc;
      simpl; try discriminate.
    intros [= <- <-]. exists id. split; [done |].
    intros st1 Hus. rewrite User_findById_valid by done.
    rewrite Hus, Hacc. reflexivity.
  - rewrite User_findById_invalid by done. discriminate.
Qed.

Lemma route_put req0 st0 req st :
  protect req0 st0 = (Next req, st) ->
  Routes.put req0 st0
  = match authorize ["vendor"] req st with
    | (Respond r, st') => (r, st')
    | (Next req', st') => Controller.updateService req' st'
    end.
Proof. intros Hp. unfold Routes.put. simpl. by rewrite Hp. Qed.

Lemma route_delete req0 st0 req st :
  protect req0 st0 = (Next req, st) ->
  Routes.delete req0 st0
  = match authorize ["vendor"; "admin"] req st with
    | (Respond r, st') => (r, st')
    | (Next req', st') => Controller.deleteService req' st'
    end.
Proof. intros Hp. unfold Routes.delete. simpl. by rewrite Hp. Qed.

Lemma route_get_by_id req0 st0 req st :
  protect req0 st0 = (Next req, st) ->
  Routes.get_by_id req0 st0
  = match authorize ["client"; "vendor"; "admin"] req st with
    | (Respond r, st') => (r, st')
    | (Next req', st') => Controller.getServiceById req' st'
    end.
Proof. intros Hp. unfold Routes.get_by_id. simpl. by rewrite Hp. Qed.

Lemma route_get_all req0 st0 req st :
  protect req0 st0 = (Next req, st) ->
  Routes.get_all req0 st0
  = match authorize ["client"; "admin"; "vendor"] req st with
    | (Respond r, st') => (r, st')
    | (Next req', st') => Controller.getAllServices req' st'
    end.
Proof. intros Hp. unfold Routes.get_all. simpl. by rewrite Hp. Qed.

(** C1. For a resource and an authenticated identity that is not its owner:
    a delete request from an administrator succeeds, at the controller and
    through the route, and removes the resource; an update request from the
    same identity, whatever its role, is answered Forbidden, at the
    controller and through the route, and leaves the collection as it was.
    Update has no role-based override. *)
Theorem update_is_owner_only_delete_is_owner_or_admin
    req0 st0 req st u service uid owner :
  protect req0 st0 = (Next req, st) ->
  user req = Some u ->
  u !! "_id" = Some (JS.VStr uid) ->
  isValidObjectId (params_id req) = true ->
  services st !! ObjectId_hex (params_id req) = Some service ->
  service !! "vendorId" = Some (JS.VStr owner) ->
  uid ≠ owner ->
  (u !! "role" = Some (JS.VStr "admin") ->
     Succeeded (Controller.deleteService req st).1 /\
     services (Controller.deleteService req st).2 !! ObjectId_hex (params_id req)
       = None /\
     Routes.delete req0 st0 = Controller.deleteService req st) /\
  Forbidden (Controller.updateService req st).1 /\
  services (Controller.updateService req st).2 = services st /\
  Forbidden (Routes.put req0 st0).1 /\
  services (Routes.put req0 st0).2 = services st.
Proof.
  intros Hp Hu Hid Hv Hs Ho Hne.
  pose proof (updateService_not_owner req st u service uid owner
                Hu Hid Hv Hs Ho Hne) as Hupd.
  split; [intros Hadmin; repeat split | repeat split].
  - by erewrite deleteService_allowed by eauto.
  - by erewrite deleteService_allowed by eauto.
  - erewrite deleteService_allowed by eauto. simpl. apply lookup_delete_eq.
  - rewrite (route_delete _ _ _ _ Hp), (authorize_user _ _ _ _ Hu), Hadmin.
    reflexivity.
  - by rewrite Hupd.
  - by rewrite Hupd.
  - rewrite (route_put _ _ _ _ Hp), (authorize_user _ _ _ _ Hu).
    destruct (includes ["vendor"] (u !! "role")); [by rewrite Hupd | done].
  - rewrite (route_put _ _ _ _ Hp), (authorize_user _ _ _ _ Hu).
    destruct (includes ["vendor"] (u !! "role")); [by rewrite Hupd | done].
Qed.

(** C5. A single-resource operation (read, update, delete) given an id that
    is not in the store's identifier format answers InvalidIdentifier and
    leaves the store, its call log included, as it was: no lookup is issued.
    Given a well-formed id with no matching record, that is with no document
    stored under the ObjectId the id is cast to, it answers NotFound. The
    two answers differ. *)
Theorem malformed_id_is_rejected_before_any_lookup req st u :
  user req = Some u ->
  (isValidObjectId (params_id req) = false ->
     (InvalidIdentifier (Controller.getServiceById req st).1 /\
      (Controller.getServiceById req st).2 = st) /\
     (InvalidIdentifier (Controller.updateService req st).1 /\
      (Controller.updateService req st).2 = st) /\
     (InvalidIdentifier (Controller.deleteService req st).1 /\
      (Controller.deleteService req st).2 = st)) /\
  (isValidObjectId (params_id req) = true ->
   services st !! ObjectId_hex (params_id req) = None ->
     NotFound (Controller.getServiceById req st).1 /\
     NotFound (Controller.updateService req st).1 /\
     NotFound (Controller.deleteService req st).1) /\
  (forall r, InvalidIdentifier r -> NotFound r -> False) /\
  status invalid_id = 400%nat /\ status not_found = 404%nat.
Proof.
  intros Hu. split; [| split; [| split]].
  - intros Hv.
    rewrite getServiceById_invalid, (updateService_invalid _ _ _ Hu),
      (deleteService_invalid _ _ _ Hu) by done.
    by repeat split.
  - intros Hv Hm.
    rewrite getServiceById_missing, (updateService_missing _ _ _ Hu),
      (deleteService_missing _ _ _ Hu) by done.
    by repeat split.
  - unfold InvalidIdentifier, NotFound. intros r -> [=].
  - done.
Qed.

(** C7. The same delete request, from an identity allowed to delete the
    resource, issued twice in sequence: the first attempt succeeds and the
    second is answered NotFound, with status 404. The same holds through the
    route, for an identity the role gate lets through. *)
Theorem delete_twice_is_not_found req st u service uid owner :
  user req = Some u ->
  u !! "_id" = Some (JS.VStr uid) ->
  isValidObjectId (params_id req) = true ->
  services st !! ObjectId_hex (params_id req) = Some service ->
  service !! "vendorId" = Some (JS.VStr owner) ->
  uid = owner \/ u !! "role" = Some (JS.VStr "admin") ->
  let first := Controller.deleteService req st in
  let second := Controller.deleteService req first.2 in
  Succeeded first.1 /\ NotFound second.1 /\ status second.1 = 404%nat /\
  forall req0 st0,
    protect req0 st0 = (Next req, st) ->
    includes ["vendor"; "admin"] (u !! "role") = true ->
    let first := Routes.delete req0 st0 in
    let second := Routes.delete req0 first.2 in
    Succeeded first.1 /\ NotFound second.1.
Proof.
  intros Hu Hid Hv Hs Ho Hor first second. subst first second.
  pose proof (deleteService_allowed req st u service uid owner
                Hu Hid Hv Hs Ho Hor) as Hdel.
  rewrite Hdel. simpl.
  split; [done |]. split; [| split].
  - rewrite (deleteService_missing _ _ u); [done..|]. simpl. apply lookup_delete_eq.
  - rewrite (deleteService_missing _ _ u); [done..|]. simpl. apply lookup_delete_eq.
  - intros req0 st0 Hp Hroles.
    destruct (protect_again _ _ _ _ Hp) as (id & -> & Hagain).
    rewrite (route_delete _ _ _ _ Hp), (authorize_user _ _ _ _ Hu), Hroles, Hdel.
    simpl. split; [done |].
    erewrite route_delete by (apply Hagain; reflexivity).
    rewrite (authorize_user _ _ _ _ Hu), Hroles.
    rewrite (deleteService_missing _ _ u); [done..|]. simpl. apply lookup_delete_eq.
Qed.

(** ** Listing *)

Lemma insert_newest_In d x l :
  In x (insert_newest d l) -> x = d \/ In x l.
Proof.
  induction l as [|y l IH]; simpl.
  - intros [<- | []]. by left.
  - destruct (Qle_bool (createdAt y) (createdAt d)); simpl.
    + intros [<- | Hin]; [by left | by right].
    + intros [<- | Hin]; [right; by left |].
      destruct (IH Hin) as [-> | Hin']; [by left | right; by right].
Qed.

Lemma sort_newest_In x l : In x (sort_newest l) -> In x l.
Proof.
  induction l as [|y l IH]; simpl; [done |].
  intros Hin. destruct (insert_newest_In _ _ _ Hin) as [-> | Hin'].
  - by left.
  - right. by apply IH.
Qed.

Lemma matches_condition filter doc k cond :
  matches filter doc = true ->
  filter !! k = Some cond ->
  field_matches cond (doc !! k) = true.
Proof.
  unfold matches. rewrite forallb_forall. intros Hall Hk.
  apply (Hall (k, cond)). apply list_elem_of_In. by apply elem_of_map_to_list.
Qed.

Lemma matches_active filter doc :
  matches filter doc = true ->
  filter !! "status" = Some (JS.VStr "active") ->
  is_active doc.
Proof.
  intros Hm Hf. pose proof (matches_condition _ _ _ _ Hm Hf) as Hc.
  unfold field_matches in Hc. unfold is_active.
  destruct (doc !! "status") as [[| | |t| |]|]; try discriminate.
  apply String.eqb_eq in Hc. by subst.
Qed.

Lemma populate_vendorId_other fields us doc k :
  k ≠ "vendorId" ->
  populate_vendorId fields us doc !! k = doc !! k.
Proof.
  intros Hk. unfold populate_vendorId.
  destruct (doc !! "vendorId") as [[| | |vid| |]|]; try done.
  destruct (us !! vid); by rewrite lookup_insert_ne.
Qed.

Lemma getAllServices_user req st u :
  user req = Some u ->
  Controller.getAllServices req st
  = let q := Controller.getAllServices_query (u !! "role") (query req) in
    let st' := record_call (Service_find_call q) st in
    if filter_castable q then
      let docs :=
        populate_vendorId ["name"; "email"] (users st)
          <$> sort_newest (List.filter (matches q) (map_to_list (services st)).*2) in
      (listing docs, st')
    else
      (error_json 500 "Failed to fetch services"
         (CastError (filter_cast_message q)), st').
Proof.
  intros Hu. unfold Controller.getAllServices, try_catch, bind, user_prop, Service_find.
  rewrite Hu. simpl.
  by destruct (filter_castable _).
Qed.

Lemma client_query_status params :
  Controller.getAllServices_query (Some (JS.VStr "client")) params !! "status"
  = Some (JS.VStr "active").
Proof.
  unfold Controller.getAllServices_query, assign_if. simpl.
  rewrite andb_false_r.
  destruct (params !! "category") as [c|]; simpl;
    destruct (params !! "status") as [s|]; simpl;
    repeat match goal with |- context [if ?b then _ else _] => destruct b end;
    by simplify_map_eq.
Qed.

Lemma client_query_ignores_status params (o : option JS.val) :
  Controller.getAllServices_query (Some (JS.VStr "client"))
    (partial_alter (fun _ => o) "status" params)
  = Controller.getAllServices_query (Some (JS.VStr "client")) params.
Proof.
  unfold Controller.getAllServices_query, assign_if. simpl.
  rewrite !andb_false_r.
  rewrite !(lookup_partial_alter_ne _ _ "status" "category"),
    !(lookup_partial_alter_ne _ _ "status" "minPrice"),
    !(lookup_partial_alter_ne _ _ "status" "maxPrice") by done.
  rewrite lookup_partial_alter_eq.
  destruct o, (params !! "status"); reflexivity.
Qed.

Lemma listing_data_In req st u docs d :
  user req = Some u ->
  data (Controller.getAllServices req st).1 = Some (Many docs) ->
  In d docs ->
  exists doc,
    d = populate_vendorId ["name"; "email"] (users st) doc /\
    matches (Controller.getAllServices_query (u !! "role") (query req)) doc = true.
Proof.
  intros Hu. rewrite (getAllServices_user _ _ _ Hu). simpl.
  destruct (filter_castable _); simpl; [| discriminate].
  intros [= <-] Hin. apply in_map_iff in Hin as (doc & <- & Hin).
  apply sort_newest_In, filter_In in Hin as [_ Hm]. by exists doc.
Qed.

(** C2. For an identity with role client and any status query parameter,
    present or absent: the filter the listing builds has [status = active],
    in both revisions of the controller; replacing, adding or removing the
    status parameter leaves the filter unchanged; every resource in the data
    of the answer is active; and when the driver accepts the filter the
    answer is the listing of such resources. *)
Theorem client_listing_is_forced_to_active req st u :
  user req = Some u ->
  u !! "role" = Some (JS.VStr "client") ->
  let q := Controller.getAllServices_query (u !! "role") (query req) in
  q !! "status" = Some (JS.VStr "active") /\
  LegacyController.getAllServices_query (u !! "role") (query req) !! "status"
    = Some (JS.VStr "active") /\
  (forall o : option JS.val,
     Controller.getAllServices_query (u !! "role")
       (partial_alter (fun _ => o) "status" (query req)) = q) /\
  (forall docs,
     data (Controller.getAllServices req st).1 = Some (Many docs) ->
     Forall is_active docs) /\
  (filter_castable q = true ->
   exists docs,
     (Controller.getAllServices req st).1 = listing docs /\ Forall is_active docs).
Proof.
  intros Hu Hr q. subst q. rewrite Hr.
  assert (forall docs,
     data (Controller.getAllServices req st).1 = Some (Many docs) ->
     Forall is_active docs) as Hall.
  { intros docs Hd. apply Forall_forall. intros d Hin%list_elem_of_In.
    destruct (listing_data_In _ _ _ _ _ Hu Hd Hin) as (doc & -> & Hm).
    rewrite Hr in Hm. unfold is_active.
    rewrite populate_vendorId_other by done.
    apply (matches_active _ _ Hm), client_query_status. }
  split; [apply client_query_status |].
  split; [apply client_query_status |].
  split; [apply client_query_ignores_status |].
  split; [exact Hall |].
  intros Hc. pose proof (getAllServices_user req st u Hu) as Hg.
  rewrite Hr in Hg. simpl in Hg. rewrite Hc in Hg.
  eexists. split; [by rewrite Hg |].
  apply Hall. by rewrite Hg.
Qed.

(** ** Reading one resource *)

Lemma getServiceById_found req st service :
  isValidObjectId (params_id req) = true ->
  services st !! ObjectId_hex (params_id req) = Some service ->
  Controller.getServiceById req st
  = (found (populate_vendorId ["name"; "email"; "phone"] (users st) service),
     record_call (Service_findById_call (params_id req)) st).
Proof.
  intros Hv Hs. unfold Controller.getServiceById, try_catch, bind.
  rewrite Hv. simpl. rewrite Service_findById_valid by done.
  simpl. by rewrite Hs.
Qed.

(** C9. Reading one resource by a well-formed id of an existing resource
    returns it (its owner populated) whoever asks: the controller consults
    neither the caller nor the resource's owner or status, and the route lets
    every role through. So a client reads an inactive resource by id, although
    no listing answered to a client contains a resource that is not active. *)
Theorem read_by_id_checks_neither_owner_nor_status req st service :
  isValidObjectId (params_id req) = true ->
  services st !! ObjectId_hex (params_id req) = Some service ->
  let answer :=
    found (populate_vendorId ["name"; "email"; "phone"] (users st) service) in
  (Controller.getServiceById req st).1 = answer /\
  Succeeded answer /\
  (forall req0 st0 u role,
     protect req0 st0 = (Next req, st) ->
     user req = Some u ->
     u !! "role" = Some (JS.VStr role) ->
     role = "client" \/ role = "vendor" \/ role = "admin" ->
     (Routes.get_by_id req0 st0).1 = answer) /\
  (service !! "status" = Some (JS.VStr "inactive") ->
   (exists doc, data answer = Some (One (Some doc)) /\
                doc !! "status" = Some (JS.VStr "inactive")) /\
   forall req' st' u' docs,
     user req' = Some u' ->
     u' !! "role" = Some (JS.VStr "client") ->
     data (Controller.getAllServices req' st').1 = Some (Many docs) ->
     forall d, In d docs -> d !! "status" ≠ Some (JS.VStr "inactive")).
Proof.
  intros Hv Hs answer. subst answer.
  rewrite (getServiceById_found _ _ _ Hv Hs). simpl.
  split; [done |]. split; [done |]. split.
  - intros req0 st0 u role Hp Hu Hr Hroles.
    rewrite (route_get_by_id _ _ _ _ Hp), (authorize_user _ _ _ _ Hu), Hr.
    assert (includes ["client"; "vendor"; "admin"] (Some (JS.VStr role)) = true) as ->
      by (destruct Hroles as [-> | [-> | ->]]; reflexivity).
    by rewrite (getServiceById_found _ _ _ Hv Hs).
  - intros Hst. split.
    + eexists. split; [reflexivity |]. by rewrite populate_vendorId_other.
    + intros req' st' u' docs Hu' Hr' Hd d Hin.
      destruct (listing_data_In _ _ _ _ _ Hu' Hd Hin) as (doc & -> & Hm).
      rewrite Hr' in Hm.
      rewrite populate_vendorId_other by done.
      rewrite (matches_active _ _ Hm (client_query_status _)). discriminate.
Qed.

(** ** Authentication *)

(** C3, as the code has it. Every answer [protect] gives instead of handing
    the request on has status 401, [success: false] and no data, and it is
    one of three, by cause: no usable bearer token gives the message
    "Not authorized, no token"; a token that does not verify, or whose
    subject cannot be looked up, gives "Not authorized, token failed"
    together with the error's own message; a verified token whose subject
    has no account gives "User not found". *)
Theorem authentication_failure_is_401_with_its_cause req st r st' :
  protect req st = (Respond r, st') ->
  Unauthenticated r /\ success r = Some false /\ data r = None /\
  ( (r = fail_json 401 "Not authorized, no token" /\
     (bearer_token req = None \/ bearer_token req = Some ""))
    \/
    (exists token e,
       bearer_token req = Some token /\
       r = error_json 401 "Not authorized, token failed" e /\
       (jwt_verify token = inl (exn_message e) \/
        exists id, jwt_verify token = inr id /\ ObjectId_isValid id = false))
    \/
    (exists token id,
       bearer_token req = Some token /\
       jwt_verify token = inr id /\
       users st !! ObjectId_hex id = None /\
       r = fail_json 401 "User not found") ).
Proof.
  unfold protect, try_catch, bind.
  destruct (bearer_token req) as [[|c token]|] eqn:Ht; simpl.
  - intros [= <- <-]. repeat split; try done. left. split; [done | by right].
  - destruct (jwt_verify (String c token)) as [msg|id] eqn:Hj; simpl.
    + intros [= <- <-]. repeat split; try done. right; left.
      exists (String c token), (JsonWebTokenError msg). repeat split; try done.
      by left.
    + destruct (ObjectId_isValid id) eqn:Hv.
      * rewrite User_findById_valid by done.
        destruct (users st !! ObjectId_hex id) as [account|] eqn:Hacc;
          simpl; try discriminate.
        intros [= <- <-]. repeat split; try done. right; right.
        by exists (String c token), id.
      * rewrite User_findById_invalid by done.
        intros [= <- <-]. repeat split; try done. right; left.
        exists (String c token), (CastError "Cast to ObjectId failed").
        repeat split; try done. right. by exists id.
  - intros [= <- <-]. repeat split; try done. left. split; [done | by left].
Qed.

(** C10. When [protect] hands a request on, the identity it has attached is
    the stored account with the [password] property removed: the identity has
    no password. The role gate hands that same request to the controller. *)
Theorem authenticated_identity_carries_no_password req0 st0 req st :
  protect req0 st0 = (Next req, st) ->
  exists id account u,
    users st0 !! id = Some account /\
    u = delete "password" account /\
    user req = Some u /\
    u !! "password" = None /\
    forall roles req' st', authorize roles req st = (Next req', st') -> req' = req.
Proof.
  intros Hp. destruct (protect_next _ _ _ _ Hp)
    as (token & id & account & _ & _ & _ & Hacc & -> & ->).
  exists (ObjectId_hex id), account, (delete "password" account).
  repeat split; try done.
  - apply lookup_delete_eq.
  - intros roles req' st'. rewrite (authorize_user _ _ _ (delete "password" account)) by done.
    destruct (includes _ _); [by intros [= <- _] | discriminate].
Qed.

(** ** The filter *)

Lemma unparsable_string_is_truthy (s : string) :
  JS.Number (JS.VStr s) = JS.NaN -> JS.truthy (JS.VStr s) = true.
Proof. destruct s; [discriminate | done]. Qed.

Lemma query_price userRole params :
  Controller.getAllServices_query userRole params !! "price"
  = if JS.truthy_opt (params !! "minPrice") || JS.truthy_opt (params !! "maxPrice")
    then Some (price_bounds (params !! "minPrice") (params !! "maxPrice"))
    else None.
Proof.
  unfold Controller.getAllServices_query, assign_if.
  destruct (JS.truthy_opt (params !! "minPrice") || JS.truthy_opt (params !! "maxPrice")).
  - apply lookup_insert_eq.
  - destruct (isClient userRole), (params !! "category"), (params !! "status");
      repeat match goal with |- context [if ?b then _ else _] => destruct b end;
      by simplify_map_eq.
Qed.

Lemma nan_bound_of_parameter userRole params (v : JS.val) :
  JS.truthy v = true ->
  JS.Number v = JS.NaN ->
  params !! "minPrice" = Some v \/ params !! "maxPrice" = Some v ->
  nan_bound (Controller.getAllServices_query userRole params) = true.
Proof.
  intros Hv Hnan Hp. unfold nan_bound. rewrite query_price.
  assert (JS.truthy_opt (params !! "minPrice") || JS.truthy_opt (params !! "maxPrice")
          = true) as ->.
  { destruct Hp as [-> | ->]; simpl; rewrite Hv; [done | apply orb_true_r]. }
  unfold price_bounds. rewrite existsb_app.
  destruct Hp as [-> | ->]; rewrite Hv, Hnan; simpl; [done | apply orb_true_r].
Qed.

(** C4, as the code has it. For every role, every parameter set and every
    non-empty (truthy) value [v]: given as [minPrice], the filter carries the
    lower bound [$gte: Number(v)]; given as [maxPrice], it carries the upper
    bound [$lte: Number(v)]. When [v] does not parse the bound is there with
    the value NaN, the filter differs from the one built without the
    parameter, the driver cannot cast it, and the request fails: it is
    answered 500 "Failed to fetch services" with no data, and the
    collection is as it was. *)
Theorem price_bound_is_Number_of_the_parameter userRole params (v : JS.val) :
  JS.truthy v = true ->
  let with_min := Controller.getAllServices_query userRole (<["minPrice" := v]> params) in
  let with_max := Controller.getAllServices_query userRole (<["maxPrice" := v]> params) in
  (exists rest,
     with_min !! "price" = Some (JS.VObj (("$gte", JS.VNum (JS.Number v)) :: rest))) /\
  (exists before,
     with_max !! "price" = Some (JS.VObj (before ++ [("$lte", JS.VNum (JS.Number v))]))) /\
  with_min ≠ Controller.getAllServices_query userRole (delete "minPrice" params) /\
  with_max ≠ Controller.getAllServices_query userRole (delete "maxPrice" params) /\
  (JS.Number v = JS.NaN ->
     (exists rest, with_min !! "price" = Some (JS.VObj (("$gte", JS.VNum JS.NaN) :: rest))) /\
     (exists before,
        with_max !! "price" = Some (JS.VObj (before ++ [("$lte", JS.VNum JS.NaN)]))) /\
     forall req st u,
       user req = Some u ->
       u !! "role" = userRole ->
       query req = <["minPrice" := v]> params \/ query req = <["maxPrice" := v]> params ->
       let answer := Controller.getAllServices req st in
       status answer.1 = 500%nat /\
       success answer.1 = Some false /\
       message answer.1 = Some "Failed to fetch services" /\
       data answer.1 = None /\
       services answer.2 = services st).
Proof.
  intros Hv with_min with_max. subst with_min with_max.
  assert (exists rest,
     Controller.getAllServices_query userRole (<["minPrice" := v]> params) !! "price"
     = Some (JS.VObj (("$gte", JS.VNum (JS.Number v)) :: rest))) as Hmin.
  { rewrite query_price, lookup_insert_eq. simpl. rewrite Hv. simpl.
    unfold price_bounds. rewrite Hv. simpl. eexists. reflexivity. }
  assert (exists before,
     Controller.getAllServices_query userRole (<["maxPrice" := v]> params) !! "price"
     = Some (JS.VObj (before ++ [("$lte", JS.VNum (JS.Number v))]))) as Hmax.
  { rewrite query_price, lookup_insert_eq. simpl. rewrite Hv, orb_true_r.
    unfold price_bounds. rewrite Hv. eexists. reflexivity. }
  split; [exact Hmin |]. split; [exact Hmax |]. split; [| split].
  - destruct Hmin as [rest Hmin]. intros Heq. rewrite Heq in Hmin. revert Hmin.
    rewrite query_price, lookup_delete_eq. simpl.
    rewrite lookup_delete_ne by done. unfold price_bounds.
    destruct (params !! "maxPrice") as [w|]; simpl; [| discriminate].
    destruct (JS.truthy w); simpl; discriminate.
  - destruct Hmax as [before Hmax]. intros Heq. rewrite Heq in Hmax. revert Hmax.
    rewrite query_price, lookup_delete_eq. simpl.
    rewrite lookup_delete_ne by done. rewrite orb_false_r. unfold price_bounds.
    destruct (params !! "minPrice") as [w|]; simpl; [| discriminate].
    destruct (JS.truthy w); simpl; [| discriminate].
    intros [= Hl]. destruct before as [|? [|? ?]]; discriminate.
  - intros Hnan. rewrite Hnan in Hmin, Hmax.
    split; [exact Hmin |]. split; [exact Hmax |].
    intros req st u Hu Hr Hq answer. subst answer.
    rewrite (getAllServices_user _ _ _ Hu), Hr. simpl.
    rewrite filter_castable_nan.
    + by repeat split.
    + apply (nan_bound_of_parameter _ _ v Hv Hnan).
      destruct Hq as [-> | ->]; [left | right]; apply lookup_insert_eq.
Qed.

(** C8. The two revisions of the controller build the same filter from every
    role and every parameter set, and their listings are the same function;
    in particular they treat the status parameter of a vendor alike. *)
Theorem both_revisions_build_the_same_filter userRole params :
  LegacyController.getAllServices_query userRole params
  = Controller.getAllServices_query userRole params /\
  LegacyController.getAllServices_query (Some (JS.VStr "vendor")) params !! "status"
  = Controller.getAllServices_query (Some (JS.VStr "vendor")) params !! "status" /\
  forall req st, LegacyController.getAllServices req st = Controller.getAllServices req st.
Proof. repeat split. Qed.

(** ** Updating *)

(** The update document the controller hands to the driver. *)
Lemma updateService_owner req st u service uid :
  user req = Some u ->
  u !! "_id" = Some (JS.VStr uid) ->
  isValidObjectId (params_id req) = true ->
  services st !! ObjectId_hex (params_id req) = Some service ->
  service !! "vendorId" = Some (JS.VStr uid) ->
  Controller.updateService req st
  = match Service_findByIdAndUpdate (params_id req) (issued_update req)
            (record_call (Service_findById_call (params_id req)) st) with
    | (inr doc, st') => (updated doc, st')
    | (inl e, st') =>
        (if String.eqb (exn_name e) "ValidationError" then validation_json e
         else error_json 500 "Failed to update service" e, st')
    end.
Proof.
  intros Hu Hid Hv Hs Ho.
  unfold Controller.updateService, try_catch, bind, user_prop.
  rewrite Hu, Hv. simpl. rewrite Service_findById_valid by done.
  rewrite Hs, Ho, Hid. simpl. rewrite String.eqb_refl. simpl.
  unfold issued_update.
  by destruct (Service_findByIdAndUpdate _ _ _) as [[e|doc] st'].
Qed.

Lemma issued_update_has_no_vendorId req :
  issued_update req !! "vendorId" = None.
Proof.
  unfold issued_update. destruct (file req).
  - rewrite lookup_insert_ne by done. apply lookup_delete_eq.
  - apply lookup_delete_eq.
Qed.

Lemma issued_update_keys req k v :
  issued_update req !! k = Some v ->
  k = "imageUrl" \/ body req !! k = Some v.
Proof.
  unfold issued_update. destruct (file req).
  - destruct (decide (k = "imageUrl")) as [-> | Hk]; [by left |].
    rewrite lookup_insert_ne by done. intros Hl%lookup_delete_Some. right. tauto.
  - intros Hl%lookup_delete_Some. right. tauto.
Qed.

Lemma no_operators (update : Object) :
  (forall k v, update !! k = Some v -> is_operator k = false) ->
  operators update = [].
Proof.
  intros Hall. unfold operators.
  assert (Forall (fun k => is_operator k = false) (map_to_list update).*1) as Hf.
  { apply Forall_forall. intros k Hk.
    apply list_elem_of_fmap in Hk as ([k' v] & -> & Hkv).
    apply elem_of_map_to_list in Hkv. by eapply Hall. }
  induction Hf as [|k l Hk _ IH]; simpl; [done |]. by rewrite Hk.
Qed.

(** An update document with no operator among its keys and no [vendorId] key
    leaves the owner of every resource as it was, whether the driver accepts
    it or not. *)
Lemma findByIdAndUpdate_keeps_owner id (update : Object) st k :
  (forall k v, update !! k = Some v -> is_operator k = false) ->
  update !! "vendorId" = None ->
  services (Service_findByIdAndUpdate id update st).2 !! k ≫= (.!! "vendorId")
  = services st !! k ≫= (.!! "vendorId").
Proof.
  intros Hops Hnone.
  unfold Service_findByIdAndUpdate, cast_id, cast_update, set_fields, bind, ret, throw.
  destruct (ObjectId_isValid id); simpl; [| done].
  rewrite (no_operators _ Hops).
  assert (plain_fields update !! "vendorId" = None) as Hplain.
  { unfold plain_fields. apply map_lookup_filter_None. by left. }
  rewrite Hplain.
  destruct (run_validators (plain_fields update)); simpl; [| done].
  destruct (services st !! ObjectId_hex id) as [doc|] eqn:Hdoc; simpl; [| done].
  destruct (decide (ObjectId_hex id = k)) as [<- | Hne].
  - rewrite lookup_insert_eq, Hdoc. simpl.
    by rewrite lookup_union_r by (by rewrite cast_fields_lookup, Hplain).
  - by rewrite lookup_insert_ne.
Qed.

(** The part of C6 that holds: the controller never hands the driver an
    update with a top-level [vendorId], and a patch that carries no update
    operator leaves the owner of every resource as it was. *)
Lemma update_without_operators_keeps_owner req st k :
  (forall p v, body req !! p = Some v -> is_operator p = false) ->
  services (Controller.updateService req st).2 !! k ≫= (.!! "vendorId")
  = services st !! k ≫= (.!! "vendorId").
Proof.
  intros Hops.
  assert (forall p v, issued_update req !! p = Some v -> is_operator p = false) as Hops'.
  { intros p v [-> | Hb]%issued_update_keys; [done | by eapply Hops]. }
  pose proof (findByIdAndUpdate_keeps_owner (params_id req) (issued_update req)
                (record_call (Service_findById_call (params_id req)) st) k
                Hops' (issued_update_has_no_vendorId req)) as Hkeep.
  unfold Controller.updateService, try_catch, bind, user_prop, toString.
  destruct (user req) as [u|]; simpl; [| done].
  destruct (isValidObjectId (params_id req)) eqn:Hv; simpl; [| done].
  rewrite Service_findById_valid by done.
  destruct (services st !! ObjectId_hex (params_id req)) as [service|]; simpl; [| done].
  destruct (service !! "vendorId") as [[| | |owner| |]|]; simpl; try done.
  destruct (u !! "_id") as [[| | |uid| |]|]; simpl; try done.
  destruct (String.eqb owner uid); simpl; [| done].
  fold (issued_update req).
  by destruct (Service_findByIdAndUpdate _ _ _) as [[e|doc] st'].
Qed.

End Properties.

(** * The properties on the small deployment *)

Import Fixture.

Lemma update_is_owner_only_delete_is_owner_or_admin_witness :
  (@protect Reference.driver admin_on_haircut store
     = (Next (as_admin admin_on_haircut), looked_up admin_id) /\
   admin_id ≠ vendor1_id) /\
  Succeeded (@Controller.deleteService Reference.driver
               (as_admin admin_on_haircut) (looked_up admin_id)).1 /\
  Forbidden (@Controller.updateService Reference.driver
               (as_admin admin_on_haircut) (looked_up admin_id)).1 /\
  Forbidden (@Routes.put Reference.driver admin_on_haircut store).1.
Proof.
  assert (@protect Reference.driver admin_on_haircut store
          = (Next (as_admin admin_on_haircut), looked_up admin_id)) as Hp
    by (vm_compute; reflexivity).
  assert (admin_id ≠ vendor1_id) as Hne by discriminate.
  destruct (@update_is_owner_only_delete_is_owner_or_admin Reference.driver
              admin_on_haircut store (as_admin admin_on_haircut) (looked_up admin_id)
              (delete "password" (account admin_id "adam" "admin"))
              haircut admin_id vendor1_id
              Hp eq_refl eq_refl eq_refl eq_refl eq_refl Hne)
    as (Hdel & Hupd & _ & Hput & _).
  destruct (Hdel eq_refl) as (Hok & _ & _).
  repeat split; assumption.
Defined.

Lemma client_listing_is_forced_to_active_witness :
  (user (as_client client_lists_inactive)
     = Some (delete "password" (account client_id "clara" "client")) /\
   query (as_client client_lists_inactive) !! "status" = Some (JS.VStr "inactive")) /\
  Controller.getAllServices_query (Some (JS.VStr "client"))
    (query (as_client client_lists_inactive)) !! "status" = Some (JS.VStr "active") /\
  exists docs,
    (@Controller.getAllServices Reference.driver
       (as_client client_lists_inactive) (looked_up client_id)).1 = listing docs /\
    Forall is_active docs.
Proof.
  destruct (@client_listing_is_forced_to_active Reference.driver
              (as_client client_lists_inactive) (looked_up client_id)
              (delete "password" (account client_id "clara" "client"))
              eq_refl eq_refl)
    as (Hq & _ & _ & _ & Hlist).
  split; [split; reflexivity |]. split; [exact Hq |]. exact (Hlist eq_refl).
Defined.

(** C3, as the claim states it, fails: on the same store, a request with no
    token, one with a token that does not verify and one whose token names no
    account get three different answers. *)
Lemma authentication_failures_are_told_apart :
  (@protect Reference.driver no_token store).1
    = Respond (fail_json 401 "Not authorized, no token") /\
  (@protect Reference.driver forged store).1
    = Respond (error_json 401 "Not authorized, token failed"
                 (JsonWebTokenError "invalid signature")) /\
  (@protect Reference.driver ghost store).1
    = Respond (fail_json 401 "User not found") /\
  (@protect Reference.driver no_token store).1 ≠ (@protect Reference.driver forged store).1 /\
  (@protect Reference.driver forged store).1 ≠ (@protect Reference.driver ghost store).1 /\
  (@protect Reference.driver no_token store).1 ≠ (@protect Reference.driver ghost store).1.
Proof. repeat split; vm_compute; (reflexivity || discriminate). Qed.

Lemma authentication_failure_is_401_with_its_cause_witness :
  @protect Reference.driver ghost store
    = (Respond (fail_json 401 "User not found"), looked_up ghost_id) /\
  Unauthenticated (fail_json 401 "User not found") /\
  success (fail_json 401 "User not found") = Some false.
Proof.
  assert (@protect Reference.driver ghost store
          = (Respond (fail_json 401 "User not found"), looked_up ghost_id)) as Hp
    by (vm_compute; reflexivity).
  destruct (@authentication_failure_is_401_with_its_cause Reference.driver
              ghost store _ _ Hp) as (H401 & Hfalse & _).
  repeat split; assumption.
Defined.

(** C4, as the claim states it, fails: for an administrator asking for
    [?minPrice=abc], the value does not parse and yet the filter carries the
    bound [$gte: NaN]; it is not the filter built without the parameter, and
    the request is not served as if the parameter were absent: it is
    answered 500 "Failed to fetch services", where the request without the
    parameter is answered 200 with both services. *)
Lemma unparsable_minPrice_is_kept_as_NaN :
  JS.Number (JS.VStr "abc") = JS.NaN /\
  Controller.getAllServices_query (Some (JS.VStr "admin"))
    {["minPrice" := JS.VStr "abc"]} !! "price"
    = Some (JS.VObj [("$gte", JS.VNum JS.NaN)]) /\
  Controller.getAllServices_query (Some (JS.VStr "admin")) ∅ !! "price" = None /\
  Controller.getAllServices_query (Some (JS.VStr "admin")) {["minPrice" := JS.VStr "abc"]}
    ≠ Controller.getAllServices_query (Some (JS.VStr "admin")) ∅ /\
  status (@Routes.get_all Reference.driver admin_min_abc store).1 = 500%nat /\
  message (@Routes.get_all Reference.driver admin_min_abc store).1
    = Some "Failed to fetch services" /\
  data (@Routes.get_all Reference.driver admin_min_abc store).1 = None /\
  status (@Routes.get_all Reference.driver admin_on_haircut store).1 = 200%nat /\
  count (@Routes.get_all Reference.driver admin_on_haircut store).1 = Some 2%nat.
Proof.
  split; [vm_compute; reflexivity |]. split; [vm_compute; reflexivity |].
  split; [vm_compute; reflexivity |]. split.
  { intros Heq. apply (f_equal (.!! "price")) in Heq. vm_compute in Heq. discriminate. }
  repeat split; vm_compute; reflexivity.
Qed.

(** A bound that parses is applied: of the two services, at 50 and at 80,
    [?minPrice=60] lists one. *)
Example parsable_minPrice_is_applied :
  Controller.getAllServices_query (Some (JS.VStr "admin"))
    {["minPrice" := JS.VStr "60"]} !! "price"
    = Some (JS.VObj [("$gte", JS.VNum (JS.Finite (60 # 1)))]) /\
  status (@Routes.get_all Reference.driver admin_min_60 store).1 = 200%nat /\
  count (@Routes.get_all Reference.driver admin_min_60 store).1 = Some 1%nat.
Proof. repeat split; vm_compute; reflexivity. Qed.

Lemma price_bound_is_Number_of_the_parameter_witness :
  (JS.truthy (JS.VStr "abc") = true /\ JS.Number (JS.VStr "abc") = JS.NaN) /\
  (exists rest,
     Controller.getAllServices_query (Some (JS.VStr "admin"))
       (<["minPrice" := JS.VStr "abc"]> ∅) !! "price"
     = Some (JS.VObj (("$gte", JS.VNum JS.NaN) :: rest))) /\
  status (@Controller.getAllServices Reference.driver
            (as_admin admin_min_abc) (looked_up admin_id)).1 = 500%nat /\
  message (@Controller.getAllServices Reference.driver
             (as_admin admin_min_abc) (looked_up admin_id)).1
    = Some "Failed to fetch services".
Proof.
  destruct (@price_bound_is_Number_of_the_parameter Reference.driver
              (Some (JS.VStr "admin")) ∅ (JS.VStr "abc") eq_refl)
    as (_ & _ & _ & _ & Hnan).
  destruct (Hnan eq_refl) as (Hmin & _ & Hfails).
  destruct (Hfails (as_admin admin_min_abc) (looked_up admin_id)
              (delete "password" (account admin_id "adam" "admin"))
              eq_refl eq_refl (or_introl eq_refl))
    as (H500 & _ & Hmsg & _).
  split; [split; reflexivity |]. split; [exact Hmin |]. by split.
Defined.

Lemma malformed_id_is_rejected_before_any_lookup_witness :
  (@isValidObjectId Reference.driver "abc123" = false /\
   @isValidObjectId Reference.driver absent_id = true /\
   services (looked_up client_id) !! absent_id = None) /\
  (@Controller.getServiceById Reference.driver
     (as_client client_on_garbage) (looked_up client_id)).2 = looked_up client_id /\
  InvalidIdentifier (@Controller.deleteService Reference.driver
     (as_client client_on_garbage) (looked_up client_id)).1 /\
  NotFound (@Controller.updateService Reference.driver
     (as_client client_on_absent) (looked_up client_id)).1.
Proof.
  destruct (@malformed_id_is_rejected_before_any_lookup Reference.driver
              (as_client client_on_garbage) (looked_up client_id) _ eq_refl)
    as (Hbad & _).
  destruct (@malformed_id_is_rejected_before_any_lookup Reference.driver
              (as_client client_on_absent) (looked_up client_id) _ eq_refl)
    as (_ & Hmiss & _).
  destruct (Hbad eq_refl) as ((_ & Hsame) & _ & (Hdel & _)).
  destruct (Hmiss eq_refl eq_refl) as (_ & Hupd & _).
  repeat split; assumption.
Defined.

(** The id of a request is cast to an ObjectId before it is looked up: the
    upper-case spelling of the haircut's id is the key of no document, and
    yet a request that spells the id so reads the haircut, and with it an
    administrator deletes the haircut. *)
Example spelling_of_an_id_is_immaterial :
  haircut_ID ≠ haircut_id /\
  services store !! haircut_ID = None /\
  @ObjectId_hex Reference.driver haircut_ID = haircut_id /\
  (@Routes.get_by_id Reference.driver client_on_HAIRCUT store).1
    = (@Routes.get_by_id Reference.driver
         (request (bearer client_id) haircut_id ∅ ∅) store).1 /\
  Succeeded (@Routes.get_by_id Reference.driver client_on_HAIRCUT store).1 /\
  Succeeded (@Routes.delete Reference.driver admin_on_HAIRCUT store).1 /\
  services (@Routes.delete Reference.driver admin_on_HAIRCUT store).2 !! haircut_id
    = None.
Proof. repeat split; try discriminate; vm_compute; reflexivity. Qed.

(** C6 fails on the code. The owner of a service sends the update body
    [{"$set": {"vendorId": "<vendor two>"}}]. The body has no [vendorId]
    property for the controller to delete, the driver applies the [$set], the
    request succeeds, and the service now belongs to vendor two. Both
    revisions of the controller behave so. *)
Theorem set_operator_in_the_body_reassigns_the_owner :
  body takeover !! "vendorId" = None /\
  owner_of haircut_id store = Some (JS.VStr vendor1_id) /\
  Succeeded (@Controller.updateService Reference.driver
               (as_vendor1 takeover) (looked_up vendor1_id)).1 /\
  owner_of haircut_id
    (@Controller.updateService Reference.driver
       (as_vendor1 takeover) (looked_up vendor1_id)).2
    = Some (JS.VStr vendor2_id) /\
  Succeeded (@LegacyController.updateService Reference.driver
               (as_vendor1 takeover) (looked_up vendor1_id)).1 /\
  owner_of haircut_id
    (@LegacyController.updateService Reference.driver
       (as_vendor1 takeover) (looked_up vendor1_id)).2
    = Some (JS.VStr vendor2_id) /\
  Succeeded (@Routes.put Reference.driver takeover store).1 /\
  owner_of haircut_id (@Routes.put Reference.driver takeover store).2
    = Some (JS.VStr vendor2_id).
Proof. repeat split; vm_compute; reflexivity. Qed.

Lemma delete_twice_is_not_found_witness :
  (user (as_vendor1 vendor1_on_haircut)
     = Some (delete "password" (account vendor1_id "vera" "vendor")) /\
   services (looked_up vendor1_id) !! haircut_id = Some haircut) /\
  Succeeded (@Controller.deleteService Reference.driver
               (as_vendor1 vendor1_on_haircut) (looked_up vendor1_id)).1 /\
  NotFound (@Controller.deleteService Reference.driver
              (as_vendor1 vendor1_on_haircut)
              (@Controller.deleteService Reference.driver
                 (as_vendor1 vendor1_on_haircut) (looked_up vendor1_id)).2).1 /\
  NotFound (@Routes.delete Reference.driver vendor1_on_haircut
              (@Routes.delete Reference.driver vendor1_on_haircut store).2).1.
Proof.
  destruct (@delete_twice_is_not_found Reference.driver
              (as_vendor1 vendor1_on_haircut) (looked_up vendor1_id)
              (delete "password" (account vendor1_id "vera" "vendor"))
              haircut vendor1_id vendor1_id
              eq_refl eq_refl eq_refl eq_refl eq_refl (or_introl eq_refl))
    as (Hfirst & Hsecond & _ & Hroute).
  assert (@protect Reference.driver vendor1_on_haircut store
          = (Next (as_vendor1 vendor1_on_haircut), looked_up vendor1_id)) as Hp
    by (vm_compute; reflexivity).
  destruct (Hroute vendor1_on_haircut store Hp eq_refl) as (_ & Hsecond').
  split; [split; reflexivity |]. repeat split; assumption.
Defined.

Lemma read_by_id_checks_neither_owner_nor_status_witness :
  (@isValidObjectId Reference.driver facial_id = true /\
   services (looked_up client_id) !! facial_id = Some facial /\
   facial !! "status" = Some (JS.VStr "inactive")) /\
  Succeeded (@Controller.getServiceById Reference.driver
               (as_client client_on_facial) (looked_up client_id)).1 /\
  Succeeded (@Routes.get_by_id Reference.driver client_on_facial store).1 /\
  exists doc,
    data (@Routes.get_by_id Reference.driver client_on_facial store).1
      = Some (One (Some doc)) /\
    doc !! "status" = Some (JS.VStr "inactive").
Proof.
  destruct (@read_by_id_checks_neither_owner_nor_status Reference.driver
              (as_client client_on_facial) (looked_up client_id) facial
              eq_refl eq_refl)
    as (Hread & Hok & Hroute & Hinactive).
  assert (@protect Reference.driver client_on_facial store
          = (Next (as_client client_on_facial), looked_up client_id)) as Hp
    by (vm_compute; reflexivity).
  pose proof (Hroute client_on_facial store _ "client" Hp eq_refl eq_refl
                (or_introl eq_refl)) as Hr.
  destruct (Hinactive eq_refl) as ((doc & Hdoc & Hst) & _).
  split; [repeat split; reflexivity |].
  split; [by rewrite Hread |]. split; [by rewrite Hr |].
  exists doc. by rewrite Hr.
Defined.

Lemma authenticated_identity_carries_no_password_witness :
  (@protect Reference.driver client_on_facial store
     = (Next (as_client client_on_facial), looked_up client_id) /\
   account client_id "clara" "client" !! "password" = Some (JS.VStr "$2a$10$hash")) /\
  exists u, user (as_client client_on_facial) = Some u /\ u !! "password" = None.
Proof.
  assert (@protect Reference.driver client_on_facial store
          = (Next (as_client client_on_facial), looked_up client_id)) as Hp
    by (vm_compute; reflexivity).
  destruct (@authenticated_identity_carries_no_password Reference.driver
              client_on_facial store _ _ Hp)
    as (id & acc & u & _ & _ & Hu & Hnone & _).
  split; [split; [exact Hp | reflexivity] |]. by exists u.
Defined.

(** * Creating, listing one's own, and the rest of the pipeline *)

Section VendorProperties.
Context `{Driver} `{Creation}.

Implicit Types (req : Request) (st : Store) (u service doc : Object) (id : string).

Lemma createService_complete req st (v : JS.val) :
  caller_id req = Some v ->
  JS.truthy v = true ->
  forallb (fun k => JS.truthy_opt (body req !! k)) required_fields = true ->
  VendorController.createService req st
  = match Service_create (new_document req v) st with
    | (inr d, st') => (created d, st')
    | (inl e, st') =>
        (if String.eqb (exn_name e) "ValidationError" then validation_json e
         else error_json 500 "Failed to create service" e, st')
    end.
Proof.
  intros Hc Hv Hall. unfold VendorController.createService, try_catch, bind.
  unfold caller_id in Hc. rewrite Hc, Hv, Hall. simpl.
  unfold new_document.
  by destruct (Service_create _ st) as [[e|d] st'].
Qed.

Lemma Service_create_fresh doc st :
  validate_document doc = [] ->
  services st !! new_ObjectId st = None ->
  Service_create doc st
  = (inr (stored_as doc st),
     set_services (<[new_ObjectId st := stored_as doc st]> (services st)) st).
Proof. intros Hv Hf. unfold Service_create. by rewrite Hv, Hf. Qed.

Lemma stored_as_lookup doc st k :
  k ≠ "createdAt" -> k ≠ "_id" ->
  stored_as doc st !! k = cast_value k <$> doc !! k.
Proof.
  intros ? ?. unfold stored_as. rewrite !lookup_insert_ne by done.
  apply cast_fields_lookup.
Qed.

Lemma createService_stores req st (v : JS.val) :
  caller_id req = Some v ->
  JS.truthy v = true ->
  forallb (fun k => JS.truthy_opt (body req !! k)) required_fields = true ->
  validate_document (new_document req v) = [] ->
  services st !! new_ObjectId st = None ->
  (VendorController.createService req st).2
  = set_services (<[new_ObjectId st := stored_as (new_document req v) st]> (services st)) st /\
  stored_as (new_document req v) st !! "vendorId" = Some v.
Proof.
  intros Hc Hv Hall Hval Hfresh.
  rewrite (createService_complete _ _ _ Hc Hv Hall),
    (Service_create_fresh _ _ Hval Hfresh). simpl.
  split; [done |]. rewrite stored_as_lookup by done.
  unfold new_document, new_service. simplify_map_eq. by destruct v.
Qed.

(** X1. [createService] answers 400 and leaves the store exactly as it was
    when the identity carries no usable id, and when one of title,
    description, price, duration and category is absent from the body or
    falsy there: an empty string and the number 0 count as missing. *)
Theorem create_refuses_an_incomplete_request req st :
  (JS.truthy_opt (caller_id req) = false ->
     VendorController.createService req st = (no_vendor_id, st)) /\
  (forall k,
     JS.truthy_opt (caller_id req) = true ->
     k ∈ required_fields ->
     JS.truthy_opt (body req !! k) = false ->
     VendorController.createService req st = (missing_fields, st)) /\
  status no_vendor_id = 400%nat /\ status missing_fields = 400%nat.
Proof.
  split; [| split; [| done]].
  - unfold caller_id, VendorController.createService, try_catch.
    destruct (or_else _ _) as [v|]; simpl; [| done].
    by intros ->.
  - intros k Hc Hk Hf.
    unfold caller_id in Hc. unfold VendorController.createService, try_catch.
    destruct (or_else _ _) as [v|]; [simpl in Hc | discriminate].
    rewrite Hc.
    assert (forallb (fun k => JS.truthy_opt (body req !! k)) required_fields = false) as ->.
    { apply not_true_is_false. rewrite forallb_forall. intros Hall.
      apply list_elem_of_In in Hk. rewrite (Hall k Hk) in Hf. discriminate. }
    done.
Qed.

(** X2. When the identity's id is an ObjectId, given by its hexadecimal
    form as [protect] attaches it, the five required fields are truthy, the
    driver's validation accepts the document and the generated id is new,
    [createService] answers 201 with the document the collection now holds
    under the generated id. In that document the owner is the caller,
    whatever [vendorId] the body carries; the status is [active] when the
    body gives none and the body's when that is a string; a title,
    description or category given as a string is stored trimmed; a price or
    duration given as a number is stored as given, and one given as a string
    that parses, as a form sends it, is stored as that number; [imageUrl] is
    the path of the uploaded file, or [null] without one. Every other service
    and every user is as it was. *)
Theorem create_stores_the_service_under_the_caller req st (uid : string) :
  caller_id req = Some (JS.VStr uid) ->
  uid ≠ "" ->
  ObjectId_isValid uid = true ->
  ObjectId_hex uid = uid ->
  forallb (fun k => JS.truthy_opt (body req !! k)) required_fields = true ->
  validate_document (new_document req (JS.VStr uid)) = [] ->
  services st !! new_ObjectId st = None ->
  let answer := VendorController.createService req st in
  exists d,
    answer.1 = created d /\
    services answer.2 !! new_ObjectId st = Some d /\
    d !! "_id" = Some (JS.VStr (new_ObjectId st)) /\
    d !! "vendorId" = Some (JS.VStr uid) /\
    (JS.truthy_opt (body req !! "status") = false ->
       d !! "status" = Some (JS.VStr "active")) /\
    (forall s, body req !! "status" = Some (JS.VStr s) -> s ≠ "" ->
       d !! "status" = Some (JS.VStr s)) /\
    (forall k s, k ∈ trimmed_paths -> body req !! k = Some (JS.VStr s) ->
       d !! k = Some (JS.VStr (JS.trim_string s))) /\
    (forall k n, k ∈ ["price"; "duration"] -> body req !! k = Some (JS.VNum n) ->
       d !! k = Some (JS.VNum n)) /\
    (forall k s, k ∈ ["price"; "duration"] -> body req !! k = Some (JS.VStr s) ->
       JS.Number (JS.VStr s) ≠ JS.NaN ->
       d !! k = Some (JS.VNum (JS.Number (JS.VStr s)))) /\
    d !! "imageUrl"
      = Some (match file req with
              | Some filename => JS.VStr ("/uploads/services/" +:+ filename)
              | None => JS.VNull
              end) /\
    (forall k, k ≠ new_ObjectId st -> services answer.2 !! k = services st !! k) /\
    users answer.2 = users st.
Proof.
  intros Hc Hne _ _ Hall Hval Hfresh answer. subst answer.
  assert (JS.truthy (JS.VStr uid) = true) as Ht.
  { simpl. by destruct (String.eqb_spec uid ""). }
  rewrite (createService_complete _ _ _ Hc Ht Hall),
    (Service_create_fresh _ _ Hval Hfresh). simpl.
  exists (stored_as (new_document req (JS.VStr uid)) st).
  split; [done |]. split; [apply lookup_insert_eq |].
  split; [unfold stored_as; by simplify_map_eq |].
  split.
  { rewrite stored_as_lookup by done. unfold new_document, new_service.
    by simplify_map_eq. }
  split.
  { intros Hs. rewrite stored_as_lookup by done. unfold new_document, new_service.
    rewrite !lookup_insert_ne by done. rewrite lookup_insert_eq.
    unfold or_else. by rewrite Hs. }
  split.
  { intros s Hs Hs'. rewrite stored_as_lookup by done. unfold new_document, new_service.
    rewrite !lookup_insert_ne by done. rewrite lookup_insert_eq.
    unfold or_else. rewrite Hs. simpl.
    by destruct (String.eqb_spec s ""). }
  split.
  { intros k s Hk Hs.
    apply list_elem_of_In in Hk.
    destruct Hk as [<- | [<- | [<- | []]]];
      rewrite stored_as_lookup by done; unfold new_document, new_service;
      by simplify_map_eq. }
  split.
  { intros k n Hk Hn.
    apply list_elem_of_In in Hk.
    destruct Hk as [<- | [<- | []]];
      rewrite stored_as_lookup by done; unfold new_document, new_service;
      by simplify_map_eq. }
  split.
  { intros k s Hk Hs Hnum.
    apply list_elem_of_In in Hk.
    assert (s ≠ "") as Hs'.
    { intros ->. rewrite forallb_forall in Hall.
      assert (In k required_fields) as Hin
        by (destruct Hk as [<- | [<- | []]]; simpl; tauto).
      specialize (Hall k Hin). by rewrite Hs in Hall. }
    destruct Hk as [<- | [<- | []]];
      rewrite stored_as_lookup by done; unfold new_document, new_service;
      rewrite !lookup_insert_ne by done; rewrite lookup_insert_eq, Hs; simpl;
      by rewrite cast_value_numeric. }
  split.
  { rewrite stored_as_lookup by done. unfold new_document.
    rewrite lookup_insert_eq. simpl. by destruct (file req). }
  split; [| done].
  intros k Hk. by rewrite lookup_insert_ne.
Qed.

(** ** Listings *)

Lemma insert_newest_Permutation d (l : list Object) :
  insert_newest d l ≡ₚ d :: l.
Proof.
  induction l as [|x l IH]; simpl; [done |].
  destruct (Qle_bool (createdAt x) (createdAt d)); [done |].
  rewrite IH. apply Permutation_swap.
Qed.

Lemma sort_newest_Permutation (l : list Object) : sort_newest l ≡ₚ l.
Proof.
  induction l as [|x l IH]; simpl; [done |].
  by rewrite insert_newest_Permutation, IH.
Qed.

Lemma insert_newest_sorted d (l : list Object) :
  StronglySorted not_older l -> StronglySorted not_older (insert_newest d l).
Proof.
  induction 1 as [|x l Hs IH Hx]; simpl.
  - repeat constructor.
  - destruct (Qle_bool (createdAt x) (createdAt d)) eqn:Hle.
    + apply Qle_bool_iff in Hle. constructor; [by constructor |].
      constructor; [done |].
      eapply Forall_impl; [exact Hx |]. intros y Hy. unfold not_older in *.
      by eapply Qle_trans.
    + assert (not_older x d) as Hxd.
      { unfold not_older. apply Qlt_le_weak, Qnot_le_lt. intros Hle'.
        apply Qle_bool_iff in Hle'. congruence. }
      constructor; [done |].
      apply Forall_forall. intros y Hy%list_elem_of_In.
      destruct (insert_newest_In _ _ _ Hy) as [-> | Hin]; [done |].
      rewrite Forall_forall in Hx. apply Hx. by apply list_elem_of_In.
Qed.

Lemma sort_newest_sorted (l : list Object) : StronglySorted not_older (sort_newest l).
Proof.
  induction l as [|x l IH]; simpl; [constructor | by apply insert_newest_sorted].
Qed.

Lemma populate_vendorId_sorted fields us (l : list Object) :
  StronglySorted not_older l ->
  StronglySorted not_older (populate_vendorId fields us <$> l).
Proof.
  assert (forall d, createdAt (populate_vendorId fields us d) = createdAt d) as Hc.
  { intros d. unfold createdAt. by rewrite populate_vendorId_other. }
  induction 1 as [|x l Hs IH Hx]; simpl; constructor; [done |].
  apply Forall_fmap. eapply Forall_impl; [exact Hx |].
  intros y Hy. unfold not_older in *. simpl. by rewrite !Hc.
Qed.

Lemma getMyServices_user req st u :
  user req = Some u ->
  VendorController.getMyServices req st
  = let q : Object := {["vendorId" := or_null (u !! "_id")]} in
    let st' := record_call (Service_find_call q) st in
    if filter_castable q then
      (listing (sort_newest (List.filter (matches q) (map_to_list (services st)).*2)), st')
    else
      (error_json 500 "Failed to fetch services"
         (CastError (filter_cast_message q)), st').
Proof.
  intros Hu.
  unfold VendorController.getMyServices, try_catch, bind, user_prop, Service_find.
  rewrite Hu. simpl. by destruct (filter_castable _).
Qed.

Lemma matches_owner (uid : string) doc :
  matches {["vendorId" := JS.VStr uid]} doc = true
  <-> doc !! "vendorId" = Some (JS.VStr uid).
Proof.
  unfold matches. rewrite map_to_list_singleton. simpl. rewrite andb_true_r.
  destruct (doc !! "vendorId") as [[| | |t| |]|]; simpl; try (split; [discriminate | by intros [=]]).
  rewrite String.eqb_eq. split; [by intros -> | by intros [= ->]].
Qed.

Lemma stored_documents st doc :
  doc ∈ (map_to_list (services st)).*2 <-> exists k, services st !! k = Some doc.
Proof.
  rewrite list_elem_of_fmap. split.
  - intros ([k d] & -> & Hkd). exists k. by apply elem_of_map_to_list.
  - intros (k & Hk). exists (k, doc). split; [done | by apply elem_of_map_to_list].
Qed.

Lemma getMyServices_own req st u (uid : string) :
  user req = Some u ->
  u !! "_id" = Some (JS.VStr uid) ->
  filter_castable {["vendorId" := JS.VStr uid]} = true ->
  exists docs,
    VendorController.getMyServices req st
    = (listing docs,
       record_call (Service_find_call {["vendorId" := JS.VStr uid]}) st) /\
    forall d,
      d ∈ docs <->
      (exists k, services st !! k = Some d) /\ d !! "vendorId" = Some (JS.VStr uid).
Proof.
  intros Hu Hid Hc. rewrite (getMyServices_user _ _ _ Hu), Hid. simpl. rewrite Hc.
  eexists. split; [reflexivity |].
  intros d. rewrite sort_newest_Permutation.
  rewrite list_elem_of_In, filter_In, <- list_elem_of_In, stored_documents.
  by rewrite matches_owner.
Qed.

(** X3. For an identity with an id, when the driver accepts the filter,
    [getMyServices] answers 200 with exactly the stored services whose owner
    is the caller: every one of them, whatever its status, and no other. The
    count in the answer is their number, and the collections are as they
    were. *)
Theorem own_listing_is_exactly_the_callers_services req st u (uid : string) :
  user req = Some u ->
  u !! "_id" = Some (JS.VStr uid) ->
  filter_castable {["vendorId" := JS.VStr uid]} = true ->
  exists docs,
    VendorController.getMyServices req st
    = (listing docs,
       record_call (Service_find_call {["vendorId" := JS.VStr uid]}) st) /\
    count (listing docs) = Some (length docs) /\
    forall d,
      d ∈ docs <->
      (exists k, services st !! k = Some d) /\ d !! "vendorId" = Some (JS.VStr uid).
Proof.
  intros Hu Hid Hc.
  destruct (getMyServices_own req st u uid Hu Hid Hc) as (docs & Hl & Hin).
  by exists docs.
Qed.

(** X4. Whatever the request and the store, the documents in the answer of
    [getAllServices] and of [getMyServices] come newest first: each is at
    least as new as all that follow it. *)
Theorem listings_come_newest_first req st docs :
  (data (Controller.getAllServices req st).1 = Some (Many docs) ->
     StronglySorted not_older docs) /\
  (data (VendorController.getMyServices req st).1 = Some (Many docs) ->
     StronglySorted not_older docs).
Proof.
  split.
  - destruct (user req) as [u|] eqn:Hu.
    + rewrite (getAllServices_user _ _ _ Hu). simpl.
      destruct (filter_castable _); simpl; [| discriminate].
      intros [= <-]. apply populate_vendorId_sorted, sort_newest_sorted.
    + unfold Controller.getAllServices, try_catch, bind, user_prop.
      rewrite Hu. discriminate.
  - destruct (user req) as [u|] eqn:Hu.
    + rewrite (getMyServices_user _ _ _ Hu). simpl.
      destruct (filter_castable _); simpl; [| discriminate].
      intros [= <-]. apply sort_newest_sorted.
    + unfold VendorController.getMyServices, try_catch, bind, user_prop.
      rewrite Hu. discriminate.
Qed.

(** X5. An identity that is not a client and sends no query parameter builds
    the empty filter, and when the driver accepts it the answer of
    [getAllServices] holds every stored service, inactive ones included, each
    once, with its owner populated. *)
Theorem unfiltered_listing_holds_every_service req st u :
  user req = Some u ->
  isClient (u !! "role") = false ->
  query req = ∅ ->
  filter_castable ∅ = true ->
  Controller.getAllServices_query (u !! "role") (query req) = ∅ /\
  exists docs,
    (Controller.getAllServices req st).1 = listing docs /\
    docs ≡ₚ populate_vendorId ["name"; "email"] (users st)
              <$> (map_to_list (services st)).*2.
Proof.
  intros Hu Hr Hq Hc.
  assert (Controller.getAllServices_query (u !! "role") (query req) = ∅) as Hempty.
  { unfold Controller.getAllServices_query, assign_if. rewrite Hr, Hq.
    by rewrite !lookup_empty. }
  split; [done |].
  rewrite (getAllServices_user _ _ _ Hu), Hempty. simpl. rewrite Hc.
  eexists. split; [reflexivity |].
  apply fmap_Permutation. rewrite sort_newest_Permutation.
  assert (forall l : list Object, List.filter (matches ∅) l = l) as ->; [| done].
  induction l as [|x l IH]; simpl; [done |].
  unfold matches at 1. rewrite map_to_list_empty. simpl. by rewrite IH.
Qed.

(** X6. A service just created can be read back and is listed for its
    creator: after a successful [createService], [getServiceById] on the new
    id, however the request spells it, answers 200 with the stored document,
    and [getMyServices] of the same identity contains it. *)
Theorem created_service_is_read_back_and_listed req st u (uid : string) :
  user req = Some u ->
  u !! "_id" = Some (JS.VStr uid) ->
  uid ≠ "" ->
  forallb (fun k => JS.truthy_opt (body req !! k)) required_fields = true ->
  validate_document (new_document req (JS.VStr uid)) = [] ->
  services st !! new_ObjectId st = None ->
  filter_castable {["vendorId" := JS.VStr uid]} = true ->
  let after := (VendorController.createService req st).2 in
  let d := stored_as (new_document req (JS.VStr uid)) st in
  (forall req',
     isValidObjectId (params_id req') = true ->
     ObjectId_hex (params_id req') = new_ObjectId st ->
     (Controller.getServiceById req' after).1
     = found (populate_vendorId ["name"; "email"; "phone"] (users st) d)) /\
  exists docs,
    (VendorController.getMyServices req after).1 = listing docs /\ d ∈ docs.
Proof.
  intros Hu Hid Hne Hall Hval Hfresh Hc after d. subst after d.
  assert (caller_id req = Some (JS.VStr uid)) as Hcaller.
  { unfold caller_id, or_else. rewrite Hu. simpl. rewrite Hid. simpl.
    destruct (String.eqb_spec uid ""); [done | reflexivity]. }
  assert (JS.truthy (JS.VStr uid) = true) as Ht.
  { simpl. by destruct (String.eqb_spec uid ""). }
  destruct (createService_stores req st (JS.VStr uid)
              Hcaller Ht Hall Hval Hfresh) as (Hst & Howner).
  rewrite Hst. split.
  - intros req' Hvalid Hp.
    rewrite (getServiceById_found req' _
               (stored_as (new_document req (JS.VStr uid)) st)); simpl.
    + done.
    + done.
    + rewrite Hp. apply lookup_insert_eq.
  - destruct (getMyServices_own req
                (set_services
                   (<[new_ObjectId st := stored_as (new_document req (JS.VStr uid)) st]>
                      (services st)) st) u uid Hu Hid Hc)
      as (docs & Hl & Hin).
    exists docs. split; [by rewrite Hl |].
    apply Hin. split; [| done].
    exists (new_ObjectId st). apply lookup_insert_eq.
Qed.

(** ** The role gate and the routes *)

Lemma includes_spec roles (role : option JS.val) :
  includes roles role = true <-> exists r, role = Some (JS.VStr r) /\ r ∈ roles.
Proof.
  unfold includes. destruct role as [[| | |r| |]|];
    try (split; [discriminate | by intros (? & [=] & _)]).
  rewrite existsb_exists. split.
  - intros (x & Hx%list_elem_of_In & Heq%String.eqb_eq). subst x. by exists r.
  - intros (r' & [= <-] & Hr). exists r. split; [by apply list_elem_of_In |].
    apply String.eqb_refl.
Qed.

(** X7. [authorize(...roles)] hands the request on, unchanged, exactly when
    the identity's [role] is one of the listed strings. An identity with any
    other role, with no role or with a role that is not a string is answered
    403 "Access denied: insufficient permissions". Either way the store is
    untouched. *)
Theorem role_gate_fails_closed roles req st u :
  user req = Some u ->
  ((authorize roles req st).1 = Next req <->
     exists r, u !! "role" = Some (JS.VStr r) /\ r ∈ roles) /\
  ((authorize roles req st).1 = Respond access_denied <->
     ~ exists r, u !! "role" = Some (JS.VStr r) /\ r ∈ roles) /\
  (authorize roles req st).2 = st.
Proof.
  intros Hu. rewrite (authorize_user _ _ _ _ Hu), <- includes_spec.
  destruct (includes roles (u !! "role")); simpl.
  - split; [done |]. split; [| done]. split; [discriminate | intros Hn; by destruct Hn].
  - split; [split; discriminate |]. split; [| done]. split; [| done].
    intros _. discriminate.
Qed.

Lemma protect_no_token req st :
  bearer_token req = None \/ bearer_token req = Some "" ->
  protect req st = (Respond no_token_answer, st).
Proof.
  intros Ht. unfold protect, try_catch.
  by destruct Ht as [-> | ->].
Qed.

Lemma routes_without_token req st :
  bearer_token req = None \/ bearer_token req = Some "" ->
  Routes.get_all req st = (no_token_answer, st) /\
  VendorRoutes.get_my_services req st = (no_token_answer, st) /\
  Routes.get_by_id req st = (no_token_answer, st) /\
  VendorRoutes.post req st = (no_token_answer, st) /\
  Routes.put req st = (no_token_answer, st) /\
  Routes.delete req st = (no_token_answer, st).
Proof.
  intros Ht.
  unfold Routes.get_all, VendorRoutes.get_my_services, Routes.get_by_id,
    VendorRoutes.post, Routes.put, Routes.delete. simpl.
  by rewrite (protect_no_token _ _ Ht).
Qed.

(** X8. A request with no usable bearer token (no Authorization header, one
    that does not start with [Bearer], or one with nothing after the first
    space) is answered 401 "Not authorized, no token" by every route of the
    service router, and the store is exactly as it was: no lookup is issued
    and no controller runs. *)
Theorem every_route_requires_a_token req st :
  bearer_token req = None \/ bearer_token req = Some "" ->
  Routes.get_all req st = (no_token_answer, st) /\
  VendorRoutes.get_my_services req st = (no_token_answer, st) /\
  Routes.get_by_id req st = (no_token_answer, st) /\
  VendorRoutes.post req st = (no_token_answer, st) /\
  Routes.put req st = (no_token_answer, st) /\
  Routes.delete req st = (no_token_answer, st).
Proof.
  intros Ht.
  unfold Routes.get_all, VendorRoutes.get_my_services, Routes.get_by_id,
    VendorRoutes.post, Routes.put, Routes.delete. simpl.
  by rewrite (protect_no_token _ _ Ht).
Qed.

(** X9. Once authenticated, an identity whose role is not [vendor] is
    answered 403 by the role gate on POST /, GET /my-services and PUT /:id,
    and one whose role is neither [vendor] nor [admin] on DELETE /:id; the
    controller does not run, so the store is the one [protect] left, with
    every document as it was. *)
Theorem vendor_routes_refuse_other_roles req0 st0 req st u :
  protect req0 st0 = (Next req, st) ->
  user req = Some u ->
  (includes ["vendor"] (u !! "role") = false ->
     VendorRoutes.post req0 st0 = (access_denied, st) /\
     VendorRoutes.get_my_services req0 st0 = (access_denied, st) /\
     Routes.put req0 st0 = (access_denied, st)) /\
  (includes ["vendor"; "admin"] (u !! "role") = false ->
     Routes.delete req0 st0 = (access_denied, st)) /\
  same_documents st0 st.
Proof.
  intros Hp Hu. split; [| split].
  - intros Hr.
    unfold VendorRoutes.post, VendorRoutes.get_my_services, Routes.put. simpl.
    by rewrite Hp, (authorize_user _ _ _ _ Hu), Hr.
  - intros Hr. unfold Routes.delete. simpl.
    by rewrite Hp, (authorize_user _ _ _ _ Hu), Hr.
  - destruct (protect_again _ _ _ _ Hp) as (id & -> & _). by split.
Qed.

(** ** What the handlers leave alone *)

Lemma Service_find_documents (q : Object) st :
  same_documents st (Service_find q st).2.
Proof. unfold Service_find. by destruct (filter_castable q). Qed.

Lemma Service_findById_documents id st :
  same_documents st (Service_findById id st).2.
Proof. unfold Service_findById, cast_id, bind. by destruct (ObjectId_isValid id). Qed.

Lemma protect_documents req st : same_documents st (protect req st).2.
Proof.
  unfold protect, try_catch, bind.
  destruct (bearer_token req) as [[|c token]|]; simpl; try done.
  destruct (jwt_verify _) as [msg|id]; simpl; [done |].
  unfold User_findById, cast_id, bind, ret, throw.
  destruct (ObjectId_isValid id); simpl; [| done].
  by destruct (users st !! ObjectId_hex id).
Qed.

(** X10. The three reading handlers never write: whatever the request and
    the store, after [getAllServices], [getServiceById] and [getMyServices]
    both collections hold exactly the documents they held before. The same is
    true of [protect]. *)
Theorem reading_never_writes req st :
  same_documents st (Controller.getAllServices req st).2 /\
  same_documents st (Controller.getServiceById req st).2 /\
  same_documents st (VendorController.getMyServices req st).2 /\
  same_documents st (protect req st).2.
Proof.
  split; [| split; [| split]].
  - unfold Controller.getAllServices, try_catch, bind, user_prop.
    destruct (user req) as [o|]; simpl; [| done].
    pose proof (Service_find_documents
                  (Controller.getAllServices_query (o !! "role") (query req)) st) as Hd.
    by destruct (Service_find _ st) as [[e|found] st'].
  - unfold Controller.getServiceById, try_catch, bind.
    destruct (isValidObjectId (params_id req)); simpl; [| done].
    pose proof (Service_findById_documents (params_id req) st) as Hd.
    destruct (Service_findById _ st) as [[e|found] st']; simpl in *; [done |].
    by destruct found.
  - unfold VendorController.getMyServices, try_catch, bind, user_prop.
    destruct (user req) as [o|]; simpl; [| done].
    pose proof (Service_find_documents {["vendorId" := or_null (o !! "_id")]} st) as Hd.
    by destruct (Service_find _ st) as [[e|found] st'].
  - apply protect_documents.
Qed.

(** The step of [Service.findByIdAndUpdate] that writes. *)
Lemma write_back_elsewhere (key : string) (doc' : option Object) st k :
  k ≠ key ->
  services (write_back key doc' st).2 !! k = services st !! k /\
  users (write_back key doc' st).2 = users st.
Proof.
  intros Hk. unfold write_back. destruct doc'; simpl; [| done].
  by rewrite lookup_insert_ne.
Qed.

Lemma findByIdAndUpdate_elsewhere id (update : Object) st k :
  k ≠ ObjectId_hex id ->
  services (Service_findByIdAndUpdate id update st).2 !! k = services st !! k /\
  users (Service_findByIdAndUpdate id update st).2 = users st.
Proof.
  intros Hk.
  pose (st1 := record_call (Service_findByIdAndUpdate_call id update) st).
  assert (forall sets : Object,
    let out :=
      match run_validators sets with
      | [] => fun st0 : Store =>
          write_back (ObjectId_hex id)
            ((fun doc => cast_fields sets ∪ doc) <$> services st0 !! ObjectId_hex id) st0
      | (_ :: _) as msgs => throw (ValidationError msgs)
      end st1 in
    services out.2 !! k = services st !! k /\ users out.2 = users st) as Hsets.
  { intros sets. simpl. destruct (run_validators sets); simpl; [| done].
    apply (write_back_elsewhere _ _ st1 _ Hk). }
  assert (let out :=
            match apply_update update (services st1 !! ObjectId_hex id) with
            | inl e => (inl e, st1)
            | inr doc' => write_back (ObjectId_hex id) doc' st1
            end in
          services out.2 !! k = services st !! k /\ users out.2 = users st) as Hother.
  { simpl. destruct (apply_update _ _) as [e|doc']; simpl; [done |].
    apply (write_back_elsewhere _ _ st1 _ Hk). }
  unfold Service_findByIdAndUpdate, cast_id, cast_update, bind, ret, throw.
  fold st1.
  destruct (ObjectId_isValid id); simpl; [| done].
  destruct (set_fields update) as [sets|]; simpl; [| exact Hother].
  destruct (sets !! "vendorId") as [[| | |s| |]|]; simpl;
    try exact Hother; try apply Hsets.
  destruct (ObjectId_isValid s); simpl; [apply Hsets | done].
Qed.

Lemma findByIdAndUpdate_users id (update : Object) st :
  users (Service_findByIdAndUpdate id update st).2 = users st.
Proof.
  apply (findByIdAndUpdate_elsewhere id update st (String "x" (ObjectId_hex id))).
  intros Heq. apply (f_equal String.length) in Heq. simpl in Heq. lia.
Qed.

(** X11. The writing handlers write in one place only. Whatever the request
    and the store: [updateService] and [deleteService] leave every service
    other than the one whose ObjectId [req.params.id] is cast to as it was,
    [createService] leaves every service other than the one at the generated
    id as it was, and none of the three touches the user collection. *)
Theorem writing_is_confined_to_one_document req st :
  (forall k, k ≠ ObjectId_hex (params_id req) ->
     services (Controller.updateService req st).2 !! k = services st !! k) /\
  (forall k, k ≠ ObjectId_hex (params_id req) ->
     services (Controller.deleteService req st).2 !! k = services st !! k) /\
  (forall k, k ≠ new_ObjectId st ->
     services (VendorController.createService req st).2 !! k = services st !! k) /\
  users (Controller.updateService req st).2 = users st /\
  users (Controller.deleteService req st).2 = users st /\
  users (VendorController.createService req st).2 = users st.
Proof.
  assert (forall k, k ≠ ObjectId_hex (params_id req) ->
            services (Controller.updateService req st).2 !! k = services st !! k) as Hupd.
  { intros k Hk.
    pose proof (proj1 (findByIdAndUpdate_elsewhere (params_id req) (issued_update req)
                  (record_call (Service_findById_call (params_id req)) st) k Hk)) as Hf.
    unfold Controller.updateService, try_catch, bind, user_prop, toString.
    destruct (user req) as [u|]; simpl; [| done].
    destruct (isValidObjectId (params_id req)) eqn:Hv; simpl; [| done].
    rewrite Service_findById_valid by done.
    destruct (services st !! ObjectId_hex (params_id req)) as [service|]; simpl; [| done].
    destruct (service !! "vendorId") as [[| | |owner| |]|]; simpl; try done.
    destruct (u !! "_id") as [[| | |uid| |]|]; simpl; try done.
    destruct (String.eqb owner uid); simpl; [| done].
    fold (issued_update req).
    by destruct (Service_findByIdAndUpdate _ _ _) as [[e|doc] st']. }
  assert (users (Controller.updateService req st).2 = users st) as Hupdu.
  { pose proof (findByIdAndUpdate_users (params_id req) (issued_update req)
                  (record_call (Service_findById_call (params_id req)) st)) as Hf.
    unfold Controller.updateService, try_catch, bind, user_prop, toString.
    destruct (user req) as [u|]; simpl; [| done].
    destruct (isValidObjectId (params_id req)) eqn:Hv; simpl; [| done].
    rewrite Service_findById_valid by done.
    destruct (services st !! ObjectId_hex (params_id req)) as [service|]; simpl; [| done].
    destruct (service !! "vendorId") as [[| | |owner| |]|]; simpl; try done.
    destruct (u !! "_id") as [[| | |uid| |]|]; simpl; try done.
    destruct (String.eqb owner uid); simpl; [| done].
    fold (issued_update req).
    by destruct (Service_findByIdAndUpdate _ _ _) as [[e|doc] st']. }
  assert ((forall k, k ≠ ObjectId_hex (params_id req) ->
            services (Controller.deleteService req st).2 !! k = services st !! k) /\
          users (Controller.deleteService req st).2 = users st) as [Hdel Hdelu].
  { unfold Controller.deleteService, try_catch, bind, user_prop, toString.
    destruct (user req) as [u|]; simpl; [| done].
    destruct (isValidObjectId (params_id req)) eqn:Hv; simpl; [| done].
    rewrite Service_findById_valid by done.
    destruct (services st !! ObjectId_hex (params_id req)) as [service|]; simpl; [| done].
    destruct (service !! "vendorId") as [[| | |owner| |]|]; simpl; try done.
    destruct (u !! "_id") as [[| | |uid| |]|]; simpl; try done.
    destruct (negb (String.eqb owner uid) && negb (isAdminRole (u !! "role")));
      simpl; [done |].
    rewrite Service_findByIdAndDelete_valid by done. simpl.
    split; [| done]. intros k Hk. by rewrite lookup_delete_ne. }
  assert ((forall k, k ≠ new_ObjectId st ->
            services (VendorController.createService req st).2 !! k = services st !! k) /\
          users (VendorController.createService req st).2 = users st) as [Hcre Hcreu].
  { unfold VendorController.createService, try_catch, bind, Service_create.
    destruct (or_else _ _) as [v|]; [| done].
    destruct (JS.truthy v); [| done].
    destruct (forallb (fun k => JS.truthy_opt (body req !! k)) required_fields);
      [| done].
    cbn [negb]. cbv iota.
    destruct (validate_document _); simpl; [| done].
    destruct (services st !! new_ObjectId st); simpl; [done |].
    split; [| done]. intros k Hk. by rewrite lookup_insert_ne. }
  done.
Qed.

(** ** Deleting and updating *)

(** X12. A delete request from an authenticated identity that is neither the
    owner of the resource nor an administrator is answered 403 "You are not
    authorized to delete this service" and removes nothing; through the route
    this is what a vendor gets for another vendor's service. *)
Theorem delete_by_a_stranger_removes_nothing req0 st0 req st u service (uid owner : string) :
  protect req0 st0 = (Next req, st) ->
  user req = Some u ->
  u !! "_id" = Some (JS.VStr uid) ->
  isValidObjectId (params_id req) = true ->
  services st !! ObjectId_hex (params_id req) = Some service ->
  service !! "vendorId" = Some (JS.VStr owner) ->
  uid ≠ owner ->
  isAdminRole (u !! "role") = false ->
  (Controller.deleteService req st).1 = delete_forbidden /\
  services (Controller.deleteService req st).2 = services st /\
  (u !! "role" = Some (JS.VStr "vendor") ->
     (Routes.delete req0 st0).1 = delete_forbidden /\
     services (Routes.delete req0 st0).2 !! ObjectId_hex (params_id req) = Some service).
Proof.
  intros Hp Hu Hid Hv Hs Ho Hne Hr.
  pose proof (deleteService_not_allowed req st u service uid owner
                Hu Hid Hv Hs Ho Hne Hr) as Hdel.
  rewrite Hdel. split; [done |]. split; [done |].
  intros Hvendor.
  rewrite (route_delete _ _ _ _ Hp), (authorize_user _ _ _ _ Hu), Hvendor. simpl.
  by rewrite Hdel.
Qed.

(** X13. Without an uploaded file the two revisions of [updateService] are
    the same function of the request and the store. *)
Theorem update_revisions_agree_without_upload req st :
  file req = None ->
  LegacyController.updateService req st = Controller.updateService req st.
Proof.
  intros Hf. unfold LegacyController.updateService, Controller.updateService.
  by rewrite Hf.
Qed.

Lemma plain_fields_id (update : Object) :
  (forall k v, update !! k = Some v -> is_operator k = false) ->
  plain_fields update = update.
Proof.
  intros Hops. unfold plain_fields. apply map_filter_id.
  intros k v Hk. simpl. by eapply Hops.
Qed.

Lemma findByIdAndUpdate_plain id (update : Object) st doc :
  ObjectId_isValid id = true ->
  (forall k v, update !! k = Some v -> is_operator k = false) ->
  update !! "vendorId" = None ->
  services st !! ObjectId_hex id = Some doc ->
  Service_findByIdAndUpdate id update st
  = let st' := record_call (Service_findByIdAndUpdate_call id update) st in
    match run_validators update with
    | [] => (inr (Some (cast_fields update ∪ doc)),
             set_services
               (<[ObjectId_hex id := cast_fields update ∪ doc]> (services st)) st')
    | (_ :: _) as msgs => (inl (ValidationError msgs), st')
    end.
Proof.
  intros Hv Hops Hnone Hdoc.
  unfold Service_findByIdAndUpdate, cast_id, cast_update, set_fields, bind, ret, throw.
  rewrite Hv. simpl. rewrite (no_operators _ Hops), (plain_fields_id _ Hops), Hnone.
  destruct (run_validators update); simpl; [| done]. by rewrite Hdoc.
Qed.


Lemma well_typed_plain (update : Object) :
  well_typed update ->
  forall k v, update !! k = Some v -> is_operator k = false.
Proof.
  intros Ht k v Hk. pose proof (Ht k v Hk) as Hp. unfold typed_at in Hp.
  destruct (path_type k) as [t|] eqn:Hpath; [| discriminate].
  unfold path_type in Hpath. apply elem_of_list_to_map_2, list_elem_of_In in Hpath.
  simpl in Hpath. by repeat destruct Hpath as [[= <- _] | Hpath].
Qed.

Lemma issued_update_well_typed req :
  well_typed (delete "vendorId" (body req)) -> well_typed (issued_update req).
Proof.
  intros Ht k v. unfold issued_update. destruct (file req) as [filename|]; [| apply Ht].
  destruct (decide (k = "imageUrl")) as [-> | Hk].
  - rewrite lookup_insert_eq. by intros [= <-].
  - rewrite lookup_insert_ne by done. apply Ht.
Qed.

(** X14. The owner of a service sends a body in which every property other
    than [vendorId] is at a path the schema declares and has a value the
    driver can cast to the type of that path, and the validators accept it.
    [updateService] answers 200 with the new document, which is what the
    collection now holds and what [getServiceById] then returns. In it every
    property of the body other than [vendorId] has the body's value as the
    schema casts it: trimmed at the title, the description and the category,
    and as a number at the price and the duration. Every property the body
    does not mention, [updatedAt] apart, is as it was; the owner is as it
    was; and with an uploaded file [imageUrl] is the path of the upload
    whatever the body says. *)
Theorem owner_update_sets_the_body_and_keeps_the_rest req st u service (uid : string) :
  user req = Some u ->
  u !! "_id" = Some (JS.VStr uid) ->
  isValidObjectId (params_id req) = true ->
  services st !! ObjectId_hex (params_id req) = Some service ->
  service !! "vendorId" = Some (JS.VStr uid) ->
  well_typed (delete "vendorId" (body req)) ->
  run_validators (issued_update req) = [] ->
  let after := (Controller.updateService req st).2 in
  exists d,
    (Controller.updateService req st).1 = updated (Some d) /\
    services after !! ObjectId_hex (params_id req) = Some d /\
    (Controller.getServiceById req after).1
      = found (populate_vendorId ["name"; "email"; "phone"] (users st) d) /\
    d !! "vendorId" = Some (JS.VStr uid) /\
    (forall k v, body req !! k = Some v -> k ≠ "vendorId" ->
       file req = None \/ k ≠ "imageUrl" -> d !! k = Some (cast_value k v)) /\
    (forall k, body req !! k = None -> k ≠ "updatedAt" ->
       file req = None \/ k ≠ "imageUrl" -> d !! k = service !! k) /\
    (forall filename, file req = Some filename ->
       d !! "imageUrl" = Some (JS.VStr ("/uploads/services/" +:+ filename))).
Proof.
  intros Hu Hid Hv Hs Ho Htyped Hval after. subst after.
  pose proof (well_typed_plain _ (issued_update_well_typed _ Htyped)) as Hops.
  rewrite (updateService_owner _ _ _ _ _ Hu Hid Hv Hs Ho).
  rewrite (findByIdAndUpdate_plain (params_id req) (issued_update req)
             (record_call (Service_findById_call (params_id req)) st)
             service Hv Hops (issued_update_has_no_vendorId req) Hs).
  simpl. rewrite Hval. simpl.
  exists (cast_fields (issued_update req) ∪ service).
  split; [done |]. split; [apply lookup_insert_eq |].
  split.
  { erewrite getServiceById_found; [done | done |]. simpl. apply lookup_insert_eq. }
  split.
  { by rewrite lookup_union_r
      by (by rewrite cast_fields_lookup, issued_update_has_no_vendorId). }
  split; [| split].
  - intros k v Hk Hne Hfile. apply lookup_union_Some_l.
    rewrite cast_fields_lookup.
    unfold issued_update. destruct (file req) as [filename|].
    + destruct Hfile as [[=] | Hk'].
      rewrite lookup_insert_ne by done. rewrite lookup_delete_ne by done.
      by rewrite Hk.
    + rewrite lookup_delete_ne by done. by rewrite Hk.
  - intros k Hk _ Hfile. apply lookup_union_r.
    rewrite cast_fields_lookup.
    unfold issued_update. destruct (file req) as [filename|].
    + destruct Hfile as [[=] | Hk'].
      rewrite lookup_insert_ne by done.
      by rewrite (proj2 (lookup_delete_None _ _ _) (or_intror Hk)).
    + by rewrite (proj2 (lookup_delete_None _ _ _) (or_intror Hk)).
  - intros filename Hf. apply lookup_union_Some_l.
    rewrite cast_fields_lookup.
    unfold issued_update. rewrite Hf. by rewrite lookup_insert_eq.
Qed.



End VendorProperties.

(** * The API client against the server *)

Section ClientProperties.
Context `{Driver} `{Creation}.

Lemma split_spaceless (s : string) : spaceless s -> split " " s = [s].
Proof.
  unfold spaceless. induction s as [|c s IH]; simpl; [done |].
  intros [Hc Hs]%Forall_cons. rewrite (IH Hs).
  destruct (Ascii.eqb_spec c " "); [done | reflexivity].
Qed.

Lemma bearer_of_token (token : string) req :
  spaceless token ->
  authorization req = Some ("Bearer " +:+ token) ->
  bearer_token req = Some token.
Proof.
  intros Hs Ha. unfold bearer_token. rewrite Ha.
  change (split " " ("Bearer " +:+ token)) with ("Bearer" :: split " " token).
  by rewrite (split_spaceless _ Hs).
Qed.

(** X16. The token the browser holds is the token the server verifies. When
    local storage holds a non-empty token with no space in it, the request
    interceptor sends it as [Bearer <token>], and [protect] extracts exactly
    that token from the header: a token that does not verify is answered 401
    "Not authorized, token failed", and one that verifies to the id of an
    account reaches the next handler with that account as the identity. *)
Theorem stored_token_is_the_token_verified (b : Api.Browser) (token : string) req st :
  Api.localStorage b !! "token" = Some token ->
  token ≠ "" ->
  spaceless token ->
  authorization (sent_by b req) = Some ("Bearer " +:+ token) /\
  bearer_token (sent_by b req) = Some token /\
  (forall msg, jwt_verify token = inl msg ->
     protect (sent_by b req) st
     = (Respond (error_json 401 "Not authorized, token failed" (JsonWebTokenError msg)),
        st)) /\
  (forall id account,
     jwt_verify token = inr id ->
     ObjectId_isValid id = true ->
     users st !! ObjectId_hex id = Some account ->
     (protect (sent_by b req) st).1
     = Next (set_user (Some (delete "password" account)) (sent_by b req))).
Proof.
  intros Hls Hne Hsp.
  assert (authorization (sent_by b req) = Some ("Bearer " +:+ token)) as Ha.
  { simpl. unfold Api.request_interceptor. rewrite Hls.
    by destruct (String.eqb_spec token ""). }
  pose proof (bearer_of_token token (sent_by b req) Hsp Ha) as Hb.
  split; [done |]. split; [done |].
  destruct token as [|c token]; [done |].
  split.
  - intros msg Hj. unfold protect, try_catch, bind. rewrite Hb, Hj. reflexivity.
  - intros id account Hj Hv Hacc. unfold protect, try_catch, bind.
    rewrite Hb, Hj. simpl. rewrite User_findById_valid by done.
    simpl. by rewrite Hacc.
Qed.

Lemma cleared_sends_nothing (b : Api.Browser) req :
  authorization req = None ->
  bearer_token (sent_by (Api.clear_session b) req) = None.
Proof.
  intros Ha. unfold bearer_token. simpl. unfold Api.request_interceptor. simpl.
  rewrite lookup_delete_ne by done. rewrite lookup_delete_eq. by rewrite Ha.
Qed.

(** X17. After [logout], and after the response interceptor has seen a 401,
    the browser holds neither token nor user, it is sent to [/login], and
    [isAuthenticated] is false; a request it then sends (with no
    Authorization header of its own) is answered 401 "Not authorized, no
    token" by every route, with the store untouched. After any other failed
    response the browser is as it was. *)
Theorem signed_out_browser_is_refused (b : Api.Browser) req st :
  authorization req = None ->
  Api.response_interceptor_error (Some 401%nat) b = Api.logout b /\
  (forall code, code ≠ 401%nat ->
     Api.response_interceptor_error (Some code) b = b) /\
  Api.response_interceptor_error None b = b /\
  Api.localStorage (Api.logout b) !! "token" = None /\
  Api.localStorage (Api.logout b) !! "user" = None /\
  Api.location_href (Api.logout b) = "/login" /\
  Api.isAuthenticated (Api.logout b) = false /\
  Routes.get_all (sent_by (Api.logout b) req) st = (no_token_answer, st) /\
  Routes.get_by_id (sent_by (Api.logout b) req) st = (no_token_answer, st) /\
  Routes.put (sent_by (Api.logout b) req) st = (no_token_answer, st) /\
  Routes.delete (sent_by (Api.logout b) req) st = (no_token_answer, st) /\
  VendorRoutes.post (sent_by (Api.logout b) req) st = (no_token_answer, st) /\
  VendorRoutes.get_my_services (sent_by (Api.logout b) req) st = (no_token_answer, st).
Proof.
  intros Ha.
  destruct (routes_without_token (sent_by (Api.logout b) req) st)
    as (H1 & H2 & H3 & H4 & H5 & H6).
  { left. by apply cleared_sends_nothing. }
  split; [done |].
  split. { intros code Hc. simpl. by destruct (Nat.eqb_spec code 401). }
  split; [done |].
  split. { simpl. rewrite lookup_delete_ne by done. apply lookup_delete_eq. }
  split. { simpl. apply lookup_delete_eq. }
  split; [done |].
  split. { unfold Api.isAuthenticated, Api.has_item. simpl.
           rewrite lookup_delete_ne by done. by rewrite lookup_delete_eq. }
  done.
Qed.

(** X18. Signing in and out. After [login] has been answered with a
    non-empty token the browser is authenticated and holds that token and the
    user; an answer without a token leaves the browser as it was; and
    [logout] after [login] leaves no token behind. *)
Theorem login_stores_the_token_logout_removes_it (b : Api.Browser) (token user_json : string) :
  token ≠ "" ->
  let b' := Api.login_answered (Some token) user_json b in
  Api.localStorage b' !! "token" = Some token /\
  Api.localStorage b' !! "user" = Some user_json /\
  Api.isAuthenticated b' = true /\
  Api.request_interceptor b' None = Some ("Bearer " +:+ token) /\
  Api.login_answered None user_json b = b /\
  Api.login_answered (Some "") user_json b = b /\
  Api.isAuthenticated (Api.logout b') = false /\
  Api.request_interceptor (Api.logout b') None = None.
Proof.
  intros Hne b'. subst b'. unfold Api.login_answered.
  destruct (String.eqb_spec token ""); [done |]. simpl.
  unfold Api.isAuthenticated, Api.has_item, Api.request_interceptor. simpl.
  rewrite !lookup_insert_ne by done. rewrite !lookup_insert_eq.
  rewrite !lookup_delete_ne by done. rewrite !lookup_delete_eq.
  destruct (String.eqb_spec token ""); [done |]. simpl.
  by repeat split.
Qed.

End ClientProperties.

(** * The registration form *)

Module RegexFacts.
Import Regex.

Lemma lang_cat_inv a b w :
  lang (Cat a b) w -> exists s t : list ascii, w = (s ++ t)%list /\ lang a s /\ lang b t.
Proof. inversion 1; subst. by eexists _, _. Qed.

Lemma lang_alt_inv a b w : lang (Alt a b) w -> lang a w \/ lang b w.
Proof. inversion 1; subst; [by left | by right]. Qed.

Lemma lang_class_inv p s : lang (Class p) s -> exists c, s = [c] /\ p c = true.
Proof. inversion 1; subst. by eexists. Qed.

Lemma nullable_lang r : nullable r = true <-> lang r [].
Proof.
  induction r as [| |p|a IHa b IHb|a IHa b IHb|a IHa]; simpl.
  - split; [discriminate | inversion 1].
  - split; [constructor | done].
  - split; [discriminate | inversion 1].
  - rewrite andb_true_iff, IHa, IHb. split.
    + intros [Ha Hb]. by apply (lang_cat a b [] []).
    + intros (s & t & Heq & Hs & Ht)%lang_cat_inv.
      symmetry in Heq. apply app_eq_nil in Heq as [-> ->]. by split.
  - rewrite orb_true_iff, IHa, IHb. split.
    + intros [Ha | Hb]; [by apply lang_alt_l | by apply lang_alt_r].
    + apply lang_alt_inv.
  - split; [constructor | done].
Qed.

Lemma star_cons_inv a c s :
  lang (Star a) (c :: s) ->
  exists s1 s2 : list ascii, s = (s1 ++ s2)%list /\ lang a (c :: s1) /\ lang (Star a) s2.
Proof.
  intros Hl. remember (Star a) as r eqn:Hr. remember (c :: s) as w eqn:Hw.
  revert s Hw.
  induction Hl as [| | | | | |a' s0 t Hs0 _ Ht IH]; try discriminate.
  injection Hr as ->. intros s Hw.
  destruct s0 as [|c' s0'].
  - simpl in Hw. by apply IH.
  - simpl in Hw. injection Hw as -> <-. by exists s0', t.
Qed.

Lemma deriv_lang c r s : lang (deriv c r) s <-> lang r (c :: s).
Proof.
  revert s. induction r as [| |p|a IHa b IHb|a IHa b IHb|a IHa]; intros s; simpl.
  - split; inversion 1.
  - split; inversion 1.
  - destruct (p c) eqn:Hp.
    + split.
      * inversion 1; subst. by constructor.
      * intros (c' & [= -> ->] & _)%lang_class_inv. constructor.
    + split; [inversion 1 |].
      intros (c' & [= -> ->] & Hp')%lang_class_inv. congruence.
  - assert (lang (Cat (deriv c a) b) s -> lang (Cat a b) (c :: s)) as Hleft.
    { intros (s1 & s2 & -> & H1 & H2)%lang_cat_inv.
      apply IHa in H1. by apply (lang_cat a b (c :: s1) s2). }
    assert (forall s1 s2 : list ascii, c :: s = (s1 ++ s2)%list -> lang a s1 -> lang b s2 ->
              s1 ≠ [] -> lang (Cat (deriv c a) b) s) as Hsplit.
    { intros [|c' s1'] s2 Heq H1 H2 Hne; [done |].
      simpl in Heq. injection Heq as <- ->.
      apply lang_cat; [by apply IHa | done]. }
    destruct (nullable a) eqn:Hn.
    + split.
      * intros [Hl | Hr]%lang_alt_inv; [by apply Hleft |].
        apply (lang_cat a b [] (c :: s)); [by apply nullable_lang | by apply IHb].
      * intros (s1 & s2 & Heq & H1 & H2)%lang_cat_inv.
        destruct s1 as [|c' s1'].
        -- simpl in Heq. subst. apply lang_alt_r. by apply IHb.
        -- apply lang_alt_l. by eapply Hsplit.
    + split; [exact Hleft |].
      intros (s1 & s2 & Heq & H1 & H2)%lang_cat_inv.
      eapply Hsplit; [done.. |]. intros ->.
      apply nullable_lang in H1. congruence.
  - split.
    + intros [Hl | Hr]%lang_alt_inv;
        [apply lang_alt_l; by apply IHa | apply lang_alt_r; by apply IHb].
    + intros [Hl | Hr]%lang_alt_inv;
        [apply lang_alt_l; by apply IHa | apply lang_alt_r; by apply IHb].
  - split.
    + intros (s1 & s2 & -> & H1 & H2)%lang_cat_inv.
      apply IHa in H1. by apply (lang_star_cons a (c :: s1) s2).
    + intros (s1 & s2 & -> & H1 & H2)%star_cons_inv.
      apply lang_cat; [by apply IHa | done].
Qed.

(** The matcher decides the language. *)
Lemma accepts_lang r s : accepts r s = true <-> lang r s.
Proof.
  revert r. induction s as [|c s IH]; intros r; simpl.
  - apply nullable_lang.
  - by rewrite IH, deriv_lang.
Qed.

Lemma lang_star_any s : lang (Star Any) s.
Proof.
  induction s as [|c s IH]; [constructor |].
  apply (lang_star_cons Any [c] s); [by constructor | done].
Qed.

(** [/[class]/.test(s)]: some code unit of [s] is in the class. *)
Lemma test_class p (s : string) :
  test (Class p) s = true <-> Exists (fun c => p c = true) (list_ascii_of_string s).
Proof.
  unfold test. rewrite accepts_lang. split.
  - intros (s1 & t1 & -> & _ & H2)%lang_cat_inv.
    apply lang_cat_inv in H2 as (s2 & t2 & -> & Hc & _).
    apply lang_class_inv in Hc as (c & -> & Hp).
    apply Exists_app. right. by apply Exists_cons_hd.
  - intros (c & Hin & Hp)%Exists_exists.
    apply list_elem_of_split in Hin as (l1 & l2 & ->).
    apply lang_cat; [apply lang_star_any |].
    apply (lang_cat (Class p) (Star Any) [c] l2); [by constructor | apply lang_star_any].
Qed.

Lemma lang_star_class p s : lang (Star (Class p)) s <-> Forall (fun c => p c = true) s.
Proof.
  split.
  - intros Hl. remember (Star (Class p)) as r eqn:Hr.
    induction Hl as [| | | | | |a s0 t Hs0 _ Ht IH]; try discriminate; [constructor |].
    injection Hr as ->. apply lang_class_inv in Hs0 as (c & -> & Hp).
    constructor; [done | by apply IH].
  - induction 1 as [|c s Hc _ IH]; [constructor |].
    apply (lang_star_cons (Class p) [c] s); [by constructor | done].
Qed.

(** [class+] from end to end: a non-empty string of the class. *)
Lemma lang_plus_class p s :
  lang (Plus (Class p)) s <-> s ≠ [] /\ Forall (fun c => p c = true) s.
Proof.
  unfold Plus. split.
  - intros (s1 & t1 & -> & H1 & H2)%lang_cat_inv.
    apply lang_class_inv in H1 as (c & -> & Hp). apply lang_star_class in H2.
    split; [done | by constructor].
  - intros [Hne Hall]. destruct s as [|c s]; [done |].
    apply Forall_cons in Hall as [Hc Hs].
    apply (lang_cat (Class p) (Star (Class p)) [c] s); [by constructor |].
    by apply lang_star_class.
Qed.

End RegexFacts.

Section FormProperties.

Lemma length_chars (s : string) : String.length s = length (list_ascii_of_string s).
Proof. induction s as [|c s IH]; simpl; [done | by rewrite IH]. Qed.

Lemma chars_substring (n : nat) (s : string) :
  list_ascii_of_string (String.substring 0 n s) = take n (list_ascii_of_string s).
Proof.
  revert s. induction n as [|n IH]; intros [|c s]; simpl; try done.
  by rewrite IH.
Qed.

Lemma filter_all {A} (p : A -> bool) (l : list A) :
  Forall (fun x => p x = true) l -> List.filter p l = l.
Proof. induction 1 as [|x l Hx _ IH]; simpl; [done |]. by rewrite Hx, IH. Qed.

Lemma filter_Forall {A} (p : A -> bool) (l : list A) :
  Forall (fun x => p x = true) (List.filter p l).
Proof.
  apply Forall_forall. intros x Hx%list_elem_of_In. by apply filter_In in Hx as [_ ?].
Qed.

Lemma chars_digitsOnly (s : string) :
  list_ascii_of_string (RegisterPage.digitsOnly s) = List.filter Regex.digit (list_ascii_of_string s).
Proof. unfold RegisterPage.digitsOnly. apply list_ascii_of_string_of_list_ascii. Qed.

Lemma chars_inj (s t : string) : list_ascii_of_string s = list_ascii_of_string t -> s = t.
Proof.
  intros Heq. rewrite <- (string_of_list_ascii_of_string s),
    <- (string_of_list_ascii_of_string t). by rewrite Heq.
Qed.

(** X19. [validatePassword] accepts a password exactly when it has at least
    8 code units, an uppercase letter, a lowercase letter and a digit. A
    password it accepts is never shown as Weak by [getPasswordStrength]: it
    is Strong when it has 12 code units or more or a character that is
    neither a letter nor a digit, and Medium otherwise. *)
Theorem accepted_password_is_never_weak (password : string) :
  (RegisterPage.validatePassword password = "" <->
     (8 <= String.length password)%nat /\
     Exists (fun c => Regex.upper c = true) (list_ascii_of_string password) /\
     Exists (fun c => Regex.lower c = true) (list_ascii_of_string password) /\
     Exists (fun c => Regex.digit c = true) (list_ascii_of_string password)) /\
  (RegisterPage.validatePassword password = "" ->
     (((12 <= String.length password)%nat \/
       Exists (fun c => Regex.special c = true) (list_ascii_of_string password)) ->
      RegisterPage.getPasswordStrength password = ("Strong", "text-green-600")) /\
     (~ ((12 <= String.length password)%nat \/
         Exists (fun c => Regex.special c = true) (list_ascii_of_string password)) ->
      RegisterPage.getPasswordStrength password = ("Medium", "text-yellow-600"))).
Proof.
  assert (RegisterPage.validatePassword password = "" <->
     (8 <= String.length password)%nat /\
     Regex.test (Regex.Class Regex.upper) password = true /\
     Regex.test (Regex.Class Regex.lower) password = true /\
     Regex.test (Regex.Class Regex.digit) password = true) as Hacc.
  { unfold RegisterPage.validatePassword.
    destruct (Nat.ltb_spec (String.length password) 8).
    { split; [discriminate | lia]. }
    destruct (Regex.test (Regex.Class Regex.upper) password); simpl;
      [| split; [discriminate | intros (_ & [=] & _)]].
    destruct (Regex.test (Regex.Class Regex.lower) password); simpl;
      [| split; [discriminate | intros (_ & _ & [=] & _)]].
    destruct (Regex.test (Regex.Class Regex.digit) password); simpl;
      [| split; [discriminate | intros (_ & _ & _ & [=])]].
    done. }
  split.
  { rewrite Hacc, !RegexFacts.test_class. reflexivity. }
  intros (Hlen & Hu & Hl & Hd)%Hacc.
  unfold RegisterPage.getPasswordStrength, RegisterPage.password_score.
  rewrite Hu, Hl, Hd.
  assert (String.eqb password "" = false) as ->.
  { apply String.eqb_neq. intros ->. simpl in Hlen. lia. }
  assert ((8 <=? String.length password)%nat = true) as -> by by apply Nat.leb_le.
  rewrite <- RegexFacts.test_class.
  destruct (Nat.leb_spec 12 (String.length password)) as [H12 | H12].
  - split; [intros _; by destruct (Regex.test _ password) |].
    intros Hn. exfalso. apply Hn. by left.
  - destruct (Regex.test (Regex.Class Regex.special) password); simpl.
    + split; [done |]. intros Hn. exfalso. apply Hn. by right.
    + split; [| done]. intros [? | [=]]. lia.
Qed.

(** X20. Whatever is typed into the phone field, [handleChange] keeps its
    first ten digits: what it keeps has only digits, at most ten of them, and
    typing it again changes nothing. [validatePhone] looks at the digits only
    and accepts exactly ten of them, so it accepts what [handleChange] kept
    exactly when at least ten digits were typed. *)
Theorem typed_phone_keeps_the_first_ten_digits (value : string) :
  let typed := RegisterPage.phone_typed value in
  Forall (fun c => Regex.digit c = true) (list_ascii_of_string typed) /\
  (String.length typed <= 10)%nat /\
  RegisterPage.phone_typed typed = typed /\
  (RegisterPage.validatePhone value = "" <->
     length (List.filter Regex.digit (list_ascii_of_string value)) = 10%nat) /\
  (RegisterPage.validatePhone typed = "" <->
     (10 <= length (List.filter Regex.digit (list_ascii_of_string value)))%nat).
Proof.
  intros typed. subst typed.
  assert (list_ascii_of_string (RegisterPage.phone_typed value)
          = take 10 (List.filter Regex.digit (list_ascii_of_string value))) as Hc.
  { unfold RegisterPage.phone_typed. by rewrite chars_substring, chars_digitsOnly. }
  assert (Forall (fun c => Regex.digit c = true) (list_ascii_of_string (RegisterPage.phone_typed value)))
    as Hd.
  { rewrite Hc. apply Forall_take, filter_Forall. }
  assert (forall p,
            RegisterPage.validatePhone p = "" <->
            length (List.filter Regex.digit (list_ascii_of_string p)) = 10%nat) as Hv.
  { intros p. unfold RegisterPage.validatePhone.
    rewrite length_chars, chars_digitsOnly.
    destruct (Nat.eqb_spec (length (List.filter Regex.digit (list_ascii_of_string p))) 10); simpl.
    - done.
    - split; [discriminate | done]. }
  split; [done |]. split.
  { rewrite length_chars, Hc, length_take. lia. }
  split.
  { apply chars_inj. unfold RegisterPage.phone_typed at 1.
    rewrite chars_substring, chars_digitsOnly, (filter_all _ _ Hd), Hc.
    by rewrite take_take, Nat.min_id. }
  split; [apply Hv |].
  rewrite Hv, (filter_all _ _ Hd), Hc, length_take. lia.
Qed.

(** X21. [validateEmail] accepts an address exactly when it is
    [local@domain.tld] with the three parts non-empty and free of whitespace
    and of [@]. So an accepted address has no whitespace, exactly one [@],
    something before it, and after it a dot with something on both sides. *)
Theorem accepted_email_shape (email : string) :
  (RegisterPage.validateEmail email = "" <->
     exists local domain tld : list ascii,
       list_ascii_of_string email = (local ++ "@"%char :: (domain ++ "."%char :: tld))%list /\
       local ≠ [] /\ domain ≠ [] /\ tld ≠ [] /\
       Forall (fun c => Regex.not_space_or_at c = true) (local ++ domain ++ tld)%list) /\
  (RegisterPage.validateEmail email = "" ->
     Forall (fun c => Regex.space c = false) (list_ascii_of_string email) /\
     (5 <= String.length email)%nat /\
     exists before after : list ascii,
       list_ascii_of_string email = (before ++ "@"%char :: after)%list /\
       before ≠ [] /\ ("@"%char ∉ before) /\ ("@"%char ∉ after) /\ ("."%char ∈ after)).
Proof.
  assert (RegisterPage.validateEmail email = "" <->
     exists local domain tld : list ascii,
       list_ascii_of_string email = (local ++ "@"%char :: (domain ++ "."%char :: tld))%list /\
       local ≠ [] /\ domain ≠ [] /\ tld ≠ [] /\
       Forall (fun c => Regex.not_space_or_at c = true) (local ++ domain ++ tld)%list)
    as Hshape.
  { unfold RegisterPage.validateEmail, Regex.test_whole.
    destruct (Regex.accepts RegisterPage.emailRegex (list_ascii_of_string email)) eqn:Hacc; simpl.
    - split; [intros _ | done].
      apply RegexFacts.accepts_lang in Hacc. unfold RegisterPage.emailRegex in Hacc.
      apply RegexFacts.lang_cat_inv in Hacc as (local & r1 & Heq & Hlocal & Hacc).
      apply RegexFacts.lang_cat_inv in Hacc as (at_ & r2 & -> & Hat & Hacc).
      apply RegexFacts.lang_cat_inv in Hacc as (domain & r3 & -> & Hdomain & Hacc).
      apply RegexFacts.lang_cat_inv in Hacc as (dot & tld & -> & Hdot & Htld).
      apply RegexFacts.lang_class_inv in Hat as (c1 & -> & ->%Ascii.eqb_eq).
      apply RegexFacts.lang_class_inv in Hdot as (c2 & -> & ->%Ascii.eqb_eq).
      apply RegexFacts.lang_plus_class in Hlocal as [? ?].
      apply RegexFacts.lang_plus_class in Hdomain as [? ?].
      apply RegexFacts.lang_plus_class in Htld as [? ?].
      exists local, domain, tld. repeat split; try done.
      by rewrite !Forall_app.
    - split; [discriminate |].
      intros (local & domain & tld & Heq & Hl & Hd & Ht & Hall).
      rewrite !Forall_app in Hall. destruct Hall as (Hal & Had & Hat).
      apply not_true_iff_false in Hacc. exfalso. apply Hacc.
      apply RegexFacts.accepts_lang. rewrite Heq. unfold RegisterPage.emailRegex.
      apply Regex.lang_cat; [by apply RegexFacts.lang_plus_class |].
      apply (Regex.lang_cat _ _ ["@"%char]);
        [constructor; apply Ascii.eqb_refl |].
      apply Regex.lang_cat; [by apply RegexFacts.lang_plus_class |].
      apply (Regex.lang_cat _ _ ["."%char]);
        [constructor; apply Ascii.eqb_refl |].
      by apply RegexFacts.lang_plus_class. }
  split; [exact Hshape |].
  intros (local & domain & tld & Heq & Hl & Hd & Ht & Hall)%Hshape.
  rewrite !Forall_app in Hall. destruct Hall as (Hal & Had & Hat).
  assert (forall l : list ascii,
            Forall (fun c => Regex.not_space_or_at c = true) l ->
            Forall (fun c => Regex.space c = false) l /\ "@"%char ∉ l) as Hclass.
  { intros l Hf. split.
    - eapply Forall_impl; [exact Hf |]. intros c Hc. unfold Regex.not_space_or_at in Hc.
      apply negb_true_iff, orb_false_iff in Hc. tauto.
    - intros Hin. rewrite Forall_forall in Hf. specialize (Hf _ Hin).
      unfold Regex.not_space_or_at in Hf. rewrite Ascii.eqb_refl, orb_true_r in Hf.
      discriminate. }
  destruct (Hclass _ Hal) as [Hsl Hnl], (Hclass _ Had) as [Hsd Hnd],
    (Hclass _ Hat) as [Hst Hnt].
  split; [| split].
  - rewrite Heq. rewrite Forall_app, Forall_cons, Forall_app, Forall_cons.
    repeat split; done.
  - rewrite length_chars, Heq. rewrite length_app. simpl. rewrite length_app. simpl.
    destruct local, domain, tld; simpl; try done; lia.
  - exists local, (domain ++ "."%char :: tld)%list.
    split; [done |]. split; [done |]. split; [done |]. split.
    + rewrite elem_of_app, elem_of_cons. intros [? | [[=] | ?]]; done.
    + rewrite elem_of_app, elem_of_cons. right. by left.
Qed.

End FormProperties.

(** * The dashboard *)

Section DashboardProperties.
Import VendorDashboard.

Lemma lower_unit_idempotent (c : ascii) : lower_unit (lower_unit c) = lower_unit c.
Proof. by destruct c as [[] [] [] [] [] [] [] []]. Qed.

Lemma toLowerCase_idempotent (s : string) : toLowerCase (toLowerCase s) = toLowerCase s.
Proof.
  induction s as [|c s IH]; simpl; [done |].
  by rewrite lower_unit_idempotent, IH.
Qed.

Lemma includes_empty (s : string) : includes s "" = true.
Proof. by destruct s. Qed.

Lemma filter_length_le {A} (p : A -> bool) (l : list A) :
  (length (List.filter p l) <= length l)%nat.
Proof. induction l as [|x l IH]; simpl; [done |]. destruct (p x); simpl; lia. Qed.

Lemma filter_disjoint_length {A} (p q : A -> bool) (l : list A) :
  (forall x, p x = true -> q x = true -> False) ->
  (length (List.filter p l) + length (List.filter q l) <= length l)%nat.
Proof.
  intros Hpq. induction l as [|x l IH]; simpl; [done |].
  destruct (p x) eqn:Hp, (q x) eqn:Hq; simpl; try lia.
  exfalso. by eapply Hpq.
Qed.

(** X22. The dashboard's list. With an empty search and both filters on
    [all] every service is shown; otherwise the services shown are services
    of the list, in the same order, and each of them has the chosen category
    and the chosen status, where one is chosen. The search does not depend on
    the case of the term: a term and its lower-case form show the same
    services. *)
Theorem dashboard_filter_shows_matching_services_in_order
    (services : list Service) (searchTerm filterCategory filterStatus : string) :
  filteredServices services "" "all" "all" = services /\
  sublist (filteredServices services searchTerm filterCategory filterStatus) services /\
  (forall s,
     s ∈ filteredServices services searchTerm filterCategory filterStatus ->
     s ∈ services /\
     (filterCategory = "all" \/ category s = filterCategory) /\
     (filterStatus = "all" \/ status s = filterStatus)) /\
  filteredServices services (toLowerCase searchTerm) filterCategory filterStatus
  = filteredServices services searchTerm filterCategory filterStatus.
Proof.
  split; [| split; [| split]].
  - unfold filteredServices. induction services as [|s l IH]; simpl; [done |].
    unfold shown at 1. simpl. rewrite includes_empty. simpl. by rewrite IH.
  - unfold filteredServices. induction services as [|s l IH]; simpl; [constructor |].
    destruct (shown _ _ _ s); [by apply sublist_skip | by apply sublist_cons].
  - intros s Hs%list_elem_of_In. apply filter_In in Hs as [Hin Hshown].
    split; [by apply list_elem_of_In |].
    unfold shown in Hshown. apply andb_true_iff in Hshown as [Hshown Hst].
    apply andb_true_iff in Hshown as [_ Hcat].
    apply orb_true_iff in Hcat, Hst.
    rewrite !String.eqb_eq in Hcat, Hst. by split.
  - unfold filteredServices, shown. by rewrite toLowerCase_idempotent.
Qed.

(** X23. The dashboard's counters and its list after a deletion. The active
    and the inactive services together are never more than the total. Once a
    deletion is confirmed, the list holds no service with the deleted id,
    every other service is still there in its place, and the total has not
    grown. *)
Theorem dashboard_counts_and_forgets_the_deleted
    (services : list Service) (serviceId : string) :
  (let '(total, active, inactive) := stats services in
   (active + inactive <= total)%nat) /\
  (forall s, s ∈ after_delete services serviceId <->
             s ∈ services /\ _id s ≠ serviceId) /\
  sublist (after_delete services serviceId) services /\
  ((stats (after_delete services serviceId)).1.1 <= (stats services).1.1)%nat.
Proof.
  split; [| split; [| split]].
  - simpl. apply filter_disjoint_length. intros s Ha Hi.
    apply String.eqb_eq in Ha, Hi. congruence.
  - intros s. unfold after_delete.
    rewrite !list_elem_of_In, filter_In, negb_true_iff, String.eqb_neq. reflexivity.
  - unfold after_delete. induction services as [|s l IH]; simpl; [constructor |].
    destruct (negb _); [by apply sublist_skip | by apply sublist_cons].
  - simpl. apply filter_length_le.
Qed.

End DashboardProperties.

(** * The further properties on the small deployment *)

Import Scenario.

Lemma create_refuses_an_incomplete_request_witness :
  (JS.truthy_opt (caller_id anonymous_create) = false /\
   JS.truthy_opt (caller_id (as_vendor1 create_free)) = true /\
   JS.truthy_opt (body (as_vendor1 create_free) !! "price") = false) /\
  @VendorController.createService ReferenceCreation.creation anonymous_create store
    = (no_vendor_id, store) /\
  @VendorController.createService ReferenceCreation.creation
      (as_vendor1 create_free) (looked_up vendor1_id)
    = (missing_fields, looked_up vendor1_id).
Proof.
  destruct (@create_refuses_an_incomplete_request ReferenceCreation.creation
              anonymous_create store) as (Hnone & _).
  destruct (@create_refuses_an_incomplete_request ReferenceCreation.creation
              (as_vendor1 create_free) (looked_up vendor1_id)) as (_ & Hmiss & _).
  assert ("price" ∈ required_fields) as Hin
    by (apply list_elem_of_In; simpl; tauto).
  split; [repeat split; reflexivity |].
  split; [exact (Hnone eq_refl) | exact (Hmiss "price" eq_refl Hin eq_refl)].
Defined.

Lemma create_stores_the_service_under_the_caller_witness :
  (caller_id (as_vendor1 create_padded) = Some (JS.VStr vendor1_id) /\
   @ObjectId_hex Reference.driver vendor1_id = vendor1_id /\
   body (as_vendor1 create_padded) !! "vendorId" = Some (JS.VStr vendor2_id) /\
   body (as_vendor1 create_padded) !! "title" = Some (JS.VStr "  Manicure  ") /\
   body (as_vendor1 create_padded) !! "price" = Some (JS.VStr "25.50")) /\
  exists d,
    (@VendorController.createService ReferenceCreation.creation
       (as_vendor1 create_padded) (looked_up vendor1_id)).1 = created d /\
    services (@VendorController.createService ReferenceCreation.creation
                (as_vendor1 create_padded) (looked_up vendor1_id)).2
      !! "64b7f1a2c3d4e5f601234b02" = Some d /\
    d !! "vendorId" = Some (JS.VStr vendor1_id) /\
    d !! "title" = Some (JS.VStr "Manicure") /\
    d !! "price" = Some (JS.VNum (JS.Finite (51 # 2))) /\
    d !! "duration" = Some (JS.VNum (JS.Finite (45 # 1))) /\
    d !! "status" = Some (JS.VStr "active").
Proof.
  assert (vendor1_id ≠ "") as Hne by discriminate.
  assert ("title" ∈ trimmed_paths) as Htitle by (apply list_elem_of_In; simpl; tauto).
  assert ("price" ∈ ["price"; "duration"]) as Hprice
    by (apply list_elem_of_In; simpl; tauto).
  assert ("duration" ∈ ["price"; "duration"]) as Hduration
    by (apply list_elem_of_In; simpl; tauto).
  assert (JS.Number (JS.VStr "25.50") ≠ JS.NaN) as Hparses
    by (vm_compute; discriminate).
  destruct (@create_stores_the_service_under_the_caller
              Reference.driver ReferenceCreation.creation
              (as_vendor1 create_padded) (looked_up vendor1_id) vendor1_id
              eq_refl Hne eq_refl eq_refl eq_refl eq_refl eq_refl)
    as (d & Hanswer & Hstored & _ & Howner & Hdefault & _ & Htrim & Hnum & Hstr & _).
  split; [repeat split; reflexivity |].
  exists d. split; [exact Hanswer |]. split; [exact Hstored |].
  split; [exact Howner |].
  split; [exact (Htrim "title" "  Manicure  " Htitle eq_refl) |].
  split; [exact (Hstr "price" "25.50" Hprice eq_refl Hparses) |].
  split; [exact (Hnum "duration" _ Hduration eq_refl) | exact (Hdefault eq_refl)].
Defined.

Lemma own_listing_is_exactly_the_callers_services_witness :
  (user (as_vendor1 list_own) = Some vendor1 /\
   facial !! "status" = Some (JS.VStr "inactive")) /\
  exists docs,
    (@VendorController.getMyServices Reference.driver
       (as_vendor1 list_own) (looked_up vendor1_id)).1 = listing docs /\
    facial ∈ docs /\ haircut ∈ docs.
Proof.
  destruct (@own_listing_is_exactly_the_callers_services Reference.driver
              (as_vendor1 list_own) (looked_up vendor1_id) vendor1 vendor1_id
              eq_refl eq_refl eq_refl) as (docs & Hl & _ & Hin).
  split; [split; reflexivity |].
  exists docs. split; [by rewrite Hl |]. split.
  - apply Hin. split; [by exists facial_id | reflexivity].
  - apply Hin. split; [by exists haircut_id | reflexivity].
Defined.

Lemma listings_come_newest_first_witness :
  (@VendorController.getMyServices Reference.driver
     (as_vendor1 list_own) (looked_up vendor1_id)).1 = listing [facial; haircut] /\
  StronglySorted not_older [facial; haircut].
Proof.
  assert ((@VendorController.getMyServices Reference.driver
             (as_vendor1 list_own) (looked_up vendor1_id)).1
          = listing [facial; haircut]) as Hl by (vm_compute; reflexivity).
  destruct (@listings_come_newest_first Reference.driver
              (as_vendor1 list_own) (looked_up vendor1_id) [facial; haircut])
    as (_ & Hown).
  split; [exact Hl |]. apply Hown. by rewrite Hl.
Defined.

Lemma unfiltered_listing_holds_every_service_witness :
  (user (as_admin admin_lists_all) = Some admin /\
   query (as_admin admin_lists_all) = ∅) /\
  exists docs,
    (@Controller.getAllServices Reference.driver
       (as_admin admin_lists_all) (looked_up admin_id)).1 = listing docs /\
    length docs = 2%nat.
Proof.
  destruct (@unfiltered_listing_holds_every_service Reference.driver
              (as_admin admin_lists_all) (looked_up admin_id) admin
              eq_refl eq_refl eq_refl eq_refl) as (_ & docs & Hl & Hperm).
  split; [split; reflexivity |].
  exists docs. split; [exact Hl |].
  rewrite (Permutation_length Hperm). reflexivity.
Defined.

Lemma created_service_is_read_back_and_listed_witness :
  (user (as_vendor1 create_manicure) = Some vendor1 /\
   services (looked_up vendor1_id) !! "64b7f1a2c3d4e5f601234b02" = None) /\
  status (@Controller.getServiceById Reference.driver
            (request None "64b7f1a2c3d4e5f601234b02" ∅ ∅)
            (@VendorController.createService ReferenceCreation.creation
               (as_vendor1 create_manicure) (looked_up vendor1_id)).2).1 = 200%nat /\
  status (@Controller.getServiceById Reference.driver
            (request None "64B7F1A2C3D4E5F601234B02" ∅ ∅)
            (@VendorController.createService ReferenceCreation.creation
               (as_vendor1 create_manicure) (looked_up vendor1_id)).2).1 = 200%nat.
Proof.
  assert (vendor1_id ≠ "") as Hne by discriminate.
  destruct (@created_service_is_read_back_and_listed
              Reference.driver ReferenceCreation.creation
              (as_vendor1 create_manicure) (looked_up vendor1_id) vendor1 vendor1_id
              eq_refl eq_refl Hne eq_refl eq_refl eq_refl eq_refl)
    as (Hread & _).
  split; [split; reflexivity |]. split.
  - by rewrite (Hread (request None "64b7f1a2c3d4e5f601234b02" ∅ ∅) eq_refl eq_refl).
  - by rewrite (Hread (request None "64B7F1A2C3D4E5F601234B02" ∅ ∅) eq_refl eq_refl).
Defined.

Lemma role_gate_fails_closed_witness :
  user (as_client client_creates) = Some client /\
  (authorize ["vendor"] (as_client client_creates) store).1 = Respond access_denied /\
  (authorize ["vendor"; "admin"] (as_admin admin_on_haircut) store).1
    = Next (as_admin admin_on_haircut).
Proof.
  destruct (role_gate_fails_closed ["vendor"] (as_client client_creates) store client
              eq_refl) as (_ & Hdeny & _).
  destruct (role_gate_fails_closed ["vendor"; "admin"] (as_admin admin_on_haircut)
              store admin eq_refl) as (Hpass & _).
  split; [reflexivity |]. split.
  - apply Hdeny. intros (r & Hr & Hin).
    assert (r = "client") as -> by (vm_compute in Hr; congruence).
    apply list_elem_of_In in Hin. simpl in Hin. destruct Hin as [[=] | []].
  - apply Hpass. exists "admin". split; [reflexivity |].
    apply list_elem_of_In. simpl. tauto.
Defined.

Lemma every_route_requires_a_token_witness :
  bearer_token anonymous_create = None /\
  @VendorRoutes.post Reference.driver ReferenceCreation.creation anonymous_create store
    = (no_token_answer, store) /\
  @Routes.delete Reference.driver anonymous_create store = (no_token_answer, store).
Proof.
  destruct (@every_route_requires_a_token Reference.driver ReferenceCreation.creation
              anonymous_create store (or_introl eq_refl))
    as (_ & _ & _ & Hpost & _ & Hdel).
  split; [reflexivity |]. by split.
Defined.

Lemma vendor_routes_refuse_other_roles_witness :
  (@protect Reference.driver client_creates store
     = (Next (as_client client_creates), looked_up client_id) /\
   includes ["vendor"] (client !! "role") = false) /\
  @VendorRoutes.post Reference.driver ReferenceCreation.creation client_creates store
    = (access_denied, looked_up client_id) /\
  @Routes.delete Reference.driver client_creates store
    = (access_denied, looked_up client_id).
Proof.
  assert (@protect Reference.driver client_creates store
          = (Next (as_client client_creates), looked_up client_id)) as Hp
    by (vm_compute; reflexivity).
  destruct (@vendor_routes_refuse_other_roles Reference.driver ReferenceCreation.creation
              client_creates store _ _ client Hp eq_refl)
    as (Hvendor & Hdel & _).
  destruct (Hvendor eq_refl) as (Hpost & _).
  split; [split; [exact Hp | reflexivity] |].
  split; [exact Hpost | exact (Hdel eq_refl)].
Defined.

Lemma writing_is_confined_to_one_document_witness :
  (@ObjectId_hex Reference.driver (params_id (as_admin admin_on_HAIRCUT)) = haircut_id /\
   facial_id ≠ @ObjectId_hex Reference.driver (params_id (as_admin admin_on_HAIRCUT))) /\
  services (@Controller.deleteService Reference.driver
              (as_admin admin_on_HAIRCUT) (looked_up admin_id)).2 !! facial_id
    = Some facial /\
  services (@Controller.deleteService Reference.driver
              (as_admin admin_on_HAIRCUT) (looked_up admin_id)).2 !! haircut_id
    = None.
Proof.
  assert (facial_id ≠ @ObjectId_hex Reference.driver
                        (params_id (as_admin admin_on_HAIRCUT))) as Hne
    by discriminate.
  destruct (@writing_is_confined_to_one_document Reference.driver
              ReferenceCreation.creation (as_admin admin_on_HAIRCUT) (looked_up admin_id))
    as (_ & Hdel & _).
  split; [split; [reflexivity | exact Hne] |].
  split; [by rewrite (Hdel facial_id Hne) | reflexivity].
Defined.

Lemma delete_by_a_stranger_removes_nothing_witness :
  (@protect Reference.driver vendor2_on_haircut store
     = (Next (as_vendor2 vendor2_on_haircut), looked_up vendor2_id) /\
   vendor2_id ≠ vendor1_id) /\
  (@Routes.delete Reference.driver vendor2_on_haircut store).1 = delete_forbidden /\
  services (@Routes.delete Reference.driver vendor2_on_haircut store).2 !! haircut_id
    = Some haircut.
Proof.
  assert (@protect Reference.driver vendor2_on_haircut store
          = (Next (as_vendor2 vendor2_on_haircut), looked_up vendor2_id)) as Hp
    by (vm_compute; reflexivity).
  assert (vendor2_id ≠ vendor1_id) as Hne by discriminate.
  destruct (@delete_by_a_stranger_removes_nothing Reference.driver
              vendor2_on_haircut store _ _ vendor2 haircut vendor2_id vendor1_id
              Hp eq_refl eq_refl eq_refl eq_refl eq_refl Hne eq_refl)
    as (_ & _ & Hroute).
  destruct (Hroute eq_refl) as (Hanswer & Hkept).
  split; [split; assumption |]. by split.
Defined.

Lemma update_revisions_agree_without_upload_witness :
  file (as_vendor1 reprice) = None /\
  @LegacyController.updateService Reference.driver (as_vendor1 reprice) (looked_up vendor1_id)
  = @Controller.updateService Reference.driver (as_vendor1 reprice) (looked_up vendor1_id).
Proof.
  split; [reflexivity |].
  exact (@update_revisions_agree_without_upload Reference.driver
           (as_vendor1 reprice) (looked_up vendor1_id) eq_refl).
Defined.

Lemma owner_update_sets_the_body_and_keeps_the_rest_witness :
  (user (as_vendor1 restyle) = Some vendor1 /\
   body (as_vendor1 restyle) !! "title" = Some (JS.VStr "  Bob cut  ") /\
   haircut !! "price" = Some (JS.VNum (JS.Finite (50 # 1)))) /\
  exists d,
    services (@Controller.updateService Reference.driver
                (as_vendor1 restyle) (looked_up vendor1_id)).2 !! haircut_id = Some d /\
    d !! "title" = Some (JS.VStr "Bob cut") /\
    d !! "price" = Some (JS.VNum (JS.Finite (60 # 1))) /\
    d !! "duration" = Some (JS.VNum (JS.Finite (30 # 1))) /\
    d !! "category" = Some (JS.VStr "Hair") /\
    d !! "vendorId" = Some (JS.VStr vendor1_id).
Proof.
  assert (@well_typed Reference.driver (delete "vendorId" (body (as_vendor1 restyle))))
    as Htyped.
  { unfold well_typed. apply (bool_decide_unpack _). vm_compute. exact I. }
  destruct (@owner_update_sets_the_body_and_keeps_the_rest Reference.driver
              (as_vendor1 restyle) (looked_up vendor1_id) vendor1 haircut vendor1_id
              eq_refl eq_refl eq_refl eq_refl eq_refl Htyped eq_refl)
    as (d & _ & Hstored & _ & Howner & Hset & Hkept & _).
  split; [repeat split; reflexivity |].
  exists d. split; [exact Hstored |]. split; [| split; [| split; [| split]]].
  - apply (Hset "title" (JS.VStr "  Bob cut  ")); [reflexivity | discriminate | by left].
  - apply (Hset "price" (JS.VNum (JS.Finite (60 # 1))));
      [reflexivity | discriminate | by left].
  - apply (Hset "duration" (JS.VStr "30")); [reflexivity | discriminate | by left].
  - rewrite (Hkept "category"); [reflexivity | reflexivity | discriminate | by left].
  - exact Howner.
Defined.


Lemma stored_token_is_the_token_verified_witness :
  (Api.localStorage signed_in !! "token" = Some ("signed." +:+ vendor1_id) /\
   spaceless ("signed." +:+ vendor1_id)) /\
  bearer_token (sent_by signed_in plain_request) = Some ("signed." +:+ vendor1_id) /\
  (@protect Reference.driver (sent_by signed_in plain_request) store).1
    = Next (set_user (Some vendor1) (sent_by signed_in plain_request)).
Proof.
  assert (spaceless ("signed." +:+ vendor1_id)) as Hsp.
  { unfold spaceless. vm_compute. repeat constructor; discriminate. }
  assert ("signed." +:+ vendor1_id ≠ "") as Hne by discriminate.
  destruct (@stored_token_is_the_token_verified Reference.driver signed_in
              ("signed." +:+ vendor1_id) plain_request store eq_refl Hne Hsp)
    as (_ & Hb & _ & Hok).
  split; [split; [reflexivity | exact Hsp] |]. split; [exact Hb |].
  exact (Hok vendor1_id (account vendor1_id "vera" "vendor") eq_refl eq_refl eq_refl).
Defined.

Lemma signed_out_browser_is_refused_witness :
  authorization plain_request = None /\
  Api.isAuthenticated signed_in = true /\
  Api.isAuthenticated (Api.logout signed_in) = false /\
  @Routes.get_all Reference.driver (sent_by (Api.logout signed_in) plain_request) store
    = (no_token_answer, store).
Proof.
  destruct (@signed_out_browser_is_refused Reference.driver ReferenceCreation.creation
              signed_in plain_request store eq_refl)
    as (_ & _ & _ & _ & _ & _ & Hout & Hall & _).
  split; [reflexivity |]. split; [reflexivity |]. by split.
Defined.

Lemma login_stores_the_token_logout_removes_it_witness :
  "signed.abc" ≠ "" /\
  Api.isAuthenticated
    (Api.login_answered (Some "signed.abc") "{}" (Api.mkBrowser ∅ "/login")) = true /\
  Api.request_interceptor
    (Api.logout (Api.login_answered (Some "signed.abc") "{}" (Api.mkBrowser ∅ "/login")))
    None = None.
Proof.
  assert ("signed.abc" ≠ "") as Hne by discriminate.
  destruct (login_stores_the_token_logout_removes_it (Api.mkBrowser ∅ "/login")
              "signed.abc" "{}" Hne) as (_ & _ & Hin & _ & _ & _ & _ & Hout).
  split; [exact Hne |]. by split.
Defined.

Lemma accepted_password_is_never_weak_witness :
  RegisterPage.validatePassword "Glambook2024" = "" /\
  RegisterPage.getPasswordStrength "Glambook2024" = ("Strong", "text-green-600") /\
  RegisterPage.validatePassword "Glam2024" = "" /\
  RegisterPage.getPasswordStrength "Glam2024" = ("Medium", "text-yellow-600").
Proof.
  destruct (accepted_password_is_never_weak "Glambook2024") as (_ & Hlong).
  destruct (accepted_password_is_never_weak "Glam2024") as (_ & Hshort).
  destruct (Hlong eq_refl) as (Hstrong & _).
  destruct (Hshort eq_refl) as (_ & Hmedium).
  split; [reflexivity |]. split.
  - apply Hstrong. left. simpl. lia.
  - split; [reflexivity |]. apply Hmedium. intros [Hl | Hs].
    + simpl in Hl. lia.
    + apply Exists_exists in Hs as (c & Hc & Hsp).
      simpl in Hc. set_unfold in Hc.
      repeat (destruct Hc as [-> | Hc]; [vm_compute in Hsp; discriminate |]).
      done.
Defined.

Lemma accepted_email_shape_witness :
  RegisterPage.validateEmail "vera@glambook.test" = "" /\
  (5 <= String.length "vera@glambook.test")%nat /\
  RegisterPage.validateEmail "vera@glambook" ≠ "".
Proof.
  destruct (accepted_email_shape "vera@glambook.test") as (_ & Hshape).
  destruct (Hshape eq_refl) as (_ & Hlen & _).
  split; [reflexivity |]. split; [exact Hlen | discriminate].
Defined.

Lemma dashboard_filter_shows_matching_services_in_order_witness :
  VendorDashboard.filteredServices
    [VendorDashboard.mkService haircut_id "Haircut" "Professional cut" "Hair" "active";
     VendorDashboard.mkService facial_id "Facial" "Deep cleansing" "Skincare" "inactive"]
    "HAIR" "all" "active"
  = [VendorDashboard.mkService haircut_id "Haircut" "Professional cut" "Hair" "active"] /\
  VendorDashboard.mkService haircut_id "Haircut" "Professional cut" "Hair" "active"
    ∈ [VendorDashboard.mkService haircut_id "Haircut" "Professional cut" "Hair" "active";
       VendorDashboard.mkService facial_id "Facial" "Deep cleansing" "Skincare" "inactive"].
Proof.
  destruct (dashboard_filter_shows_matching_services_in_order
              [VendorDashboard.mkService haircut_id "Haircut" "Professional cut" "Hair" "active";
               VendorDashboard.mkService facial_id "Facial" "Deep cleansing" "Skincare" "inactive"]
              "HAIR" "all" "active") as (_ & _ & Hin & _).
  split; [reflexivity |].
  apply (Hin (VendorDashboard.mkService haircut_id "Haircut" "Professional cut" "Hair" "active")).
  apply list_elem_of_In. simpl. tauto.
Defined.


Lemma reading_never_writes_witness :
  same_documents (looked_up client_id)
    (@Controller.getAllServices Reference.driver
       (as_client client_lists_inactive) (looked_up client_id)).2 /\
  same_documents store (@protect Reference.driver ghost store).2.
Proof.
  destruct (@reading_never_writes Reference.driver
              (as_client client_lists_inactive) (looked_up client_id)) as (Hall & _).
  destruct (@reading_never_writes Reference.driver ghost store) as (_ & _ & _ & Hp).
  by split.
Defined.

Lemma typed_phone_keeps_the_first_ten_digits_witness :
  RegisterPage.phone_typed "(555) 123-4567 ext. 89" = "5551234567" /\
  RegisterPage.validatePhone (RegisterPage.phone_typed "(555) 123-4567 ext. 89") = "" /\
  RegisterPage.validatePhone "555-1234" ≠ "".
Proof.
  destruct (typed_phone_keeps_the_first_ten_digits "(555) 123-4567 ext. 89")
    as (_ & _ & _ & _ & Hten).
  split; [reflexivity |]. split; [| discriminate].
  apply Hten. vm_compute. lia.
Defined.

Lemma dashboard_counts_and_forgets_the_deleted_witness :
  VendorDashboard.mkService facial_id "Facial" "Deep cleansing" "Skincare" "inactive"
    ∈ VendorDashboard.after_delete
        [VendorDashboard.mkService haircut_id "Haircut" "Professional cut" "Hair" "active";
         VendorDashboard.mkService facial_id "Facial" "Deep cleansing" "Skincare" "inactive"]
        haircut_id.
Proof.
  destruct (dashboard_counts_and_forgets_the_deleted
              [VendorDashboard.mkService haircut_id "Haircut" "Professional cut" "Hair" "active";
               VendorDashboard.mkService facial_id "Facial" "Deep cleansing" "Skincare" "inactive"]
              haircut_id) as (_ & Hin & _).
  apply Hin. split; [| discriminate].
  apply list_elem_of_In. simpl. tauto.
Defined.
